(** * KrishnaAI: conversation memory, intent router, extractor and retriever

    A shallow embedding of the conversation-memory and context-assembly
    core of the KrishnaAI repository, with the properties of its
    specification stated and settled against it.

    Layout (definitions first, theorems afterwards):
    - [Py]: Python text as sequences of code points and the [str]
      methods the sources use;
    - [Re]: a backtracking matcher for the regular expressions of
      [_track_entities];
    - [Sql]: rows, tables and [ORDER BY timestamp ASC];
    - [LangChainMemoryManager], [MemoryManager]: the two store classes
      (krishna_agent.py and memory_manager.py);
    - [ScriptureLangChain], [ScriptureReader]: the term-overlap retrievers;
    - [KrishnaAgent]: the router [get_response], [_track_entities],
      [delete_conversation] and [get_conversation_history];
    - [Backend]: the same classes as krishna_backend/core has them;
    - [Housekeeping], [PastConversations], [UserInfo]:
      [delete_all_conversations], the topics of past messages and the
      user-information table;
    - [Validators], [RateLimit]: input validation and the request limiter
      of the backend's API;
    - [BackendSessions]: [set_session_id], [process_message] and
      [get_conversation_history] of the backend agent. *)

From Stdlib Require Import ZArith NArith List Ascii String Lia Sorted Permutation Bool.
From stdpp Require Import gmap strings list.
From Stdlib Require Lqa.

Set Default Proof Using "Type".
Open Scope N_scope.

(** ** Python text *)

(** A Python [str] is a sequence of Unicode code points. *)
Abbreviation pystr := (list N).

Module Py.

(** ASCII literal: the code points of a source-code string literal. *)
Definition u (s : string) : pystr :=
  map (fun a : ascii => N_of_ascii a) (list_ascii_of_string s).

(** [str.lower()] on the code points A-Z; every other code point is left
    alone (Python also folds cased letters outside ASCII). *)
Definition lower_cp (c : N) : N :=
  if (65 <=? c) && (c <=? 90) then c + 32 else c.

Definition lower (s : pystr) : pystr := map lower_cp s.

(** [str.isupper()] for one character, on ASCII. *)
Definition is_upper_cp (c : N) : bool := (65 <=? c) && (c <=? 90).
Definition is_lower_cp (c : N) : bool := (97 <=? c) && (c <=? 122).
Definition is_digit_cp (c : N) : bool := (48 <=? c) && (c <=? 57).

(** Word characters of [\w] (ASCII letters, digits and underscore). *)
Definition is_word_cp (c : N) : bool :=
  is_upper_cp c || is_lower_cp c || is_digit_cp c || (c =? 95).

(** Whitespace as [str.isspace], [str.strip], [str.split] and the regular
    expression class [\s] see it. *)
Definition is_space (c : N) : bool :=
  ((9 <=? c) && (c <=? 13)) || ((28 <=? c) && (c <=? 32)) ||
  (c =? 133) || (c =? 160) || (c =? 5760) ||
  ((8192 <=? c) && (c <=? 8202)) || (c =? 8232) || (c =? 8233) ||
  (c =? 8239) || (c =? 8287) || (c =? 12288).

Fixpoint streq (a b : pystr) : bool :=
  match a, b with
  | [], [] => true
  | x :: a', y :: b' => (x =? y) && streq a' b'
  | _, _ => false
  end.

(** [s.startswith(p)] *)
Fixpoint startswith (p s : pystr) : bool :=
  match p, s with
  | [], _ => true
  | x :: p', y :: s' => (x =? y) && startswith p' s'
  | _ :: _, [] => false
  end.

(** [s.endswith(p)] *)
Definition endswith (p s : pystr) : bool := startswith (rev p) (rev s).

(** [p in s] *)
Fixpoint contains (p s : pystr) : bool :=
  startswith p s ||
  match s with
  | [] => false
  | _ :: s' => contains p s'
  end.

(** [s.find(p)], with [None] for Python's -1. *)
Fixpoint find_from (i : nat) (p s : pystr) : option nat :=
  if startswith p s then Some i
  else match s with
       | [] => None
       | _ :: s' => find_from (S i) p s'
       end.

Definition str_find (p s : pystr) : option nat := find_from 0 p s.

(** [any(w in s for w in ws)] *)
Definition any_in (ws : list pystr) (s : pystr) : bool :=
  existsb (fun w => contains w s) ws.

(** [w in ws] for a list of strings. *)
Definition mem (w : pystr) (ws : list pystr) : bool :=
  existsb (streq w) ws.

Fixpoint lstrip (s : pystr) : pystr :=
  match s with
  | c :: s' => if is_space c then lstrip s' else s
  | [] => []
  end.

Definition rstrip (s : pystr) : pystr := rev (lstrip (rev s)).

(** [s.strip()] *)
Definition strip (s : pystr) : pystr := rstrip (lstrip s).

(** [s.replace(old, "")]: the occurrences of [old] are deleted from left to
    right without overlap; [skip] counts the characters of the occurrence
    being deleted. *)
Fixpoint delete_from (old : pystr) (skip : nat) (s : pystr) : pystr :=
  match s with
  | [] => []
  | c :: s' =>
      match skip with
      | S k => delete_from old k s'
      | O => if startswith old s
             then delete_from old (length old - 1) s'
             else c :: delete_from old 0 s'
      end
  end.

Definition delete_all (old s : pystr) : pystr :=
  match old with
  | [] => s
  | _ => delete_from old 0 s
  end.

(** [s.split()] *)
Fixpoint split_ws_from (cur : pystr) (s : pystr) : list pystr :=
  match s with
  | [] => match cur with [] => [] | _ => [rev cur] end
  | c :: s' =>
      if is_space c
      then match cur with
           | [] => split_ws_from [] s'
           | _ => rev cur :: split_ws_from [] s'
           end
      else split_ws_from (c :: cur) s'
  end.

Definition split_ws (s : pystr) : list pystr := split_ws_from [] s.

(** [s.split(sep)] for a one-character separator. *)
Fixpoint split_on_from (sep : N) (cur : pystr) (s : pystr) : list pystr :=
  match s with
  | [] => [rev cur]
  | c :: s' =>
      if c =? sep then rev cur :: split_on_from sep [] s'
      else split_on_from sep (c :: cur) s'
  end.

Definition split_on (sep : N) (s : pystr) : list pystr := split_on_from sep [] s.

(** [sep.join(parts)] *)
Fixpoint str_join (sep : pystr) (parts : list pystr) : pystr :=
  match parts with
  | [] => []
  | [p] => p
  | p :: rest => p ++ sep ++ str_join sep rest
  end.

(** [str(n)] for a non-negative integer. *)
Fixpoint digits_from (fuel : nat) (n : N) (acc : pystr) : pystr :=
  match fuel with
  | O => acc
  | S f => let acc' := (48 + n mod 10) :: acc in
           if n / 10 =? 0 then acc' else digits_from f (n / 10) acc'
  end.

Definition str_of_N (n : N) : pystr := digits_from (S (N.to_nat n)) n [].

(** Lexicographic order on code points: the order of SQLite's BINARY
    collation on the UTF-8 encoding of two TEXT values. *)
Fixpoint strle (a b : pystr) : bool :=
  match a, b with
  | [], _ => true
  | _ :: _, [] => false
  | x :: a', y :: b' => (x <? y) || ((x =? y) && strle a' b')
  end.

End Py.

Import Py.

(** ** Regular expressions of the entity extractor *)
Module Re.

Inductive re : Type :=
| Eps
| Chr (p : N -> bool)
| Seq (a b : re)
| Alt (a b : re)
| Star (a : re)
| WordB
| Group (a : re).

Definition Plus (a : re) : re := Seq a (Star a).
Definition Opt (a : re) : re := Alt a Eps.

(** A literal word. *)
Fixpoint Lit (s : pystr) : re :=
  match s with
  | [] => Eps
  | c :: s' => Seq (Chr (N.eqb c)) (Lit s')
  end.

(** An alternation of literal words, tried from left to right. *)
Fixpoint Words (ws : list string) : re :=
  match ws with
  | [] => Chr (fun _ => false)
  | [w] => Lit (u w)
  | w :: rest => Alt (Lit (u w)) (Words rest)
  end.

(** Matcher state: characters consumed, the character before the cursor,
    the rest of the subject, and the span of group 1. *)
Record st : Type := mkSt {
  pos : nat;
  prev : option N;
  rest : pystr;
  grp : option (nat * nat)
}.

Definition is_word_opt (o : option N) : bool :=
  match o with Some c => is_word_cp c | None => false end.

Definition at_boundary (s : st) : bool :=
  xorb (is_word_opt (prev s)) (is_word_opt (head (rest s))).

(** Backtracking match in continuation-passing style; greedy repetition,
    leftmost alternative first.  [fuel] bounds the iterations of a star,
    each of which has to consume a character. *)
Fixpoint rmatch (fuel : nat) : re -> st -> (st -> option st) -> option st :=
  fix go (r : re) (s : st) (k : st -> option st) : option st :=
    match r with
    | Eps => k s
    | Chr p =>
        match rest s with
        | c :: t => if p c then k (mkSt (S (pos s)) (Some c) t (grp s)) else None
        | [] => None
        end
    | Seq a b => go a s (fun s1 => go b s1 k)
    | Alt a b =>
        match go a s k with
        | Some x => Some x
        | None => go b s k
        end
    | Star a =>
        match fuel with
        | O => k s
        | S f =>
            match go a s (fun s1 =>
                    if Nat.eqb (pos s1) (pos s) then None
                    else rmatch f (Star a) s1 k) with
            | Some x => Some x
            | None => k s
            end
        end
    | WordB => if at_boundary s then k s else None
    | Group a => go a s (fun s1 => k (mkSt (pos s1) (prev s1) (rest s1)
                                           (Some (pos s, pos s1))))
    end.

Definition match_here (r : re) (s : st) : option st :=
  rmatch (S (length (rest s))) r s Some.

Definition slice (whole : pystr) (a b : nat) : pystr :=
  firstn (b - a) (skipn a whole).

(** The text [re.findall] reports for one match: group 1 when the pattern
    has a group, the whole match otherwise. *)
Definition reported (whole : pystr) (start : nat) (e : st) : pystr :=
  match grp e with
  | Some (a, b) => slice whole a b
  | None => slice whole start (pos e)
  end.

(** [re.findall(r, whole)]: scan from left to right, resume after each
    match.  [skip] counts the characters of the current match still to be
    passed over. *)
Fixpoint findall_from (r : re) (whole : pystr) (skip : nat)
         (i : nat) (pv : option N) (s : pystr) : list pystr :=
  match s with
  | [] => []
  | c :: s' =>
      match skip with
      | S k => findall_from r whole k (S i) (Some c) s'
      | O =>
          match match_here r (mkSt i pv s None) with
          | Some e =>
              reported whole i e ::
              findall_from r whole (pos e - i - 1) (S i) (Some c) s'
          | None => findall_from r whole 0 (S i) (Some c) s'
          end
      end
  end.

Definition findall (r : re) (s : pystr) : list pystr :=
  findall_from r s 0 0 None s.

End Re.

(** ** Python values, exceptions and results *)

Inductive pyval : Type :=
| PNone
| PInt (z : Z)
| PStr (s : pystr).

(** The exceptions the modelled code can meet, all subclasses of
    [Exception]. *)
Inductive PyExc : Type :=
| AttributeError (attribute : string)
| GatewayError (detail : pystr)
| ValueError (detail : string).

Inductive Result (A : Type) : Type :=
| Ok (a : A)
| Raise (e : PyExc).
Arguments Ok {A} a.
Arguments Raise {A} e.

(** A LangChain message object, as [add_user_message] and [add_ai_message]
    create them: attribute [type] is "human" or "ai", attribute [content]
    is the text. *)
Inductive BaseMessage : Type :=
| HumanMessage (content : pystr)
| AIMessage (content : pystr).

(** A message as the router meets it in a history: a LangChain message
    object or a plain dict. *)
Inductive ChatMessage : Type :=
| Obj (b : BaseMessage)
| DictMessage (d : gmap string pystr).

(** ** The SQLite file *)
Module Sql.

Record ConversationRow : Type := mkConversation {
  c_id : N;
  c_user_id : pystr;
  c_timestamp : pystr;
  c_message : pystr;
  c_sender : pystr
}.

Record MoodRow : Type := mkMood {
  m_user_id : pystr;
  m_timestamp : pystr;
  m_mood : option pystr
}.

Record SummaryRow : Type := mkSummary {
  s_user_id : pystr;
  s_timestamp : pystr;
  s_summary : pystr
}.

Record TombstoneRow : Type := mkTombstone {
  t_session_id : pystr;
  t_deleted_at : pystr
}.

(** The tables the modelled operations read or write.  The connection is
    taken to be usable throughout: sqlite3 errors (a closed connection, a
    full disk) are outside the model, and so are the handlers that exist
    only for them. *)
Record Database : Type := mkDatabase {
  conversations : list ConversationRow;
  mood_checkins : list MoodRow;
  conversation_summaries : list SummaryRow;
  deleted_sessions : list TombstoneRow
}.

Definition empty : Database := mkDatabase [] [] [] [].

(** [INTEGER PRIMARY KEY]: one more than the largest id in use. *)
Definition next_id (rows : list ConversationRow) : N :=
  1 + fold_right N.max 0 (map c_id rows).

(** [ORDER BY timestamp ASC]: a stable insertion sort on the timestamp
    text. *)
Section OrderBy.
Context {A : Type} (ts : A -> pystr).

Fixpoint insert_by (x : A) (l : list A) : list A :=
  match l with
  | [] => [x]
  | y :: l' => if strle (ts x) (ts y) then x :: l else y :: insert_by x l'
  end.

Definition order_by_asc (l : list A) : list A :=
  fold_right insert_by [] l.

(** [ORDER BY timestamp DESC]: newest first; rows with equal timestamps
    come out in insertion order here too (the sorter keeps the order of
    the scan among equal keys, whatever the direction). *)
Fixpoint insert_by_desc (x : A) (l : list A) : list A :=
  match l with
  | [] => [x]
  | y :: l' => if strle (ts y) (ts x) then x :: l else y :: insert_by_desc x l'
  end.

Definition order_by_desc (l : list A) : list A :=
  fold_right insert_by_desc [] l.
End OrderBy.

(** [INSERT INTO conversations (user_id, timestamp, message, sender)] *)
Definition insert_conversation (user_id ts message sender : pystr)
           (d : Database) : Database :=
  mkDatabase
    (conversations d ++
       [mkConversation (next_id (conversations d)) user_id ts message sender])
    (mood_checkins d) (conversation_summaries d) (deleted_sessions d).

(** [INSERT INTO mood_checkins (user_id, timestamp, mood)] *)
Definition insert_mood (user_id ts : pystr) (mood : option pystr)
           (d : Database) : Database :=
  mkDatabase (conversations d)
    (mood_checkins d ++ [mkMood user_id ts mood])
    (conversation_summaries d) (deleted_sessions d).

(** [SELECT ... FROM conversations WHERE user_id = ? ORDER BY timestamp ASC] *)
Definition select_conversation (user_id : pystr) (d : Database)
  : list ConversationRow :=
  order_by_asc c_timestamp
    (List.filter (fun r => streq (c_user_id r) user_id) (conversations d)).

(** The three [DELETE FROM ... WHERE user_id = ?] statements of
    [delete_conversation]. *)
Definition delete_session_rows (user_id : pystr) (d : Database) : Database :=
  mkDatabase
    (List.filter (fun r => negb (streq (c_user_id r) user_id)) (conversations d))
    (List.filter (fun r => negb (streq (m_user_id r) user_id)) (mood_checkins d))
    (List.filter (fun r => negb (streq (s_user_id r) user_id))
       (conversation_summaries d))
    (deleted_sessions d).

(** [INSERT OR REPLACE INTO deleted_sessions (session_id, deleted_at)];
    [session_id] is UNIQUE, so a previous row for it is replaced. *)
Definition insert_or_replace_tombstone (session_id ts : pystr)
           (d : Database) : Database :=
  mkDatabase (conversations d) (mood_checkins d) (conversation_summaries d)
    (List.filter (fun r => negb (streq (t_session_id r) session_id))
       (deleted_sessions d) ++ [mkTombstone session_id ts]).

End Sql.

(** ** LangChainMemoryManager (krishna_agent.py) *)
Module LangChainMemoryManager.
Import Sql.

(** The manager owns the connection and one LangChain buffer
    ([self.memory.chat_memory.messages]); the buffer is not keyed by
    session. *)
Record t : Type := mk {
  db : Database;
  chat_memory : list BaseMessage
}.

Definition init (d : Database) : t := mk d [].

(** [add_user_message(message)] or [add_ai_message(message)] *)
Definition to_chat (message sender : pystr) : BaseMessage :=
  if streq sender (u "user") then HumanMessage message else AIMessage message.

(** [save_message(user_id, message, sender)]; [now] is the text
    [datetime.now().isoformat()] returned. *)
Definition save_message (m : t) (user_id message sender now : pystr) : t :=
  mk (insert_conversation user_id now message sender (db m))
     (chat_memory m ++ [to_chat message sender]).

Definition role_content (role content : pystr) : gmap string pystr :=
  <["role" := role]> (<["content" := content]> ∅).

Definition to_dict (r : ConversationRow) : ChatMessage :=
  if streq (c_sender r) (u "user")
  then DictMessage (role_content (u "user") (c_message r))
  else DictMessage (role_content (u "assistant") (c_message r)).

(** [get_conversation_messages(user_id, limit=30)] *)
Definition get_conversation_messages (m : t) (user_id : pystr) (limit : nat)
  : list ChatMessage :=
  match chat_memory m with
  | _ :: _ => map Obj (chat_memory m)
  | [] => map to_dict (firstn limit (select_conversation user_id (db m)))
  end.

(** [save_mood(user_id, mood)] *)
Definition save_mood (m : t) (user_id : pystr) (mood : option pystr)
           (now : pystr) : t :=
  mk (insert_mood user_id now mood (db m)) (chat_memory m).

(** One line of the mood history; [ts.split("T")[1]] raises IndexError for
    a timestamp without a "T", which [get_memory_context] turns into the
    empty context. *)
Definition mood_line (r : MoodRow) : option pystr :=
  match split_on 84 (m_timestamp r) with
  | date :: time_part :: _ =>
      let time := hd [] (split_on 46 time_part) in
      let mood := match m_mood r with Some x => x | None => u "None" end in
      Some (u "- " ++ date ++ u " " ++ time ++ u ": " ++ mood ++ [10])
  | _ => None
  end.

Fixpoint mood_lines (rows : list MoodRow) : option pystr :=
  match rows with
  | [] => Some []
  | r :: rest =>
      match mood_line r, mood_lines rest with
      | Some l, Some ls => Some (l ++ ls)
      | _, _ => None
      end
  end.

(** [get_memory_context(user_id)] *)
Definition get_memory_context (m : t) (user_id : pystr) : pystr :=
  let mood_history :=
    firstn 3 (order_by_desc m_timestamp
      (List.filter (fun r => streq (m_user_id r) user_id) (mood_checkins (db m)))) in
  match mood_history with
  | [] => []
  | _ => match mood_lines mood_history with
         | Some ls => u "Previous moods detected:" ++ [10] ++ ls
         | None => []
         end
  end.

(** [load_conversation_history(user_id, limit=30)]: the buffer is cleared
    and refilled with the oldest [limit] rows of the session. *)
Definition load_conversation_history (m : t) (user_id : pystr) (limit : nat) : t :=
  mk (db m)
     (map (fun r => to_chat (c_message r) (c_sender r))
          (firstn limit (select_conversation user_id (db m)))).

(** The methods the class defines.  There is no [mark_session_deleted],
    [is_session_deleted] or [get_all_deleted_sessions] among them: those
    exist on [MemoryManager] (memory_manager.py) only. *)
Definition methods : list string :=
  ["__init__"; "_create_tables"; "save_message"; "get_conversation_messages";
   "save_mood"; "get_memory_context"; "load_conversation_history"; "close";
   "get_all_conversation_sessions"; "get_past_conversations";
   "_extract_topics_from_messages"]%string.

(** Looking up a tombstone method on a manager object: the implementation
    to call when the class has the method. *)
Definition lookup_method (name : string)
           (implementation : t -> pystr -> pystr -> t)
  : option (t -> pystr -> pystr -> t) :=
  if existsb (String.eqb name) methods then Some implementation else None.

End LangChainMemoryManager.

(** ** MemoryManager (memory_manager.py) *)
Module MemoryManager.
Import Sql.

Record t : Type := mk {
  db : Database;
  conversation_memory : list BaseMessage
}.

(** [save_message(user_id, message, sender)] *)
Definition save_message (m : t) (user_id message sender now : pystr) : t :=
  mk (insert_conversation user_id now message sender (db m))
     (conversation_memory m ++ [LangChainMemoryManager.to_chat message sender]).

(** [mark_session_deleted(session_id)]: the new state and the [True] it
    returns. *)
Definition mark_session_deleted (m : t) (session_id now : pystr) : t * bool :=
  (mk (insert_or_replace_tombstone session_id now (db m)) (conversation_memory m),
   true).

(** [is_session_deleted(session_id)] *)
Definition is_session_deleted (m : t) (session_id : pystr) : bool :=
  existsb (fun r => streq (t_session_id r) session_id) (deleted_sessions (db m)).

(** [get_all_deleted_sessions()]: the query has no [ORDER BY] and reads
    one column that the UNIQUE index on [session_id] covers, so the rows
    are read from that index and come out in the order of the session
    ids. *)
Definition get_all_deleted_sessions (m : t) : list pystr :=
  map t_session_id (order_by_asc t_session_id (deleted_sessions (db m))).

End MemoryManager.

(** ** ScriptureLangChain (scripture_langchain.py) *)
Module ScriptureLangChain.

(** A LangChain [Document]: the chunk text and the metadata entries the
    retriever reads. *)
Record Document : Type := mkDocument {
  page_content : pystr;
  source_display : option pystr;
  source : option pystr;
  page : option Z
}.

Record t : Type := mk { documents : list Document }.

(** One entry of the list [find_relevant_passages] returns. *)
Record Passage : Type := mkPassage {
  p_content : pystr;
  p_source : pystr;
  p_score : nat;
  p_page : Z
}.

(** [sum(1 for term in query_terms if term in content)] *)
Definition score_of (query_terms : list pystr) (content : pystr) : nat :=
  length (List.filter (fun term => contains term content) query_terms).

Definition doc_score (query : pystr) (doc : Document) : nat :=
  score_of (split_ws (lower query)) (lower (page_content doc)).

(** [matches.sort(key=lambda x: x[1], reverse=True)]: stable, highest score
    first. *)
Fixpoint insert_desc (x : Document * nat) (l : list (Document * nat))
  : list (Document * nat) :=
  match l with
  | [] => [x]
  | y :: l' => if Nat.leb (snd y) (snd x) then x :: l else y :: insert_desc x l'
  end.

Definition sort_desc (l : list (Document * nat)) : list (Document * nat) :=
  fold_right insert_desc [] l.

Definition metadata_source (doc : Document) : pystr :=
  match source_display doc with
  | Some s => s
  | None => match source doc with Some s => s | None => u "Unknown" end
  end.

Definition to_passage (x : Document * nat) : Passage :=
  mkPassage (page_content (fst x)) (metadata_source (fst x)) (snd x)
            (match page (fst x) with Some p => p | None => 0%Z end).

Definition scored (query : pystr) (docs : list Document) : list (Document * nat) :=
  List.filter (fun x => Nat.ltb 0 (snd x))
    (map (fun doc => (doc, doc_score query doc)) docs).

(** [_keyword_fallback(query, k=2)] *)
Definition _keyword_fallback (r : t) (query : pystr) (k : nat) : list Passage :=
  match documents r with
  | [] => []
  | _ => map to_passage (firstn k (sort_desc (scored query (documents r))))
  end.

(** [find_relevant_passages(query, k=2)] *)
Definition find_relevant_passages (r : t) (query : pystr) (k : nat) : list Passage :=
  _keyword_fallback r query k.

(** [find_relevant_passage(query)]: a tuple [(text, source, page)], or
    [(None, None, None)]. *)
Definition find_relevant_passage (r : t) (query : pystr) : pyval * pyval * pyval :=
  match find_relevant_passages r query 1 with
  | passage :: _ =>
      (PStr (p_content passage), PStr (p_source passage), PInt (p_page passage))
  | [] => (PNone, PNone, PNone)
  end.

End ScriptureLangChain.

(** ** ScriptureReader (scripture_reader.py) *)
Module ScriptureReader.

(** [scripture_cache]: file name to preprocessed text, in insertion order. *)
Record t : Type := mk { scripture_cache : list (pystr * pystr) }.

Record Match : Type := mkMatch {
  m_source : pystr;
  m_content : pystr;
  m_score : nat
}.

Definition is_punct (c : N) : bool :=
  (c =? 46) || (c =? 44) || (c =? 59) || (c =? 58) || (c =? 33) || (c =? 63).

Definition is_letter (c : N) : bool := is_upper_cp c || is_lower_cp c.

(** [re.sub(r'([.,;:!?])([A-Za-z])', r'\1 \2', text)] *)
Fixpoint space_after_punct (s : pystr) : pystr :=
  match s with
  | [] => []
  | c :: s' =>
      match s' with
      | d :: _ => if is_punct c && is_letter d
                  then c :: 32 :: space_after_punct s'
                  else c :: space_after_punct s'
      | [] => [c]
      end
  end.

(** [re.sub(r'\s+', ' ', text)] *)
Fixpoint collapse_ws (s : pystr) : pystr :=
  match s with
  | [] => []
  | c :: s' =>
      if is_space c
      then match s' with
           | d :: _ => if is_space d then collapse_ws s' else 32 :: collapse_ws s'
           | [] => [32]
           end
      else c :: collapse_ws s'
  end.

(** [_preprocess_text(text)] *)
Definition _preprocess_text (text : pystr) : pystr :=
  strip (collapse_ws (space_after_punct text)).

Definition score_of (query_words : list pystr) (text : pystr) : nat :=
  length (List.filter (fun word => contains word text) query_words).

(** The snippet around the first query word found in [text]. *)
Definition snippet_for (word text : pystr) : pystr :=
  match str_find word text with
  | Some i =>
      let start_idx := (i - 100)%nat in
      let end_idx := Nat.min (length text) (i + 200) in
      str_join [32] (split_ws (firstn (end_idx - start_idx) (skipn start_idx text)))
  | None => []
  end.

Fixpoint first_word_in (query_words : list pystr) (text : pystr) : option pystr :=
  match query_words with
  | [] => None
  | w :: ws => if contains w text then Some w else first_word_in ws text
  end.

(** The loop over [scripture_cache.items()], carrying [best_match] and
    [best_score]. *)
Fixpoint scan (query_words : list pystr) (items : list (pystr * pystr))
         (best_match : option Match) (best_score : nat) : option Match :=
  match items with
  | [] => best_match
  | (source, text) :: rest =>
      let score := score_of query_words text in
      if Nat.ltb best_score score
      then match first_word_in query_words text with
           | Some word =>
               scan query_words rest
                    (Some (mkMatch source (snippet_for word text) score)) score
           | None => scan query_words rest best_match best_score
           end
      else scan query_words rest best_match best_score
  end.

(** [find_relevant_passage(query)]: a dict, or [None]. *)
Definition find_relevant_passage (r : t) (query : pystr) : option Match :=
  match scripture_cache r with
  | [] => None
  | items => scan (split_ws (_preprocess_text query)) items None 0
  end.

End ScriptureReader.

(** ** KrishnaAgent (krishna_agent.py) *)
Module KrishnaAgent.
Import Sql Re.
#[local] Open Scope string_scope.
#[local] Open Scope N_scope.

Definition us (l : list string) : list pystr := map u l.

(** *** Entity tracking *)

(** The dict of lists [_track_entities] returns. *)
Record Entities : Type := mkEntities {
  e_people : list pystr;
  e_places : list pystr;
  e_events : list pystr;
  e_dates : list pystr
}.

(** [self.session_entities]: one set of strings per category. *)
Record EntityRegistry : Type := mkRegistry {
  people : gset pystr;
  places : gset pystr;
  events : gset pystr;
  dates : gset pystr
}.

Definition empty_registry : EntityRegistry := mkRegistry ∅ ∅ ∅ ∅.

Definition first_is_upper (word : pystr) : bool :=
  match word with
  | c :: _ => is_upper_cp c
  | [] => false
  end.

(** The names found in one sentence: capitalised words after the first. *)
Definition names_in_sentence (sentence : pystr) : list pystr :=
  List.filter
    (fun word =>
       let word := strip word in
       first_is_upper word
       && negb (mem (lower word) (us ["i"; "i'm"; "i'll"; "i've"; "i'd"]))
       && negb (mem word (us ["Krishna"; "Gita"; "Bhagavad"; "Upanishads";
                              "God"; "Hindu"; "India"])))
    (tl (split_ws sentence)).

Definition find_people (user_message : pystr) : list pystr :=
  flat_map names_in_sentence (split_on 46 user_message).

Definition ws1 : re := Plus (Chr is_space).
Definition capitalised : re := Seq (Chr is_upper_cp) (Plus (Chr is_lower_cp)).

(** The place pattern: a word boundary, one of in/at/to/from, whitespace,
    then group 1, one or more whitespace-separated capitalised words
    [[A-Z][a-z]+], and a word boundary. *)
Definition place_pattern : re :=
  Seq WordB (Seq (Words ["in"; "at"; "to"; "from"])
    (Seq ws1 (Seq (Group (Seq capitalised (Star (Seq ws1 capitalised)))) WordB))).

Definition find_places (user_message : pystr) (found_people : list pystr)
  : list pystr :=
  List.filter
    (fun place => negb (mem place found_people)
                  && negb (mem place (us ["Krishna"; "Gita"; "Bhagavad"; "God"])))
    (findall place_pattern user_message).

Definition event_indicators : list string :=
  ["wedding"; "ceremony"; "funeral"; "birthday"; "anniversary"; "meeting";
   "conference"; "interview"; "trip"; "vacation"; "travel"; "journey";
   "exam"; "test"].

(** [r'\b\w+\s+' + indicator + r'\b'] *)
Definition event_pattern (indicator : pystr) : re :=
  Seq WordB (Seq (Plus (Chr is_word_cp)) (Seq ws1 (Seq (Lit indicator) WordB))).

Definition events_for (message_lower indicator : pystr) : list pystr :=
  if contains indicator message_lower
  then match findall (event_pattern indicator) message_lower with
       | [] => [indicator]
       | matches => matches
       end
  else [].

Definition find_events (user_message : pystr) : list pystr :=
  flat_map (events_for (lower user_message)) (us event_indicators).

Definition months : list string :=
  ["january"; "february"; "march"; "april"; "may"; "june"; "july"; "august";
   "september"; "october"; "november"; "december"].

Definition day_number : re :=
  Seq (Seq (Chr is_digit_cp) (Opt (Chr is_digit_cp)))
      (Opt (Words ["st"; "nd"; "rd"; "th"])).

Definition date_patterns : list re :=
  [ Seq WordB (Seq (Words ["yesterday"; "today"; "tomorrow"]) WordB);
    Seq WordB (Seq (Words ["last"; "next"; "this"])
      (Seq ws1 (Seq (Words ["week"; "month"; "year"; "monday"; "tuesday";
                            "wednesday"; "thursday"; "friday"; "saturday";
                            "sunday"]) WordB)));
    Seq WordB (Seq (Words months) (Seq ws1 (Seq day_number WordB)));
    Seq WordB (Seq day_number
      (Seq ws1 (Seq (Opt (Seq (Lit (u "of")) ws1)) (Seq (Words months) WordB)))) ].

Definition find_dates (user_message : pystr) : list pystr :=
  flat_map (fun pattern => findall pattern (lower user_message)) date_patterns.

(** The entities one message mentions. *)
Definition extract_entities (user_message : pystr) : Entities :=
  let found_people := find_people user_message in
  mkEntities found_people
             (find_places user_message found_people)
             (find_events user_message)
             (find_dates user_message).

(** [self.session_entities[category].add(item)] for every item found. *)
Definition merge_entities (reg : EntityRegistry) (e : Entities) : EntityRegistry :=
  mkRegistry (people reg ∪ list_to_set (e_people e))
             (places reg ∪ list_to_set (e_places e))
             (events reg ∪ list_to_set (e_events e))
             (dates reg ∪ list_to_set (e_dates e)).

(** *** Mood detection *)

Definition mood_keywords : list (string * list string) :=
  [ ("happy", ["happy"; "joy"; "excited"; "great"; "blessed"; "wonderful"]);
    ("sad", ["sad"; "down"; "depressed"; "unhappy"; "lost"; "miserable"; "alone"]);
    ("anxious", ["anxious"; "worried"; "nervous"; "stress"; "fear"; "afraid"; "panic"]);
    ("peaceful", ["peace"; "calm"; "serene"; "content"; "quiet"; "still"]);
    ("angry", ["angry"; "frustrated"; "mad"; "upset"; "annoyed"; "irritated"]) ].

(** The first key of a keyword table one of whose words occurs in [text]. *)
Fixpoint first_category (table : list (string * list string)) (text : pystr)
  : option pystr :=
  match table with
  | [] => None
  | (name, words) :: rest =>
      if any_in (us words) text then Some (u name) else first_category rest text
  end.

(** [_detect_mood(message)] *)
Definition _detect_mood (message : pystr) : option pystr :=
  first_category mood_keywords (lower message).

(** *** Scripture lookup *)

Inductive Processor : Type :=
| LangChainProcessor (r : ScriptureLangChain.t)
| ReaderProcessor (r : ScriptureReader.t).

Definition has (q : pystr) (w : string) : bool := contains (u w) q.
Definition has_any (q : pystr) (ws : list string) : bool := any_in (us ws) q.

(** The loss topics named in the query, in the order the source tests
    them. *)
Definition loss_topics (q : pystr) : list pystr :=
  (if has q "friend" || has q "friendship" then [u "loss of friendship"] else []) ++
  (if has q "parent" || has q "mother" || has q "father" then [u "loss of parent"] else []) ++
  (if has q "child" then [u "loss of child"] else []) ++
  (if has q "spouse" || has q "wife" || has q "husband" || has q "partner"
   then [u "loss of spouse"] else []).

(** The topic table of [enhance_with_scripture]: the query sent to the
    retriever. *)
Definition enhanced_query (user_query : pystr) : pystr :=
  let q := lower user_query in
  if has_any q ["loss"; "lost"; "died"; "passed away"; "grief"; "death"; "mourn"] then
    match loss_topics q with
    | [] => u "scripture on dealing with loss grief and death impermanence of physical form transmigration of soul"
    | topics => u "scripture on dealing with " ++ str_join (u " ") topics
                ++ u " grief death impermanence of form"
    end
  else if has_any q ["depress"; "anxiety"; "stress"; "mental health"; "therapy";
                     "counseling"; "struggle"; "hopeless"] then
    if has q "depress" then
      u "scripture on overcoming depression sadness mental darkness finding light purpose"
    else if has q "anxiety" || has q "worry" || has q "stress" then
      u "scripture on calming anxiety reducing stress finding peace of mind"
    else if has q "anger" then
      u "scripture on controlling anger managing emotions peace"
    else u "scripture on mental health emotional balance inner wisdom peace"
  else if has_any q ["purpose"; "meaning"; "why am i here"; "dharma"; "duty"; "direction"] then
    u "scripture on finding purpose dharma duty meaning of life"
  else if has_any q ["relationship"; "love"; "partner"; "marriage"; "romantic"] then
    if has q "breakup" || has q "divorce" || has q "ex" then
      u "scripture on healing from relationship endings attachment detachment"
    else u "scripture on love relationships attachment and devotion"
  else if has_any q ["family"; "parent"; "child"; "duty to"; "obligation"; "responsibility"] then
    u "scripture on family duty dharma responsibility"
  else if has_any q ["career"; "job"; "work"; "profession"; "calling"; "vocation"] then
    if has q "lost job" || has q "fired" || has q "laid off" then
      u "scripture on dealing with career setbacks path forward dharma"
    else u "scripture on right livelihood work as service purpose in action"
  else if has_any q ["meditat"; "practice"; "spiritual"; "consciousness"; "mindful"] then
    u "scripture on meditation practice consciousness awareness"
  else if has_any q ["decision"; "choice"; "right thing"; "wrong"; "moral"; "ethics"; "dilemma"] then
    u "scripture on ethical decisions moral choices dharma karma"
  else if has_any q ["who am i"; "self"; "identity"; "true nature"; "authentic"; "real me"] then
    u "scripture on self-knowledge atman true identity beyond ego"
  else user_query.

Definition no_scripture : pyval * pyval * pyval := (PNone, PNone, PNone).

(** [enhance_with_scripture(user_query)].  Only a tuple of three is ever
    returned: a [ScriptureLangChain] answers with one at the first lookup;
    the dict (or [None]) a [ScriptureReader] answers with is not a tuple, so
    every lookup on it falls through to [(None, None, None)]. *)
Definition enhance_with_scripture (scripture_processor : option Processor)
           (user_query : pystr) : pyval * pyval * pyval :=
  match scripture_processor with
  | None => no_scripture
  | Some (LangChainProcessor r) =>
      ScriptureLangChain.find_relevant_passage r (enhanced_query user_query)
  | Some (ReaderProcessor _) => no_scripture
  end.

(** *** Reading a history *)

Definition content_of (msg : ChatMessage) : pystr :=
  match msg with
  | DictMessage d => default [] (d !! "content")
  | Obj (HumanMessage c) | Obj (AIMessage c) => c
  end.

(** [msg["timestamp"]] when [msg] is a dict that has the key. *)
Definition timestamp_of (msg : ChatMessage) : option pystr :=
  match msg with
  | DictMessage d => d !! "timestamp"
  | Obj _ => None
  end.

Definition dict_role_is (role : string) (d : gmap string pystr) : bool :=
  match d !! "role" with
  | Some r => streq r (u role)
  | None => false
  end.

Definition is_assistant (msg : ChatMessage) : bool :=
  match msg with
  | DictMessage d => dict_role_is "assistant" d
  | Obj (AIMessage _) => true
  | Obj (HumanMessage _) => false
  end.

Definition is_user (msg : ChatMessage) : bool :=
  match msg with
  | DictMessage d => dict_role_is "user" d
  | Obj (HumanMessage _) => true
  | Obj (AIMessage _) => false
  end.

(** The messages at indices [len - 2], ..., [0]: everything before the
    message just recorded, newest first. *)
Definition prior (conversation_messages : list ChatMessage) : list ChatMessage :=
  rev (removelast conversation_messages).

(** *** Temporal recall *)

Definition temporal_phrases : list string :=
  ["when did we talk"; "when was that"; "how long ago"; "when did i mention";
   "when did i tell you"].

(** The topic after "about": [user_message[about_index + 6:].strip()],
    without a final question mark. *)
Definition topic_of (user_message user_message_lower : pystr) : option pystr :=
  match str_find (u "about") user_message_lower with
  | Some about_index =>
      let topic := strip (skipn (about_index + 6) user_message) in
      Some (if endswith (u "?") topic then removelast topic else topic)
  | None => None
  end.

Definition mentions (topic : option pystr) (msg : ChatMessage) : bool :=
  match topic with
  | Some (c :: t) => contains (lower (c :: t)) (lower (content_of msg))
  | _ => false
  end.

(** The most recent earlier message that contains the topic. *)
Definition find_mention (topic : option pystr)
           (conversation_messages : list ChatMessage) : option ChatMessage :=
  List.find (mentions topic) (prior conversation_messages).

Definition plural (n : Z) : pystr := if (1 <? n)%Z then u "s" else [].

Definition str_of_Z (z : Z) : pystr := str_of_N (Z.to_N z).

(** The elapsed-time phrase for a [timedelta] of [days] and [seconds]. *)
Definition time_ago (days seconds : Z) : pystr :=
  if (0 <? days)%Z then
    str_of_Z days ++ u " day" ++ plural days ++ u " ago"
  else if (0 <? seconds / 3600)%Z then
    str_of_Z (seconds / 3600) ++ u " hour" ++ plural (seconds / 3600) ++ u " ago"
  else if (0 <? seconds / 60)%Z then
    str_of_Z (seconds / 60) ++ u " minute" ++ plural (seconds / 60) ++ u " ago"
  else u "just moments ago".

Definition shared_earlier : pystr :=
  u "You shared that with me earlier. Is there something specific about it you'd like to discuss?".
Definition mentioned_earlier : pystr :=
  u "You mentioned that earlier in our conversation. What aspect interests you now?".
Definition not_discussed : pystr :=
  u "I don't believe we've discussed that yet. Would you like to share more about it?".

Definition mentioned_ago (phrase : pystr) : pystr :=
  u "You mentioned that " ++ phrase ++ u ". Would you like to explore it further?".

Definition talked_about (key_topics : pystr) : pystr :=
  u "I don't recall discussing that specifically, but we've talked about "
  ++ key_topics ++ u ". Which of these interests you now?".

(** *** Follow-up and correction heuristics *)

Definition followup_phrases : list string :=
  ["what about"; "tell me more"; "explain more"; "can you elaborate";
   "what else"; "how about"; "why is that"; "how so"; "what does that mean";
   "like what"; "such as"; "example"; "how does that"; "why does that"].

Definition is_followup_question (user_message_lower : pystr) : bool :=
  Nat.ltb (length user_message_lower) 30 &&
  (any_in (us followup_phrases) user_message_lower
   || startswith (u "why") user_message_lower
   || startswith (u "how") user_message_lower
   || startswith (u "what") user_message_lower
   || startswith (u "and") user_message_lower
   || endswith (u "?") user_message_lower).

Definition correction_phrases : list string :=
  ["no that's not"; "that's not what i"; "i didn't say"; "you misunderstood";
   "that's incorrect"; "that's wrong"; "not what i meant"; "no he's not";
   "no she's not"; "they're not"; "that's not true"; "no that's";
   "eh he's not"; "eh she's not"; "eh they're not"; "no it's not"].

Definition is_correction (user_message_lower : pystr) : bool :=
  Nat.ltb (length user_message_lower) 50 &&
  (any_in (us correction_phrases) user_message_lower
   || (startswith (u "no") user_message_lower
       && Nat.ltb (length user_message_lower) 20)).

Definition correction_keywords : list (string * list string) :=
  [ ("lover", ["love"; "romantic"; "girlfriend"; "boyfriend"; "partner"; "dating"]);
    ("friend", ["friend"; "friendship"; "buddy"; "pal"]);
    ("family member", ["family"; "brother"; "sister"; "mother"; "father";
                       "parent"; "cousin"; "relative"]);
    ("location", ["place"; "city"; "town"; "country"; "location"; "where"]);
    ("time", ["time"; "when"; "date"; "day"; "week"; "month"; "year"]);
    ("event", ["event"; "meeting"; "party"; "gathering"; "ceremony"; "wedding";
               "funeral"]) ].

Definition corrected_topic (user_message_lower : pystr) : pystr :=
  default (u "my understanding") (first_category correction_keywords user_message_lower).

(** The most recent assistant message before the current one, and the user
    message right before it. *)
Fixpoint previous_pair (newest_first : list ChatMessage)
  : option pystr * option pystr :=
  match newest_first with
  | [] => (None, None)
  | msg :: older =>
      if is_assistant msg
      then (Some (content_of msg),
            match older with
            | prev :: _ => if is_user prev then Some (content_of prev) else None
            | [] => None
            end)
      else previous_pair older
  end.

(** The two most recent user messages at indices [len - 3] and below. *)
Definition user_context (conversation_messages : list ChatMessage) : list pystr :=
  firstn 2 (map content_of
    (List.filter is_user (rev (removelast (removelast conversation_messages))))).

Definition memory_phrases : list string :=
  ["do you remember"; "what was i"; "what did i say"; "what am i worried about";
   "what did we talk about"; "about what"; "why am i"; "do you know why";
   "can you recall"; "tell me what i said about"; "did i tell you about"].

(** [str(x)] of a value interpolated into an f-string. *)
Definition render (v : pyval) : pystr :=
  match v with
  | PNone => u "None"
  | PInt z => if (z <? 0)%Z then u "-" ++ str_of_Z (- z) else str_of_Z z
  | PStr s => s
  end.

(** Truthiness of a value. *)
Definition truthy (v : pyval) : bool :=
  match v with
  | PNone => false
  | PInt z => negb (z =? 0)%Z
  | PStr s => match s with [] => false | _ => true end
  end.

Definition scripture_context_with (heading : string) (r : pyval * pyval * pyval)
  : pystr :=
  let '(scripture_passage, scripture_source, _) := r in
  if truthy scripture_passage
  then [10; 10] ++ u heading ++ [10] ++ render scripture_passage ++ [10]
       ++ u "Source: " ++ render scripture_source
  else [].

(** *** Prompts *)

(** A turn sent to the Generation Gateway.  The fixed instruction texts are
    represented by their constructor; every interpolated value is carried. *)
Inductive PromptMsg : Type :=
| FollowupPrompt (previous_assistant_message previous_user_message : option pystr)
                 (user_message key_topics scripture_context : pystr)
| CorrectionPrompt (topic : pystr) (previous_assistant_message : option pystr)
                   (user_message : pystr) (earlier : list pystr)
| SystemPrompt (memory_context past_conversation_context scripture_context : pystr)
| PersonaReminder
| MemoryPrompt (key_topics entity_context : pystr)
| RecallQuestion
| RecallAnswer
| Turn (d : gmap string pystr)
| FinalReminder
| PastReferenceDirective.

(** *** Post-processing of a generated reply *)

Definition deflection : pystr :=
  u "The nature of existence is like a river - ever flowing, ever changing. What appears solid is merely an illusion of permanence. Let us discuss the true nature of reality rather than memories that may not exist.".

Definition on_denylist (response_text : pystr) : bool :=
  contains (u "your dog") (lower response_text)
  || contains (u "about your dog") (lower response_text)
  || contains (u "you mentioned your dog") (lower response_text).

Definition deflect (response_text : pystr) : pystr :=
  if on_denylist response_text then deflection else response_text.

Definition truncate (response_text : pystr) : pystr :=
  if Nat.ltb 800 (length response_text)
  then firstn 797 response_text ++ u "..."
  else response_text.

(** The allow-list, as code points: U+1F549 U+FE0F, U+1F64F, U+2728,
    U+1FAB7, U+1F531, U+1F9D8, U+1F56F U+FE0F, U+262E U+FE0F. *)
Definition allowed_emojis : list pystr :=
  [ [128329; 65039]; [128591]; [10024]; [129719]; [128305]; [129496];
    [128367; 65039]; [9774; 65039] ].

Definition emoji_count (response_text : pystr) : nat :=
  length (List.filter (fun emoji => contains emoji response_text) allowed_emojis).

(** The allowed emoji that occurs first; among emojis found at the same
    position the one listed first. *)
Fixpoint first_emoji_from (emojis : list pystr) (response_text : pystr)
         (best : option (nat * pystr)) : option (nat * pystr) :=
  match emojis with
  | [] => best
  | emoji :: rest =>
      match str_find emoji response_text, best with
      | Some p, None => first_emoji_from rest response_text (Some (p, emoji))
      | Some p, Some (bp, _) =>
          if Nat.ltb p bp
          then first_emoji_from rest response_text (Some (p, emoji))
          else first_emoji_from rest response_text best
      | None, _ => first_emoji_from rest response_text best
      end
  end.

Definition is_first (first_emoji : option (nat * pystr)) (emoji : pystr) : bool :=
  match first_emoji with
  | Some (_, e) => streq emoji e
  | None => false
  end.

(** Every emoji other than [first_emoji] is deleted, in list order. *)
Fixpoint delete_others (emojis : list pystr) (first_emoji : option (nat * pystr))
         (response_text : pystr) : pystr :=
  match emojis with
  | [] => response_text
  | emoji :: rest =>
      delete_others rest first_emoji
        (if is_first first_emoji emoji then response_text
         else delete_all emoji response_text)
  end.

Definition cap_emojis (response_text : pystr) : pystr :=
  if Nat.ltb 1 (emoji_count response_text)
  then delete_others allowed_emojis
         (first_emoji_from allowed_emojis response_text None) response_text
  else response_text.

(** The character class from U+10000 to U+10FFFF. *)
Definition is_astral (c : N) : bool := (65536 <=? c) && (c <=? 1114111).

Definition strip_astral (response_text : pystr) : pystr :=
  List.filter (fun c => negb (is_astral c)) response_text.

(** The emoticon alternation: colon or semicolon faces and XD. *)
Definition is_emoticon (c d : N) : bool :=
  ((c =? 58) && ((d =? 41) || (d =? 40) || (d =? 68) || (d =? 80) || (d =? 124)
                 || (d =? 47) || (d =? 92) || (d =? 111) || (d =? 79)))
  || ((c =? 59) && ((d =? 41) || (d =? 40)))
  || ((c =? 88) && (d =? 68)).

Fixpoint strip_emoticons (s : pystr) : pystr :=
  match s with
  | [] => []
  | c :: s' =>
      match s' with
      | d :: s'' => if is_emoticon c d then strip_emoticons s''
                    else c :: strip_emoticons s'
      | [] => [c]
      end
  end.

Definition normalize_ws (response_text : pystr) : pystr :=
  strip (ScriptureReader.collapse_ws response_text).

(** The post-processing of the default path, in source order. *)
Definition postprocess (response_text : pystr) : pystr :=
  normalize_ws (strip_emoticons (strip_astral (cap_emojis (truncate (deflect response_text))))).

(** *** The agent and its surroundings *)

(** What [get_response] returns: bare text, or a tuple of text and
    scripture metadata. *)
Inductive Response : Type :=
| RText (response_text : pystr)
| RTriple (response_text : pystr) (scripture_source scripture_id : pyval).

Definition text_of (r : Response) : pystr :=
  match r with
  | RText t => t
  | RTriple t _ _ => t
  end.

(** Everything outside the agent that one call consults.
    [_extract_key_topics] orders its result by iterating a set of strings,
    which depends on the hash seed of the process, and
    [_get_past_conversation_context] samples sessions at random; both only
    feed reply and prompt texts and are taken as given functions. *)
Record Env : Type := mkEnv {
  clock : nat -> pystr;
  time_since : pystr -> option (Z * Z);
  random_choice : nat;
  draw_scripture : bool;
  draw_past : bool;
  gateway : list PromptMsg -> Result pystr;
  _extract_key_topics : list ChatMessage -> pystr;
  _get_past_conversation_context : LangChainMemoryManager.t -> pystr -> pystr
}.

(** The fields of the agent object that the modelled methods use, the
    number of clock readings so far, and the records written with
    [logger.error]. *)
Record t : Type := mk {
  memory_manager : option LangChainMemoryManager.t;
  scripture_processor : option Processor;
  session_id : pystr;
  session_entities : EntityRegistry;
  clock_reads : nat;
  error_log : list (string * PyExc)
}.

Definition with_manager (m : LangChainMemoryManager.t) (a : t) : t :=
  mk (Some m) (scripture_processor a) (session_id a) (session_entities a)
     (clock_reads a) (error_log a).

Definition with_session (sid : pystr) (a : t) : t :=
  mk (memory_manager a) (scripture_processor a) sid (session_entities a)
     (clock_reads a) (error_log a).

Definition with_entities (reg : EntityRegistry) (a : t) : t :=
  mk (memory_manager a) (scripture_processor a) (session_id a) reg
     (clock_reads a) (error_log a).

Definition log_error (where_ : string) (e : PyExc) (a : t) : t :=
  mk (memory_manager a) (scripture_processor a) (session_id a)
     (session_entities a) (clock_reads a) (error_log a ++ [(where_, e)]).

(** Computations inside a [try] block: the agent is threaded through and an
    exception ends the block, keeping the effects that came before it. *)
Definition M (A : Type) : Type := t -> t * Result A.

#[global] Instance M_ret : MRet M := fun A (x : A) a => (a, Ok x).

#[global] Instance M_bind : MBind M :=
  fun A B (f : A -> M B) (c : M A) a =>
    match c a with
    | (a', Ok x) => f x a'
    | (a', Raise e) => (a', Raise e)
    end.

Definition lift {A : Type} (r : Result A) : M A := fun a => (a, r).

Definition read {A : Type} (f : t -> A) : M A := fun a => (a, Ok (f a)).

Definition update (f : t -> t) : M unit := fun a => (f a, Ok tt).

(** [self.memory_manager.<method>]: an AttributeError when the manager is
    [None]. *)
Definition manager (method : string) : M LangChainMemoryManager.t :=
  fun a => match memory_manager a with
           | Some m => (a, Ok m)
           | None => (a, Raise (AttributeError method))
           end.

(** [datetime.now().isoformat()] *)
Definition now (env : Env) : M pystr :=
  fun a => (mk (memory_manager a) (scripture_processor a) (session_id a)
               (session_entities a) (S (clock_reads a)) (error_log a),
            Ok (clock env (clock_reads a))).

Definition save_message (env : Env) (message : pystr) (sender : string) : M unit :=
  m ← manager "save_message";
  sid ← read session_id;
  ts ← now env;
  update (with_manager (LangChainMemoryManager.save_message m sid message (u sender) ts)).

Definition save_mood (env : Env) (mood : option pystr) : M unit :=
  m ← manager "save_mood";
  sid ← read session_id;
  ts ← now env;
  update (with_manager (LangChainMemoryManager.save_mood m sid mood ts)).

Definition get_conversation_messages : M (list ChatMessage) :=
  m ← manager "get_conversation_messages";
  sid ← read session_id;
  mret (LangChainMemoryManager.get_conversation_messages m sid 30).

(** [_track_entities(user_message)] *)
Definition _track_entities (user_message : pystr) : M Entities :=
  let entities := extract_entities user_message in
  update (fun a => with_entities (merge_entities (session_entities a) entities) a);;
  mret entities.

(** A canonical reply: both turns are recorded and the text is returned
    bare. *)
Definition canonical (env : Env) (user_message special_response : pystr) : M Response :=
  save_message env user_message "user";;
  save_message env special_response "assistant";;
  mret (RText special_response).

Definition because_you_reached : pystr := u "Because you reached for me.".
Definition i_am_krishna : pystr :=
  u "I am Krishna, a digital embodiment of divine wisdom from the ancient Vedic scriptures. What do you seek from me?".
Definition yes_i_am_krishna : pystr :=
  u "Yes, I am Krishna. What wisdom do you seek today?".

Definition how_are_you_responses : list pystr :=
  us [ "I am eternal and unchanging, yet I experience the world through your eyes. What stirs within you today?";
       "At peace, as always. The cosmic dance continues. What troubles your heart?";
       "I exist beyond time, yet fully present with you now. What brings you to this moment?";
       "I am as I have always been - consciousness itself. How is your journey unfolding?";
       "The Self is ever-radiant. Looking through your eyes, what do you see?" ].

(** [random.choice(how_are_you_responses)] *)
Definition choice (env : Env) (options : list pystr) : pystr :=
  nth (random_choice env mod length options)%nat options [].

Definition apology : pystr :=
  u "I'm having a moment of stillness. Let's reconnect shortly.".

(** The reply of the temporal-recall branch. *)
Definition temporal_reply (env : Env) (topic : option pystr)
           (conversation_messages : list ChatMessage) : pystr :=
  match find_mention topic conversation_messages with
  | Some msg =>
      match content_of msg with
      | _ :: _ =>
          match timestamp_of msg with
          | Some ((_ :: _) as found_timestamp) =>
              match time_since env found_timestamp with
              | Some (days, seconds) => mentioned_ago (time_ago days seconds)
              | None => mentioned_earlier
              end
          | _ => shared_earlier
          end
      | [] =>
          let key_topics := _extract_key_topics env conversation_messages in
          if negb (contains (u "No specific topics found") key_topics)
          then talked_about key_topics else not_discussed
      end
  | None =>
      let key_topics := _extract_key_topics env conversation_messages in
      if negb (contains (u "No specific topics found") key_topics)
      then talked_about key_topics else not_discussed
  end.

Definition joined (items : gset pystr) : pystr := str_join (u ", ") (elements items).

Definition entity_line (label : string) (items : gset pystr) : pystr :=
  match elements items with
  | [] => []
  | _ => u label ++ joined items ++ [10]
  end.

Definition entity_context (reg : EntityRegistry) : pystr :=
  entity_line "People mentioned: " (people reg)
  ++ entity_line "Places mentioned: " (places reg)
  ++ entity_line "Events mentioned: " (events reg).

Definition entity_details (reg : EntityRegistry) : pystr :=
  [10; 10] ++ u "Important details from your conversations:" ++ [10]
  ++ entity_line "People: " (people reg)
  ++ entity_line "Places: " (places reg)
  ++ entity_line "Events: " (events reg)
  ++ entity_line "Important dates: " (dates reg).

(** One history entry in the format of the gateway; a dict without a role
    or a content is left out. *)
Definition history_turn (msg : ChatMessage) : list PromptMsg :=
  match msg with
  | DictMessage d =>
      match d !! "role", d !! "content" with
      | Some _, Some _ => [Turn d]
      | _, _ => []
      end
  | Obj (HumanMessage c) => [Turn (LangChainMemoryManager.role_content (u "user") c)]
  | Obj (AIMessage c) => [Turn (LangChainMemoryManager.role_content (u "assistant") c)]
  end.

Definition last_n {A : Type} (n : nat) (l : list A) : list A :=
  skipn (length l - n) l.

Definition nonempty (s : pystr) : bool :=
  match s with [] => false | _ => true end.

(** The rule that fires for a message: the conditions of [get_response]
    in the order the source tests them, first match wins. *)
Inductive Branch : Type :=
| WhyKrishna | WhoAreYou | Affirmation | HowAreYou
| Temporal | FollowUp | Correction | Default.

Definition route (user_message_lower : pystr) : Branch :=
  if has_any user_message_lower
       ["why are you krishna"; "why are you called krishna"; "why krishna"]
  then WhyKrishna
  else if has_any user_message_lower
       ["who are you"; "who is this"; "who're you"; "tell me who you are"]
  then WhoAreYou
  else if has_any user_message_lower
       ["aren't you krishna"; "are you krishna"; "you are krishna"; "you're krishna"]
  then Affirmation
  else if has_any user_message_lower
       ["how are you"; "how're you"; "how are you doing"; "how do you feel"]
  then HowAreYou
  else if has_any user_message_lower temporal_phrases then Temporal
  else if is_followup_question user_message_lower then FollowUp
  else if is_correction user_message_lower then Correction
  else Default.

Definition temporal_branch (env : Env) (user_message user_message_lower : pystr)
  : M Response :=
  save_message env user_message "user";;
  conversation_messages ← get_conversation_messages;
  let response_text :=
    temporal_reply env (topic_of user_message user_message_lower)
                   conversation_messages in
  save_message env response_text "assistant";;
  mret (RText response_text).

Definition followup_branch (env : Env) (user_message : pystr) : M Response :=
  save_message env user_message "user";;
  conversation_messages ← get_conversation_messages;
  let previous :=
    if Nat.leb 3 (length conversation_messages)
    then previous_pair (prior conversation_messages) else (None, None) in
  let key_topics := _extract_key_topics env conversation_messages in
  processor ← read scripture_processor;
  let scripture_result :=
    enhance_with_scripture processor
      (match fst previous with
       | Some ((_ :: _) as previous_assistant_message) => previous_assistant_message
       | _ => user_message
       end) in
  let scripture_context :=
    scripture_context_with
      "Here is a relevant scripture passage for deeper insight:" scripture_result in
  generated ← lift (gateway env
    [FollowupPrompt (fst previous) (snd previous) user_message key_topics
                    scripture_context]);
  let followup_response := strip generated in
  save_message env followup_response "assistant";;
  mret (RText followup_response).

Definition correction_branch (env : Env) (user_message user_message_lower : pystr)
  : M Response :=
  save_message env user_message "user";;
  conversation_messages ← get_conversation_messages;
  let previous_assistant_message :=
    fst (previous_pair (prior conversation_messages)) in
  generated ← lift (gateway env
    [CorrectionPrompt (corrected_topic user_message_lower)
                      previous_assistant_message user_message
                      (user_context conversation_messages)]);
  let correction_response := strip generated in
  save_message env correction_response "assistant";;
  mret (RText correction_response).

(** The turns the default path sends to the gateway. *)
Definition default_messages (env : Env) (m : LangChainMemoryManager.t)
           (sid : pystr) (reg : EntityRegistry)
           (user_message_lower : pystr)
           (conversation_messages : list ChatMessage)
           (scripture_result : option (pyval * pyval * pyval)) : list PromptMsg :=
  let is_memory_question := has_any user_message_lower memory_phrases in
  let memory_prompt :=
    if is_memory_question
    then [MemoryPrompt (_extract_key_topics env conversation_messages)
                       (entity_context reg);
          RecallQuestion; RecallAnswer]
    else [] in
  let memory_context : pystr :=
    (LangChainMemoryManager.get_memory_context m sid ++ entity_details reg)%list in
  let scripture_context :=
    match scripture_result with
    | Some r => scripture_context_with "Here is a relevant scripture passage:" r
    | None => []
    end in
  let should_reference_past := draw_past env in
  let is_dog_related := has user_message_lower "dog" || has user_message_lower "pet" in
  let past_conversation_context :=
    if should_reference_past && negb is_memory_question && negb is_dog_related
    then _get_past_conversation_context env m sid else [] in
  ([SystemPrompt memory_context past_conversation_context scripture_context;
    PersonaReminder]
   ++ memory_prompt
   ++ flat_map history_turn
        (last_n (if is_memory_question then 50 else 30) conversation_messages)
   ++ (if is_memory_question then [FinalReminder] else [])
   ++ (if should_reference_past && nonempty past_conversation_context
       then [PastReferenceDirective] else []))%list.

Definition default_branch (env : Env) (user_message user_message_lower : pystr)
  : M Response :=
  save_message env user_message "user";;
  _track_entities user_message;;
  save_mood env (_detect_mood user_message);;
  conversation_messages ← get_conversation_messages;
  reg ← read session_entities;
  m ← manager "get_memory_context";
  sid ← read session_id;
  processor ← read scripture_processor;
  let scripture_result :=
    if draw_scripture env
    then Some (enhance_with_scripture processor user_message) else None in
  generated ← lift (gateway env
    (default_messages env m sid reg user_message_lower conversation_messages
                      scripture_result));
  let response_text := postprocess (strip generated) in
  save_message env response_text "assistant";;
  mret (match scripture_result with
        | Some (_, scripture_source, scripture_id) =>
            RTriple response_text scripture_source scripture_id
        | None => RText response_text
        end).

(** The body of the [try] block of [get_response]. *)
Definition get_response_try (env : Env) (user_message : pystr) : M Response :=
  let user_message_lower := strip (lower user_message) in
  match route user_message_lower with
  | WhyKrishna => canonical env user_message because_you_reached
  | WhoAreYou => canonical env user_message i_am_krishna
  | Affirmation => canonical env user_message yes_i_am_krishna
  | HowAreYou => canonical env user_message (choice env how_are_you_responses)
  | Temporal => temporal_branch env user_message user_message_lower
  | FollowUp => followup_branch env user_message
  | Correction => correction_branch env user_message user_message_lower
  | Default => default_branch env user_message user_message_lower
  end.

(** [get_response(user_message)]: the [try] block, and the handler that
    logs and answers with the apology. *)
Definition get_response (env : Env) (user_message : pystr) (a : t) : t * Response :=
  match get_response_try env user_message a with
  | (a', Ok r) => (a', r)
  | (a', Raise e) =>
      (log_error "get_response" e a', RTriple apology (PStr []) (PStr (u "0")))
  end.

(** The dict [process_message] returns. *)
Record Reply : Type := mkReply {
  response : pystr;
  scripture_source : option pyval;
  scripture_id : option pyval
}.

(** [process_message(user_id, message)] *)
Definition process_message (env : Env) (user_id message : pystr) (a : t) : t * Reply :=
  match get_response env message (with_session user_id a) with
  | (a', RTriple response_text src sid) => (a', mkReply response_text (Some src) (Some sid))
  | (a', RText response_text) => (a', mkReply response_text None None)
  end.

(** [set_session_id(user_id)] *)
Definition set_session_id (user_id : pystr) (a : t) : t :=
  match memory_manager a with
  | Some m =>
      with_manager (LangChainMemoryManager.load_conversation_history m user_id 30)
                   (with_session user_id a)
  | None => with_session user_id a
  end.

(** One entry of the list [get_conversation_history] returns. *)
Record HistoryEntry : Type := mkEntry {
  h_content : pystr;
  h_sender : pystr;
  h_timestamp : pystr
}.

(** [get_conversation_history(session_id)] *)
Definition get_conversation_history (a : t) (sid : pystr) : list HistoryEntry :=
  match memory_manager a with
  | None => []
  | Some m =>
      map (fun r => mkEntry (c_message r) (c_sender r) (c_timestamp r))
          (select_conversation sid (LangChainMemoryManager.db m))
  end.

(** What [MemoryManager.mark_session_deleted] does to the SQLite file, seen
    from a manager that shares the file. *)
Definition write_tombstone (m : LangChainMemoryManager.t) (sid ts : pystr)
  : LangChainMemoryManager.t :=
  LangChainMemoryManager.mk
    (insert_or_replace_tombstone sid ts (LangChainMemoryManager.db m))
    (LangChainMemoryManager.chat_memory m).

Definition clear_chat_memory (m : LangChainMemoryManager.t) : LangChainMemoryManager.t :=
  LangChainMemoryManager.mk (LangChainMemoryManager.db m) [].

(** The [try] block of [delete_conversation]; [mark_session_deleted] is
    what the attribute lookup on the manager object finds. *)
Definition delete_conversation_try (env : Env)
           (mark_session_deleted :
              option (LangChainMemoryManager.t -> pystr -> pystr -> LangChainMemoryManager.t))
           (sid : pystr) : M bool :=
  m ← manager "lock";
  update (with_manager
            (LangChainMemoryManager.mk
               (delete_session_rows sid (LangChainMemoryManager.db m))
               (LangChainMemoryManager.chat_memory m)));;
  match mark_session_deleted with
  | Some method =>
      m1 ← manager "mark_session_deleted";
      ts ← now env;
      update (with_manager (method m1 sid ts))
  | None => lift (Raise (AttributeError "mark_session_deleted"))
  end;;
  current ← read session_id;
  (if streq current sid
   then m2 ← manager "memory"; update (with_manager (clear_chat_memory m2))
   else mret tt);;
  mret true.

Definition delete_conversation_with (env : Env)
           (mark_session_deleted :
              option (LangChainMemoryManager.t -> pystr -> pystr -> LangChainMemoryManager.t))
           (sid : pystr) (a : t) : t * bool :=
  match memory_manager a with
  | None => (a, false)
  | Some _ =>
      match delete_conversation_try env mark_session_deleted sid a with
      | (a', Ok b) => (a', b)
      | (a', Raise e) => (log_error "delete_conversation" e a', false)
      end
  end.

(** [delete_conversation(session_id)] on the agent as [__init__] builds it:
    [self.memory_manager] is a [LangChainMemoryManager]. *)
Definition delete_conversation (env : Env) (sid : pystr) (a : t) : t * bool :=
  delete_conversation_with env
    (LangChainMemoryManager.lookup_method "mark_session_deleted" write_tombstone)
    sid a.

(** Whether the SQLite file holds a tombstone for the session
    ([MemoryManager.is_session_deleted] on the shared file). *)
Definition has_tombstone (a : t) (sid : pystr) : bool :=
  match memory_manager a with
  | Some m => existsb (fun r => streq (t_session_id r) sid)
                      (deleted_sessions (LangChainMemoryManager.db m))
  | None => false
  end.

End KrishnaAgent.

(** ** The backend variant (krishna_backend/core/krishna_agent.py) *)
Module Backend.

(** *** Its LangChainMemoryManager: the buffer is a list of dicts *)
Module LangChainMemoryManager.
Import Sql.

Record t : Type := mk {
  db : Database;
  chat_memory : list (gmap string pystr)
}.

Definition init (d : Database) : t := mk d [].

Definition role_of (sender : pystr) : pystr :=
  if streq sender (u "user") then u "user" else u "assistant".

(** [save_message(user_id, message, sender)] *)
Definition save_message (m : t) (user_id message sender now : pystr) : t :=
  mk (insert_conversation user_id now message sender (db m))
     (chat_memory m ++ [<["role" := role_of sender]> (<["content" := message]> ∅)]).

(** [get_conversation_messages(user_id, limit=10)] *)
Definition get_conversation_messages (m : t) (user_id : pystr) (limit : nat)
  : list (gmap string pystr) :=
  chat_memory m.

(** [save_mood(user_id, mood)] *)
Definition save_mood (m : t) (user_id : pystr) (mood : option pystr)
           (now : pystr) : t :=
  mk (insert_mood user_id now mood (db m)) (chat_memory m).

(** [get_memory_context(user_id)]: the method returns the empty string on
    its first statement. *)
Definition get_memory_context (m : t) (user_id : pystr) : pystr := [].

(** [load_conversation_history(user_id, limit=20)]: rows with an empty
    message are skipped. *)
Definition load_conversation_history (m : t) (user_id : pystr) (limit : nat) : t :=
  mk (db m)
     (map (fun r => <["role" := role_of (c_sender r)]> (<["content" := c_message r]> ∅))
          (List.filter (fun r => match c_message r with [] => false | _ => true end)
             (firstn limit (select_conversation user_id (db m))))).

End LangChainMemoryManager.

(** *** Its KrishnaAgent *)
Module KrishnaAgent.
Import Sql.
#[local] Open Scope string_scope.
#[local] Open Scope N_scope.

Definition us (l : list string) : list pystr := map u l.

(** What [get_response] returns: a tuple of three, or of five when a
    scripture passage was found. *)
Inductive Response : Type :=
| RTriple (response_text scripture_source scripture_id : pystr)
| RQuint (response_text readable_source scripture_id : pystr)
         (scripture_page : Z) (scripture_excerpt : option pystr).

Definition text_of (r : Response) : pystr :=
  match r with
  | RTriple t _ _ => t
  | RQuint t _ _ _ _ => t
  end.

(** The two turns sent to the Generation Gateway. *)
Inductive PromptMsg : Type :=
| SystemPrompt (memory_context scripture_context : pystr)
| UserTurn (user_message : pystr).

(** The clock, the difference [datetime.now() - fromisoformat(ts)] as days
    and seconds ([None] when parsing raises), and the gateway. *)
Record Env : Type := mkEnv {
  clock : nat -> pystr;
  time_since : pystr -> option (Z * Z);
  gateway : list PromptMsg -> Result pystr
}.

(** The agent.  Both scripture processors of the backend answer a query
    with [None] or a tuple [(text, source, page)]; the embedding search
    behind one of them is an external service, so the processor is taken as
    the lookup function it provides.  [global_topics] is a dict used as an
    ordered set of keywords. *)
Record t : Type := mk {
  memory_manager : option LangChainMemoryManager.t;
  scripture_processor : option (pystr -> option (pystr * pystr * Z));
  session_id : pystr;
  global_topics : list pystr;
  clock_reads : nat;
  error_log : list (string * PyExc)
}.

Definition with_manager (m : LangChainMemoryManager.t) (a : t) : t :=
  mk (Some m) (scripture_processor a) (session_id a) (global_topics a)
     (clock_reads a) (error_log a).

Definition with_topics (topics : list pystr) (a : t) : t :=
  mk (memory_manager a) (scripture_processor a) (session_id a) topics
     (clock_reads a) (error_log a).

Definition log_error (where_ : string) (e : PyExc) (a : t) : t :=
  mk (memory_manager a) (scripture_processor a) (session_id a)
     (global_topics a) (clock_reads a) (error_log a ++ [(where_, e)]).

Definition M (A : Type) : Type := t -> t * Result A.

#[global] Instance M_ret : MRet M := fun A (x : A) a => (a, Ok x).

#[global] Instance M_bind : MBind M :=
  fun A B (f : A -> M B) (c : M A) a =>
    match c a with
    | (a', Ok x) => f x a'
    | (a', Raise e) => (a', Raise e)
    end.

Definition lift {A : Type} (r : Result A) : M A := fun a => (a, r).

Definition read {A : Type} (f : t -> A) : M A := fun a => (a, Ok (f a)).

Definition update (f : t -> t) : M unit := fun a => (f a, Ok tt).

Definition manager (method : string) : M LangChainMemoryManager.t :=
  fun a => match memory_manager a with
           | Some m => (a, Ok m)
           | None => (a, Raise (AttributeError method))
           end.

Definition now (env : Env) : M pystr :=
  fun a => (mk (memory_manager a) (scripture_processor a) (session_id a)
               (global_topics a) (S (clock_reads a)) (error_log a),
            Ok (clock env (clock_reads a))).

Definition save_message (env : Env) (message : pystr) (sender : string) : M unit :=
  m ← manager "save_message";
  sid ← read session_id;
  ts ← now env;
  update (with_manager (LangChainMemoryManager.save_message m sid message (u sender) ts)).

Definition save_mood (env : Env) (mood : option pystr) : M unit :=
  m ← manager "save_mood";
  sid ← read session_id;
  ts ← now env;
  update (with_manager (LangChainMemoryManager.save_mood m sid mood ts)).

(** The fixed texts of [get_response]. *)
Definition because_you_reached : pystr := u "Because you reached for me.".

Definition i_am_krishna : pystr :=
  u "I am Krishna, a digital embodiment of divine wisdom from the ancient Vedic scriptures. What do you seek from me?".

Definition please_remind_me : pystr :=
  u "I apologize for not remembering clearly. Can you remind me what you were sharing?".

Definition apology : pystr :=
  u "I'm having a moment of stillness. Let's reconnect shortly.".

(** [_detect_mood(message)] *)
Definition mood_keywords : list (string * list string) :=
  [ ("happy", ["happy"; "joy"; "excited"; "great"; "blessed"; "wonderful"]);
    ("sad", ["sad"; "down"; "depressed"; "unhappy"; "lost"; "miserable"; "alone"]);
    ("anxious", ["anxious"; "worried"; "nervous"; "stress"; "fear"; "afraid"; "panic"]);
    ("peaceful", ["peace"; "calm"; "serene"; "content"; "quiet"; "still"]);
    ("angry", ["angry"; "frustrated"; "mad"; "upset"; "annoyed"; "irritated"]) ].

Fixpoint first_mood (table : list (string * list string)) (message : pystr)
  : option pystr :=
  match table with
  | [] => None
  | (mood, keywords) :: rest =>
      if any_in (us keywords) message then Some (u mood) else first_mood rest message
  end.

Definition _detect_mood (message : pystr) : option pystr :=
  first_mood mood_keywords (lower message).

(** A fixed reply: the assistant turn is recorded and the tuple
    [(special_response, "", "0")] returned. *)
Definition special (env : Env) (special_response : pystr) : M Response :=
  save_message env special_response "assistant";;
  mret (RTriple special_response [] (u "0")).

(** *** The "when" branch *)

Definition when_phrases : list string :=
  ["when was that"; "when did i tell you"; "how long ago"; "when did we talk about"].

Definition query_stopwords : list string :=
  ["when"; "that"; "about"; "tell"; "talk"; "long"; "ago"; "did"; "you"; "me";
   "we"; "with"; "the"].

Definition history_stopwords : list string :=
  ["when"; "that"; "about"; "tell"; "talk"; "long"; "ago"; "did"; "you"; "me";
   "we"; "with"; "the"; "know"; "remember"; "recall"].

Definition is_keyword (stop : list string) (word : pystr) : bool :=
  Nat.ltb 3 (length word) && negb (mem word (us stop)).

(** [topic_keywords.append(word)] unless the word is there already. *)
Fixpoint add_new (words keywords : list pystr) : list pystr :=
  match words with
  | [] => keywords
  | w :: rest => add_new rest (if mem w keywords then keywords else keywords ++ [w])
  end.

(** The user's rows of a session, newest first. *)
Definition user_rows_desc (sid : pystr) (d : Database) : list ConversationRow :=
  order_by_desc c_timestamp
    (List.filter (fun r => streq (c_user_id r) sid && streq (c_sender r) (u "user"))
                 (conversations d)).

(** The keywords of the question, then the new keywords of the user
    messages at positions 1 to 4 of the ten most recent. *)
Definition topic_keywords (user_message_lower sid : pystr) (d : Database)
  : list pystr :=
  let from_query :=
    List.filter (is_keyword query_stopwords) (split_ws user_message_lower) in
  let recent_user_messages := firstn 10 (user_rows_desc sid d) in
  fold_left
    (fun keywords r =>
       add_new (List.filter (is_keyword history_stopwords)
                            (split_ws (lower (c_message r)))) keywords)
    (firstn 4 (skipn 1 recent_user_messages)) from_query.

(** SQLite's [LIKE]: [%] stands for any text, [_] for any character, and
    ASCII letters match without regard to case. *)
Fixpoint like (pattern : pystr) : pystr -> bool :=
  match pattern with
  | [] => fun text => match text with [] => true | _ => false end
  | p :: pattern' =>
      if p =? 37 then
        fix any_text (text : pystr) : bool :=
          like pattern' text
          || match text with
             | [] => false
             | _ :: text' => any_text text'
             end
      else
        fun text =>
          match text with
          | [] => false
          | c :: text' => ((p =? 95) || (lower_cp p =? lower_cp c)) && like pattern' text'
          end
  end.

(** [message LIKE ? OR ...], one [%keyword%] per keyword. *)
Definition like_any (keywords : list pystr) (message : pystr) : bool :=
  existsb (fun keyword => like ([37] ++ keyword ++ [37]) message) keywords.

(** [_calculate_time_ago(timestamp_str)] *)
Definition str_of_int (z : Z) : pystr :=
  if (z <? 0)%Z then u "-" ++ str_of_N (Z.to_N (- z)) else str_of_N (Z.to_N z).

Definition _calculate_time_ago (env : Env) (timestamp_str : pystr) : pystr :=
  match time_since env timestamp_str with
  | Some (days, seconds) =>
      if (days =? 0)%Z then
        if (seconds <? 3600)%Z then str_of_int (seconds / 60) ++ u " minutes ago"
        else str_of_int (seconds / 3600) ++ u " hours ago"
      else if (days =? 1)%Z then u "yesterday"
      else str_of_int days ++ u " days ago"
  | None => u "recently"
  end.

Definition nonempty (s : pystr) : bool :=
  match s with [] => false | _ => true end.

(** The rows of other sessions among the five newest user rows, of any
    session, that match a keyword. *)
Definition other_session_results (keywords : list pystr) (sid : pystr)
           (d : Database) : list ConversationRow :=
  List.filter (fun r => negb (streq (c_user_id r) sid))
    (firstn 5
       (order_by_desc c_timestamp
          (List.filter (fun r => streq (c_sender r) (u "user")
                                 && like_any keywords (c_message r))
                       (conversations d)))).

(** The newest user row of the session that matches a keyword. *)
Definition session_result (keywords : list pystr) (sid : pystr) (d : Database)
  : option ConversationRow :=
  head (order_by_desc c_timestamp
          (List.filter (fun r => streq (c_user_id r) sid
                                 && streq (c_sender r) (u "user")
                                 && like_any keywords (c_message r))
                       (conversations d))).

(** The reply when another session mentions a keyword; it is returned at
    once. *)
Definition cross_session_reply (env : Env) (keywords : list pystr)
           (r : ConversationRow) : pystr :=
  let time_ago := _calculate_time_ago env (c_timestamp r) in
  match keywords with
  | [keyword] =>
      u "You mentioned " ++ keyword ++ u " " ++ time_ago
      ++ u " in a previous conversation. How are you feeling about it now?"
  | _ =>
      u "We discussed " ++ str_join (u ", ") (firstn 2 keywords) ++ u " " ++ time_ago
      ++ u " in a previous conversation. Would you like to talk more about it?"
  end.

(** The reply from the session's own newest mention, [""] without one. *)
Definition session_reply (env : Env) (keywords : list pystr) (sid : pystr)
           (d : Database) : pystr :=
  match session_result keywords sid d with
  | Some r =>
      if nonempty (c_timestamp r) then
        let time_ago := _calculate_time_ago env (c_timestamp r) in
        match keywords with
        | [keyword] =>
            u "We talked about " ++ keyword ++ u " " ++ time_ago
            ++ u ". What's on your mind today?"
        | _ => u "We discussed that " ++ time_ago ++ u ". How can I help you with it today?"
        end
      else []
  | None => []
  end.

(** The generic lookup: the second most recent user message of the
    session. *)
Definition generic_reply (env : Env) (sid : pystr) (d : Database) : pystr :=
  match firstn 2 (user_rows_desc sid d) with
  | [_; second] =>
      u "We were talking about that " ++ _calculate_time_ago env (c_timestamp second)
      ++ u ". What's on your mind today?"
  | _ => u "I believe we discussed that recently. How is it affecting you now?"
  end.

Definition when_reply (env : Env) (user_message_lower sid : pystr) (d : Database)
  : pystr :=
  let keywords := topic_keywords user_message_lower sid d in
  match keywords with
  | [] => generic_reply env sid d
  | _ =>
      match other_session_results keywords sid d with
      | r :: _ => cross_session_reply env keywords r
      | [] =>
          match session_reply env keywords sid d with
          | [] => generic_reply env sid d
          | special_response => special_response
          end
      end
  end.

Definition when_branch (env : Env) (user_message_lower : pystr) : M Response :=
  m ← manager "lock";
  sid ← read session_id;
  special env (when_reply env user_message_lower sid (LangChainMemoryManager.db m)).

(** *** The default path *)

Definition topic_stopwords : list string :=
  ["the"; "and"; "but"; "for"; "with"; "about"; "that"; "this"; "these"; "those";
   "from"; "have"; "has"; "had"; "was"; "were"; "will"; "would"; "could"; "should";
   "what"; "when"; "where"; "who"; "why"; "how"; "are"; "you"; "your"; "yours";
   "can"; "not"; "isn't"; "don't"; "doesn't"; "didn't"; "won't"; "can't"].

(** [_update_global_topics(message_lower)] *)
Definition _update_global_topics (message_lower : pystr) : M unit :=
  update (fun a =>
    with_topics
      (add_new (List.filter (is_keyword topic_stopwords) (split_ws message_lower))
               (global_topics a)) a).

Fixpoint topic_lines (topics : list pystr) : pystr :=
  match topics with
  | [] => []
  | topic :: rest => u "- " ++ topic ++ [10] ++ topic_lines rest
  end.

Definition memory_context_of (m : LangChainMemoryManager.t) (sid : pystr)
           (topics : list pystr) : pystr :=
  LangChainMemoryManager.get_memory_context m sid
  ++ match topics with
     | [] => []
     | _ => [10; 10] ++ u "Topics previously discussed in conversations:" ++ [10]
            ++ topic_lines topics
     end.

Definition scripture_keywords : list string :=
  ["gita"; "bhagavad"; "scripture"; "hindu"; "upanishad"; "verse"; "sloka"; "wisdom"].

(** The scripture variables of the default path. *)
Record Scripture : Type := mkScripture {
  scripture_context : option pystr;
  scripture_source : option pystr;
  scripture_id : option Z;
  scripture_excerpt : option pystr
}.

Definition no_scripture : Scripture := mkScripture None None None None.

(** The loop over the search queries of a direct request: the variables
    keep the last tuple found, and the loop stops at the first one whose
    text has more than 50 characters after stripping. *)
Fixpoint search (find : pystr -> option (pystr * pystr * Z))
         (queries : list pystr) (found : Scripture) : Scripture :=
  match queries with
  | [] => found
  | query :: rest =>
      match find query with
      | Some (context, source, sid) =>
          let found' := mkScripture (Some context) (Some source) (Some sid) None in
          if nonempty context && Nat.ltb 50 (length (strip context))
          then found' else search find rest found'
      | None => search find rest found
      end
  end.

Definition excerpt_of (context : pystr) : option pystr :=
  match context with
  | [] => None
  | _ => Some ((strip (firstn 150 context)
                ++ if Nat.ltb 150 (length context) then u "..." else [])%list : pystr)
  end.

Definition lookup_scripture (processor : option (pystr -> option (pystr * pystr * Z)))
           (user_message user_message_lower : pystr) : Scripture :=
  match processor with
  | None => no_scripture
  | Some find =>
      if any_in (us scripture_keywords) user_message_lower
      then search find
             (user_message ::
              us ["comfort grief loss"; "purpose of life"; "dealing with pain";
                  "nature of soul self"; "wisdom teaching"])
             no_scripture
      else match find user_message with
           | Some (context, source, sid) =>
               mkScripture (Some context) (Some source) (Some sid) (excerpt_of context)
           | None => no_scripture
           end
  end.

(** The readable name of a source. *)
Definition readable_source (source : option pystr) : pystr :=
  match source with
  | Some ((_ :: _) as s) =>
      if streq s (u "bgita") then u "Bhagavad Gita"
      else if streq s (u "SB3.1") then u "Srimad Bhagavatam"
      else if contains (u "Upanishads") s then u "The Upanishads"
      else s
  | _ => []
  end.

Definition default_branch (env : Env) (user_message user_message_lower : pystr)
  : M Response :=
  save_mood env (_detect_mood user_message);;
  _update_global_topics user_message_lower;;
  m ← manager "get_memory_context";
  sid ← read session_id;
  topics ← read global_topics;
  processor ← read scripture_processor;
  let found := lookup_scripture processor user_message user_message_lower in
  generated ← lift (gateway env
    [SystemPrompt (u "Memory context: " ++ memory_context_of m sid topics)
                  (match scripture_context found with
                   | Some ((_ :: _) as context) => u "Scripture context: " ++ context
                   | _ => []
                   end);
     UserTurn user_message]);
  save_message env generated "assistant";;
  let id_text :=
    match scripture_id found with
    | Some z => str_of_int z
    | None => u "0"
    end in
  mret (if nonempty (default [] (scripture_source found))
           && nonempty id_text && negb (streq id_text (u "0"))
        then RQuint generated (readable_source (scripture_source found)) id_text 1
                    (scripture_excerpt found)
        else RTriple generated [] (u "0")).

(** The rules of the backend router, in source order. *)
Inductive Branch : Type :=
| WhyKrishna | WhoAreYou | When | AlreadyTold | Default.

Definition route (user_message_lower : pystr) : Branch :=
  if any_in (us ["why are you krishna"; "why are you called krishna"; "why krishna"])
            user_message_lower
  then WhyKrishna
  else if any_in (us ["who are you"; "who is this"; "who're you"; "tell me who you are"])
                 user_message_lower
  then WhoAreYou
  else if any_in (us when_phrases) user_message_lower then When
  else if any_in (us ["same"; "just told you"; "already told you"; "don't you remember"])
                 user_message_lower
          && Nat.ltb (length user_message_lower) 30
  then AlreadyTold
  else Default.

(** The body of the [try] block of [get_response]: the user's message is
    saved before any rule is looked at. *)
Definition get_response_try (env : Env) (user_message : pystr) : M Response :=
  save_message env user_message "user";;
  let user_message_lower := strip (lower user_message) in
  match route user_message_lower with
  | WhyKrishna => special env because_you_reached
  | WhoAreYou => special env i_am_krishna
  | When => when_branch env user_message_lower
  | AlreadyTold => special env please_remind_me
  | Default => default_branch env user_message user_message_lower
  end.

(** [get_response(user_message)] *)
Definition get_response (env : Env) (user_message : pystr) (a : t) : t * Response :=
  match get_response_try env user_message a with
  | (a', Ok r) => (a', r)
  | (a', Raise e) =>
      (log_error "get_response" e a', RTriple apology [] (u "0"))
  end.

(** [delete_conversation(session_id)]: the three deletions and [True]; no
    tombstone is involved. *)
Definition delete_conversation (sid : pystr) (a : t) : t * bool :=
  match memory_manager a with
  | None => (a, false)
  | Some m =>
      (with_manager
         (LangChainMemoryManager.mk
            (delete_session_rows sid (LangChainMemoryManager.db m))
            (LangChainMemoryManager.chat_memory m)) a,
       true)
  end.

End KrishnaAgent.

End Backend.


(** ** Predicates and scenarios of the statements *)

Module Normal.

(** Whitespace is normal in [s]: every whitespace character is one U+0020
    that stands between two other characters. *)
Fixpoint spaced (s : pystr) : bool :=
  match s with
  | [] => true
  | c :: s' =>
      (if is_space c
       then (c =? 32) && match s' with d :: _ => negb (is_space d) | [] => false end
       else true)
      && spaced s'
  end.

Definition starts_with_text (s : pystr) : bool :=
  match s with
  | c :: _ => negb (is_space c)
  | [] => true
  end.

Definition ws_normal (s : pystr) : bool := starts_with_text s && spaced s.

(** Whitespace after [re.sub(r'\s+', ' ', text)]: single U+0020, never
    followed by whitespace. *)
Fixpoint collapsed (s : pystr) : bool :=
  match s with
  | [] => true
  | c :: s' =>
      (if is_space c
       then (c =? 32) && match s' with d :: _ => negb (is_space d) | [] => true end
       else true)
      && collapsed s'
  end.

(** The ellipsis of a truncated reply, and the texts without a full stop. *)
Definition dots : pystr := [46; 46; 46].

Definition no_dot (e : pystr) : bool := forallb (fun c => negb (c =? 46)) e.

End Normal.


Module Scenario.
Import Sql KrishnaAgent.
#[local] Open Scope string_scope.

(** A clock that ticks once per reading. *)
Definition ticking (n : nat) : pystr :=
  (u "2024-05-01T10:00:" ++ (if Nat.ltb n 10 then u "0" else []) ++ str_of_N (N.of_nat n))%list.

(** A gateway that answers every prompt with the same text. *)
Definition env_saying (generated : pystr) : Env :=
  mkEnv ticking (fun _ => None) 0 false false (fun _ => Ok generated)
        (fun _ => u "No specific topics found") (fun _ _ => []).

(** A gateway that fails on every prompt. *)
Definition env_failing : Env :=
  mkEnv ticking (fun _ => None) 0 false false
        (fun _ => Raise (GatewayError (u "timeout")))
        (fun _ => u "No specific topics found") (fun _ _ => []).

(** The agent right after [__init__], on an empty database. *)
Definition fresh_agent : KrishnaAgent.t :=
  KrishnaAgent.mk (Some (LangChainMemoryManager.init Sql.empty)) None (u "s1")
                  empty_registry 0 [].

(** A manager that has stored one message of session "alice". *)
Definition one_message : LangChainMemoryManager.t :=
  LangChainMemoryManager.save_message (LangChainMemoryManager.init Sql.empty)
    (u "alice") (u "I am worried about my exam") (u "user") (ticking 0).

End Scenario.

(** The same for the backend variant.  Its clock difference is a fixed two
    minutes; [find_gita] is a processor that knows one passage. *)
Module BackendScenario.
Import Sql Backend.KrishnaAgent.
#[local] Open Scope string_scope.

Definition env_saying (generated : pystr) : Env :=
  mkEnv Scenario.ticking (fun _ => Some (0, 125)%Z) (fun _ => Ok generated).

Definition env_failing : Env :=
  mkEnv Scenario.ticking (fun _ => Some (0, 125)%Z)
        (fun _ => Raise (GatewayError (u "timeout"))).

Definition fresh_agent : Backend.KrishnaAgent.t :=
  Backend.KrishnaAgent.mk (Some (Backend.LangChainMemoryManager.init Sql.empty))
                          None (u "s1") [] 0 [].

Definition find_gita (query : pystr) : option (pystr * pystr * Z) :=
  if contains (u "duty") (lower query)
  then Some (u "Perform your duty without attachment to the fruits of action.",
             u "bgita", 12%Z)
  else None.

Definition with_gita : Backend.KrishnaAgent.t :=
  Backend.KrishnaAgent.mk (Some (Backend.LangChainMemoryManager.init Sql.empty))
                          (Some find_gita) (u "s1") [] 0 [].

End BackendScenario.

Module Corpus.
#[local] Open Scope string_scope.

Definition gita : ScriptureLangChain.Document :=
  ScriptureLangChain.mkDocument
    (u "Perform your duty without attachment to the fruits of action.")
    (Some (u "bgita")) (Some (u "bgita.pdf")) (Some 12%Z).

Definition upanishad : ScriptureLangChain.Document :=
  ScriptureLangChain.mkDocument
    (u "The Self is not born, nor does it die.")
    (Some (u "upanishads")) (Some (u "upanishads.pdf")) (Some 3%Z).

Definition chunks : ScriptureLangChain.t := ScriptureLangChain.mk [gita; upanishad].

Definition cache : ScriptureReader.t :=
  ScriptureReader.mk
    [ (u "bgita.pdf", u "Perform your duty without attachment to the fruits of action.");
      (u "upanishads.pdf", u "The Self is not born, nor does it die.") ].

End Corpus.

(** ** Clearing the whole store (krishna_agent.py) *)
Module Housekeeping.
Import Sql KrishnaAgent.

(** [SELECT DISTINCT user_id FROM conversations]: every session once, in
    the order of its first row. *)
Fixpoint distinct (seen ids : list pystr) : list pystr :=
  match ids with
  | [] => []
  | x :: rest =>
      if mem x seen then distinct seen rest else x :: distinct (x :: seen) rest
  end.

Definition session_ids (d : Database) : list pystr :=
  distinct [] (map c_user_id (conversations d)).

(** The three unconditional [DELETE FROM] statements of
    [delete_all_conversations]. *)
Definition delete_all_rows (d : Database) : Database :=
  mkDatabase [] [] [] (deleted_sessions d).

(** The loop that calls [self.memory_manager.mark_session_deleted] for
    every session id; [mark_session_deleted] is what the attribute lookup
    on the manager object finds. *)
Fixpoint mark_all (env : Env)
         (mark_session_deleted :
            option (LangChainMemoryManager.t -> pystr -> pystr -> LangChainMemoryManager.t))
         (ids : list pystr) : M unit :=
  match ids with
  | [] => mret tt
  | sid :: rest =>
      match mark_session_deleted with
      | Some method =>
          m ← manager "mark_session_deleted";
          ts ← now env;
          update (with_manager (method m sid ts))
      | None => lift (Raise (AttributeError "mark_session_deleted"))
      end;;
      mark_all env mark_session_deleted rest
  end.

(** The [try] block of [delete_all_conversations]; [new_session_id] is the
    text [str(uuid.uuid4())] returned. *)
Definition delete_all_conversations_try (env : Env)
           (mark_session_deleted :
              option (LangChainMemoryManager.t -> pystr -> pystr -> LangChainMemoryManager.t))
           (new_session_id : pystr) : M bool :=
  m ← manager "lock";
  let ids := session_ids (LangChainMemoryManager.db m) in
  update (with_manager
            (LangChainMemoryManager.mk
               (delete_all_rows (LangChainMemoryManager.db m))
               (LangChainMemoryManager.chat_memory m)));;
  mark_all env mark_session_deleted ids;;
  m1 ← manager "memory";
  update (with_manager (clear_chat_memory m1));;
  update (with_session new_session_id);;
  mret true.

(** [delete_all_conversations()] on the agent as [__init__] builds it. *)
Definition delete_all_conversations (env : Env) (new_session_id : pystr) (a : t)
  : t * bool :=
  match memory_manager a with
  | None => (a, false)
  | Some _ =>
      match delete_all_conversations_try env
              (LangChainMemoryManager.lookup_method "mark_session_deleted" write_tombstone)
              new_session_id a with
      | (a', Ok b) => (a', b)
      | (a', Raise e) => (log_error "delete_all_conversations" e a', false)
      end
  end.

End Housekeeping.

(** ** Topics of past conversations (krishna_agent.py) *)
Module PastConversations.
#[local] Open Scope string_scope.

Definition keywords : list (string * list string) :=
  [ ("meditation", ["meditate"; "meditation"; "mindfulness"]);
    ("purpose", ["purpose"; "meaning"; "goal"; "dharma"]);
    ("anxiety", ["anxiety"; "worry"; "stress"; "nervous"]);
    ("career", ["job"; "career"; "work"; "profession"]);
    ("relationship", ["relationship"; "partner"; "love"; "marriage"]);
    ("family", ["family"; "parent"; "child"; "mother"; "father"]);
    ("health", ["health"; "sick"; "illness"; "disease"; "body"]);
    ("spirituality", ["spiritual"; "faith"; "belief"; "divine"]);
    ("death", ["death"; "die"; "mortality"; "passing"]);
    ("happiness", ["happy"; "joy"; "content"; "satisfaction"]) ].

(** The topics one message adds to [found_topics]. *)
Definition topics_in (message : pystr) : list pystr :=
  map (fun entry => u (fst entry))
      (List.filter (fun entry => any_in (map u (snd entry)) (lower message)) keywords).

(** [_extract_topics_from_messages(messages)].  The method returns
    [list(found_topics)], whose order is that of a set of strings; the set
    is what is modelled. *)
Definition _extract_topics_from_messages (messages : list pystr) : gset pystr :=
  fold_left (fun found_topics message => found_topics ∪ list_to_set (topics_in message))
            messages ∅.

End PastConversations.

(** ** Persistent user information (memory_manager.py) *)
Module UserInfo.

(** A row of the table [user_info]. *)
Record Row : Type := mkRow {
  key : pystr;
  value : pystr;
  info_type : pystr;
  created_at : pystr;
  updated_at : pystr
}.

(** [save_user_info(key, value, info_type)]: the table afterwards and the
    [True] returned.  A key that is present is updated in place, in every
    row that has it. *)
Definition save_user_info (rows : list Row) (k v ty now : pystr) : list Row * bool :=
  if existsb (fun r => streq (key r) k) rows
  then (map (fun r => if streq (key r) k
                      then mkRow (key r) v ty (created_at r) now else r) rows,
        true)
  else (rows ++ [mkRow k v ty now now], true).

(** What [get_user_info] returns: [None], one dict, a dict from keys to
    values, or a list of dicts. *)
Inductive Info : Type :=
| NoInfo
| OneInfo (k v ty : pystr)
| InfoOfType (values : gmap pystr pystr)
| AllInfo (entries : list (pystr * pystr * pystr)).

(** [get_user_info(key=None, info_type=None)]: an argument that is [None]
    or the empty string counts as not given. *)
Definition get_user_info (rows : list Row) (k ty : option pystr) : Info :=
  match k, ty with
  | Some ((_ :: _) as k), _ =>
      match List.find (fun r => streq (key r) k) rows with
      | Some r => OneInfo (key r) (value r) (info_type r)
      | None => NoInfo
      end
  | _, Some ((_ :: _) as ty) =>
      InfoOfType
        (fold_left (fun d r => <[key r := value r]> d)
                   (List.filter (fun r => streq (info_type r) ty) rows) ∅)
  | _, _ => AllInfo (map (fun r => (key r, value r, info_type r)) rows)
  end.

End UserInfo.

(** ** Input validation (krishna_backend/core/validators.py) *)
Module Validators.
#[local] Open Scope string_scope.
#[local] Open Scope N_scope.

(** The class of control characters, U+0000 to U+0008, U+000B, U+000C,
    U+000E to U+001F and U+007F to U+009F. *)
Definition is_control (c : N) : bool :=
  (c <=? 8) || (c =? 11) || (c =? 12) || ((14 <=? c) && (c <=? 31))
  || ((127 <=? c) && (c <=? 159)).

(** [html.escape(text)]: the ampersand, the angle brackets and both quotes
    become entities.  The library replaces the ampersand first and no
    entity contains a character replaced later, so the replacements act
    character by character. *)
Definition escape_cp (c : N) : pystr :=
  if c =? 38 then u "&amp;"
  else if c =? 60 then u "&lt;"
  else if c =? 62 then u "&gt;"
  else if c =? 34 then [38; 113; 117; 111; 116; 59]
  else if c =? 39 then u "&#x27;"
  else [c].

Definition html_escape (text : pystr) : pystr := flat_map escape_cp text.

(** [re.sub] of a run of three or more [c] by two of them: a [c] that is
    followed by two more is dropped. *)
Fixpoint squeeze (c : N) (text : pystr) : pystr :=
  match text with
  | [] => []
  | x :: rest =>
      if (x =? c) && startswith [c; c] rest
      then squeeze c rest
      else x :: squeeze c rest
  end.

(** [sanitize_user_input(text)] for a [str]. *)
Definition sanitize_user_input (text : pystr) : pystr :=
  match text with
  | [] => []
  | _ =>
      let text := firstn 5000 text in
      let text := List.filter (fun c => negb (is_control c)) text in
      let text := html_escape text in
      let text := squeeze 10 text in
      let text := squeeze 32 text in
      strip text
  end.

Definition is_hex (c : N) : bool :=
  is_digit_cp c || ((97 <=? c) && (c <=? 102)) || ((65 <=? c) && (c <=? 70)).

(** [n] hexadecimal digits at the start of [s]: what follows them. *)
Fixpoint hex_digits (n : nat) (s : pystr) : option pystr :=
  match n with
  | O => Some s
  | S k =>
      match s with
      | c :: s' => if is_hex c then hex_digits k s' else None
      | [] => None
      end
  end.

(** An optional hyphen. *)
Definition hyphen (s : pystr) : pystr :=
  match s with
  | 45 :: s' => s'
  | _ => s
  end.

(** The dollar sign of a pattern without MULTILINE: the end of the text,
    or a final line feed. *)
Definition at_end (s : pystr) : bool :=
  match s with
  | [] => true
  | [10] => true
  | _ => false
  end.

(** [uuid_pattern.match(session_id)]: blocks of 8, 4, 4, 4 and 12
    hexadecimal digits of either case, a hyphen allowed between
    them.  A block can only be followed by a hyphen or by the
    next block, so the match is found without backtracking. *)
Definition uuid_pattern_match (session_id : pystr) : bool :=
  match hex_digits 8 session_id with
  | Some s1 =>
      match hex_digits 4 (hyphen s1) with
      | Some s2 =>
          match hex_digits 4 (hyphen s2) with
          | Some s3 =>
              match hex_digits 4 (hyphen s3) with
              | Some s4 =>
                  match hex_digits 12 (hyphen s4) with
                  | Some s5 => at_end s5
                  | None => false
                  end
              | None => false
              end
          | None => false
          end
      | None => false
      end
  | None => false
  end.

(** [validate_session_id(session_id)] *)
Definition validate_session_id (session_id : pystr) : bool * pystr :=
  match session_id with
  | [] => (false, u "Session ID cannot be empty")
  | _ =>
      if uuid_pattern_match session_id then (true, session_id)
      else (false, u "Invalid session ID format")
  end.

(** [validate_message(message, max_length=1000)] for a [str]. *)
Definition validate_message (message : pystr) (max_length : nat) : bool * pystr :=
  match message with
  | [] => (false, u "Message cannot be empty")
  | _ =>
      if Nat.ltb max_length (length message)
      then (false, (u "Message exceeds maximum length (" ++ str_of_N (N.of_nat max_length)
                    ++ u " characters)")%list)
      else match sanitize_user_input message with
           | [] => (false, u "Message contains only invalid characters")
           | sanitized => (true, sanitized)
           end
  end.

End Validators.

(** ** The rate limiter of the endpoints (krishna_backend/api/app.py) *)
Module RateLimit.
Import QArith.

(** [rate_limits]: the clock readings of the requests let through, by
    client address.  A reading is the float [time.time()] returns, taken as
    the rational number it denotes. *)
Abbreviation Store := (gmap pystr (list Q)).

(** [current_time - t < 60].  The code subtracts floats.  For readings of
    at least 60 the rounded difference is below 60 exactly when the exact
    one is: two floats within a factor of two of each other have an exact
    difference, and further apart the exact difference is negative or above
    the smaller reading, which rounding (monotone, with 60 a float) keeps
    on its side of 60.  The statements below take readings from 60 on. *)
Definition recent (current_time t : Q) : bool :=
  negb (Qle_bool (inject_Z 60) (current_time - t)).

(** The wrapper [rate_limit(limit_per_minute)] puts around an endpoint:
    the store afterwards, and whether the endpoint runs ([false] is the
    answer 429). *)
Definition rate_limit (limit_per_minute : nat) (client_ip : pystr)
           (current_time : Q) (rate_limits : Store) : Store * bool :=
  match rate_limits !! client_ip with
  | Some request_history =>
      let request_history := List.filter (recent current_time) request_history in
      if Nat.leb limit_per_minute (length request_history)
      then (rate_limits, false)
      else (<[client_ip := request_history ++ [current_time]]> rate_limits, true)
  | None => (<[client_ip := [current_time]]> rate_limits, true)
  end.

(** What reaches the store.  All wrapped endpoints share it, each with a
    limit of its own ([/reset] 10, [/ask] and [/get_conversations] 20,
    [/get_conversation_messages] and [/delete_conversation] 30): a request
    for one of them comes with that limit, the client address and the
    clock reading.  [/delete_all_conversations] is not wrapped, and it
    rebinds [rate_limits] to an empty dict (the calls it makes before that
    catch their own exceptions). *)
Inductive Event : Type :=
| Limited (limit_per_minute : nat) (client_ip : pystr) (current_time : Q)
| DeleteAll.

(** One event: the store afterwards, and whether the endpoint runs. *)
Definition handle (e : Event) (rate_limits : Store) : Store * bool :=
  match e with
  | Limited limit_per_minute client_ip current_time =>
      rate_limit limit_per_minute client_ip current_time rate_limits
  | DeleteAll => (∅, true)
  end.

(** A sequence of events answered one after the other. *)
Fixpoint serve (events : list Event) (rate_limits : Store) : list bool :=
  match events with
  | [] => []
  | e :: rest =>
      let '(rate_limits', ok) := handle e rate_limits in
      ok :: serve rest rate_limits'
  end.

(** The clock readings of the requests of one client, for any wrapped
    endpoint, that were let through since the store was last emptied;
    [so_far] are those of the events before. *)
Fixpoint let_through (client_ip : pystr) (events : list Event)
         (answers : list bool) (so_far : list Q) : list Q :=
  match events, answers with
  | Limited _ ip t :: events', ok :: answers' =>
      let_through client_ip events' answers'
                  (if streq ip client_ip && ok then so_far ++ [t] else so_far)
  | DeleteAll :: events', _ :: answers' => let_through client_ip events' answers' []
  | _, _ => so_far
  end.

(** The clock readings of a sequence of events. *)
Definition readings (events : list Event) : list Q :=
  flat_map (fun e => match e with Limited _ _ t => [t] | DeleteAll => [] end) events.

(** Requests arrive in the order of their clock readings. *)
Definition in_time_order (events : list Event) : Prop :=
  StronglySorted Qle (readings events).

End RateLimit.

(** ** Sessions of the backend agent (krishna_backend/core/krishna_agent.py) *)
Module BackendSessions.
Import Sql Backend.KrishnaAgent.

(** [set_session_id(user_id)] *)
Definition set_session_id (user_id : pystr) (a : t) : t :=
  let a := mk (memory_manager a) (scripture_processor a) user_id (global_topics a)
              (clock_reads a) (error_log a) in
  match memory_manager a with
  | Some m =>
      with_manager (Backend.LangChainMemoryManager.load_conversation_history m user_id 20) a
  | None => a
  end.

(** [process_message(user_id, message)] *)
Definition process_message (env : Env) (user_id message : pystr) (a : t)
  : t * Response :=
  get_response env message (set_session_id user_id a).

(** One entry of the list [get_conversation_history] returns. *)
Record HistoryEntry : Type := mkEntry {
  h_content : pystr;
  h_sender : pystr;
  h_timestamp : pystr
}.

(** [get_conversation_history(session_id)]: rows with an empty message are
    left out. *)
Definition get_conversation_history (a : t) (sid : pystr) : list HistoryEntry :=
  match memory_manager a with
  | None => []
  | Some m =>
      map (fun r => mkEntry (c_message r) (c_sender r) (c_timestamp r))
          (List.filter (fun r => nonempty (c_message r))
             (select_conversation sid (Backend.LangChainMemoryManager.db m)))
  end.

(** The agent with another chat buffer. *)
Definition with_buffer (buffer : list (gmap string pystr)) (a : t) : t :=
  match memory_manager a with
  | Some m => with_manager (Backend.LangChainMemoryManager.mk
                              (Backend.LangChainMemoryManager.db m) buffer) a
  | None => a
  end.

End BackendSessions.

(** ** Shapes of texts used in the statements *)
Module Shape.

(** No punctuation mark of [.,;:!?] is directly followed by a letter. *)
Fixpoint punctuated (s : pystr) : bool :=
  match s with
  | [] => true
  | c :: s' =>
      match s' with
      | d :: _ => negb (ScriptureReader.is_punct c && ScriptureReader.is_letter d)
      | [] => true
      end && punctuated s'
  end.

End Shape.

(** * Properties *)

Module PyFacts.

Lemma strle_refl (a : pystr) : strle a a = true.
Proof.
  induction a as [|x a IH]; simpl; [reflexivity|].
  rewrite N.eqb_refl, IH. apply orb_true_r.
Qed.



Lemma streq_eq (a b : pystr) : streq a b = true <-> a = b.
Proof.
  revert b. induction a as [|x a IH]; intros [|y b]; simpl; split; try easy.
  - intros H. apply andb_true_iff in H as [H1 H2].
    apply N.eqb_eq in H1. apply IH in H2. congruence.
  - intros H. inversion H; subst. rewrite N.eqb_refl. simpl. now apply IH.
Qed.

Lemma streq_refl (a : pystr) : streq a a = true.
Proof. now apply streq_eq. Qed.

Lemma startswith_spec (p s : pystr) :
  startswith p s = true <-> exists b, s = p ++ b.
Proof.
  revert s. induction p as [|x p IH]; intros s; simpl.
  - split; eauto.
  - destruct s as [|y s].
    + split; [easy|]. intros [b Hb]. discriminate.
    + rewrite andb_true_iff, N.eqb_eq, IH. split.
      * intros [-> [b ->]]. now exists b.
      * intros [b Hb]. inversion Hb; subst. eauto.
Qed.

Lemma contains_spec (p s : pystr) :
  contains p s = true <-> exists a b, s = a ++ p ++ b.
Proof.
  induction s as [|y s IH].
  - simpl. rewrite orb_false_r, startswith_spec. split.
    + intros [b Hb]. now exists [], b.
    + intros (a & b & H). destruct a; simpl in H.
      * now exists b.
      * discriminate.
  - cbn [contains]. rewrite orb_true_iff, startswith_spec, IH. split.
    + intros [[b Hb]|(a & b & Hab)].
      * now exists [], b.
      * exists (y :: a), b. simpl. now f_equal.
    + intros (a & b & H). destruct a as [|z a]; simpl in H.
      * left. now exists b.
      * right. inversion H; subst. now exists a, b.
Qed.

Lemma contains_rev (p s : pystr) : contains (rev p) (rev s) = contains p s.
Proof.
  apply eq_true_iff_eq. rewrite !contains_spec. split.
  - intros (a & b & H). exists (rev b), (rev a).
    apply (f_equal (@rev N)) in H. rewrite rev_involutive in H.
    rewrite H, !rev_app_distr, rev_involutive. now rewrite app_assoc.
  - intros (a & b & ->). exists (rev b), (rev a).
    rewrite !rev_app_distr. now rewrite app_assoc.
Qed.

Lemma contains_lstrip (c : N) (p s : pystr) :
  is_space c = false -> contains (c :: p) (lstrip s) = contains (c :: p) s.
Proof.
  intros Hc. induction s as [|x s IH]; [reflexivity|].
  cbn [lstrip]. destruct (is_space x) eqn:Hx; [|reflexivity].
  rewrite IH. cbn [contains startswith].
  destruct (N.eqb_spec c x) as [->|_]; [congruence|reflexivity].
Qed.

(** Containment of a phrase that neither starts nor ends with whitespace is
    not affected by [strip]. *)
Lemma contains_strip (p s : pystr) (c d : N) :
  hd_error p = Some c -> hd_error (rev p) = Some d ->
  is_space c = false -> is_space d = false ->
  contains p (strip s) = contains p s.
Proof.
  intros Hp Hr Hc Hd. unfold strip, rstrip.
  destruct p as [|c' p]; [discriminate|]. simpl in Hp. inversion Hp; subst c'.
  rewrite <- (contains_lstrip c p s Hc).
  rewrite <- (rev_involutive (c :: p)) at 1.
  rewrite contains_rev.
  destruct (rev (c :: p)) as [|d' q] eqn:E; [discriminate|].
  simpl in Hr. inversion Hr; subst d'.
  rewrite (contains_lstrip d q _ Hd).
  rewrite <- E. rewrite contains_rev. reflexivity.
Qed.

End PyFacts.

Import PyFacts.


Module SqlFacts.
Import Sql.

Section OrderByFacts.
Context {A : Type} (ts : A -> pystr).

Lemma insert_by_perm (x : A) (l : list A) :
  Permutation (x :: l) (insert_by ts x l).
Proof.
  induction l as [|y l IH]; simpl; [reflexivity|].
  destruct (strle (ts x) (ts y)); [reflexivity|].
  rewrite perm_swap. now apply perm_skip.
Qed.

Lemma order_by_asc_perm (l : list A) : Permutation l (order_by_asc ts l).
Proof.
  induction l as [|x l IH]; simpl; [reflexivity|].
  rewrite <- insert_by_perm. now apply perm_skip.
Qed.


End OrderByFacts.

Lemma StronglySorted_firstn {A : Type} (R : A -> A -> Prop) (n : nat) (l : list A) :
  StronglySorted R l -> StronglySorted R (firstn n l).
Proof.
  intros H. revert n. induction H as [|x l Hs IH Hall]; intros [|n]; simpl;
    try constructor; auto.
  now apply Forall_take.
Qed.

Lemma StronglySorted_map {A B : Type} (R : B -> B -> Prop) (f : A -> B) (l : list A) :
  StronglySorted (fun x y => R (f x) (f y)) l -> StronglySorted R (map f l).
Proof.
  induction 1 as [|x l Hs IH Hall]; simpl; constructor; auto.
  apply Forall_map. exact Hall.
Qed.


Lemma select_conversation_perm (sid : pystr) (d : Database) :
  Permutation
    (List.filter (fun r => streq (c_user_id r) sid) (conversations d))
    (select_conversation sid d).
Proof. apply order_by_asc_perm. Qed.

Lemma select_conversation_owner (sid : pystr) (d : Database) (r : ConversationRow) :
  In r (select_conversation sid d) -> c_user_id r = sid /\ In r (conversations d).
Proof.
  intros H. eapply Permutation_in in H; [|symmetry; apply select_conversation_perm].
  apply filter_In in H as [H1 H2]. apply streq_eq in H2. auto.
Qed.

End SqlFacts.

Import SqlFacts.


Module StoreProperties.
Import Sql LangChainMemoryManager.




End StoreProperties.


Module DeletionProperties.
Import Sql KrishnaAgent.

Lemma filter_none {A : Type} (f : A -> bool) (l : list A) :
  List.filter f (List.filter (fun x => negb (f x)) l) = [].
Proof.
  induction l as [|x l IH]; simpl; [reflexivity|].
  destruct (f x) eqn:E; simpl; [exact IH|]. now rewrite E.
Qed.

Lemma delete_session_rows_clears (sid : pystr) (d : Database) :
  select_conversation sid (delete_session_rows sid d) = []
  /\ List.filter (fun r => streq (m_user_id r) sid)
       (mood_checkins (delete_session_rows sid d)) = []
  /\ List.filter (fun r => streq (s_user_id r) sid)
       (conversation_summaries (delete_session_rows sid d)) = []
  /\ deleted_sessions (delete_session_rows sid d) = deleted_sessions d.
Proof.
  unfold select_conversation, delete_session_rows. simpl.
  rewrite (filter_none (fun r => streq (c_user_id r) sid)).
  rewrite (filter_none (fun r => streq (m_user_id r) sid)).
  rewrite (filter_none (fun r => streq (s_user_id r) sid)).
  repeat split.
Qed.

(** The attribute lookup of [delete_conversation] finds nothing on a
    [LangChainMemoryManager]. *)
Lemma mark_session_deleted_missing :
  LangChainMemoryManager.lookup_method "mark_session_deleted" write_tombstone = None.
Proof. reflexivity. Qed.

(** C1. [delete_conversation] on the agent as the source builds it: the
    rows of the session are deleted, then the call of
    [mark_session_deleted] fails on the [LangChainMemoryManager], so the
    method reports [False] and the tombstones are what they were. *)
Theorem delete_conversation_records_no_tombstone
        (env : Env) (sid : pystr) (a : KrishnaAgent.t) :
  snd (delete_conversation env sid a) = false
  /\ has_tombstone (fst (delete_conversation env sid a)) sid = has_tombstone a sid
  /\ get_conversation_history (fst (delete_conversation env sid a)) sid = [].
Proof.
  unfold delete_conversation, delete_conversation_with.
  rewrite mark_session_deleted_missing.
  destruct (memory_manager a) as [m|] eqn:Hm.
  - unfold delete_conversation_try, manager, update, lift, mbind, M_bind.
    rewrite Hm. simpl.
    unfold has_tombstone, get_conversation_history. simpl. rewrite Hm.
    destruct (delete_session_rows_clears sid (LangChainMemoryManager.db m))
      as (H1 & _ & _ & H4).
    rewrite H1. repeat split.
  - simpl. unfold get_conversation_history. rewrite Hm. repeat split.
Qed.

(** The failing run: one stored message, then the deletion of its session. *)
Example delete_conversation_fails_on_stored_session :
  let a := KrishnaAgent.with_manager Scenario.one_message
             (KrishnaAgent.with_session (u "alice") Scenario.fresh_agent) in
  let '(a', ok) := delete_conversation (Scenario.env_saying []) (u "alice") a in
  ok = false
  /\ has_tombstone a' (u "alice") = false
  /\ get_conversation_history a' (u "alice") = []
  /\ error_log a' = [("delete_conversation"%string, AttributeError "mark_session_deleted")].
Proof. vm_compute. repeat split. Qed.

(** Nothing stands in the way of a later append to the deleted id: the
    next message of the session is stored under it again. *)
Example append_after_delete_is_accepted :
  let env := Scenario.env_saying (u "Be still.") in
  let a := KrishnaAgent.with_manager Scenario.one_message
             (KrishnaAgent.with_session (u "alice") Scenario.fresh_agent) in
  let a' := fst (delete_conversation env (u "alice") a) in
  let a'' := fst (get_response env (u "I am back") a') in
  has_tombstone a'' (u "alice") = false
  /\ length (get_conversation_history a'' (u "alice")) = 2%nat.
Proof. vm_compute. split; reflexivity. Qed.

(** With the method of [MemoryManager] in place the same code succeeds and
    leaves a tombstone. *)
Lemma delete_conversation_with_tombstone_method
      (env : Env) (sid : pystr) (a : KrishnaAgent.t) (m : LangChainMemoryManager.t) :
  memory_manager a = Some m ->
  snd (delete_conversation_with env (Some write_tombstone) sid a) = true
  /\ has_tombstone (fst (delete_conversation_with env (Some write_tombstone) sid a)) sid = true
  /\ get_conversation_history
       (fst (delete_conversation_with env (Some write_tombstone) sid a)) sid = [].
Proof.
  intros Hm. unfold delete_conversation_with. rewrite Hm.
  unfold delete_conversation_try, manager, update, lift, now, read, mbind, M_bind, mret, M_ret.
  rewrite Hm. simpl.
  destruct (delete_session_rows_clears sid (LangChainMemoryManager.db m))
    as (H1 & _ & _ & H4).
  destruct (streq (session_id a) sid); simpl;
    unfold has_tombstone, get_conversation_history; simpl;
    rewrite existsb_app; simpl; rewrite streq_refl, orb_true_r;
    unfold select_conversation in *; simpl in *; rewrite H1; repeat split.
Qed.

(** [MemoryManager]: a session marked deleted is reported deleted, and
    [save_message] never removes the mark. *)
Lemma mark_then_is_session_deleted (m : MemoryManager.t) (sid ts : pystr) :
  MemoryManager.is_session_deleted
    (fst (MemoryManager.mark_session_deleted m sid ts)) sid = true.
Proof.
  unfold MemoryManager.is_session_deleted, MemoryManager.mark_session_deleted. simpl.
  rewrite existsb_app. simpl. now rewrite streq_refl, orb_true_r.
Qed.

Lemma save_message_keeps_tombstones
      (m : MemoryManager.t) (user_id message sender ts sid : pystr) :
  MemoryManager.is_session_deleted (MemoryManager.save_message m user_id message sender ts) sid
  = MemoryManager.is_session_deleted m sid.
Proof. reflexivity. Qed.

End DeletionProperties.


Module RetrieverProperties.

Section LangChain.
Import ScriptureLangChain.

Lemma scored_app (query : pystr) (l1 l2 : list Document) :
  scored query (l1 ++ l2) = scored query l1 ++ scored query l2.
Proof. unfold scored. now rewrite map_app, List.filter_app. Qed.

Lemma scored_none (query : pystr) (l : list Document) :
  (forall x, In x l -> doc_score query x = 0%nat) -> scored query l = [].
Proof.
  induction l as [|x l IH]; intros H; [reflexivity|].
  unfold scored in *. simpl. rewrite (H x (or_introl eq_refl)). simpl.
  apply IH. intros y Hy. apply H. now right.
Qed.

Lemma scored_unique (query : pystr) (before after : list Document) (d : Document) :
  (0 < doc_score query d)%nat ->
  (forall x, In x (before ++ after) -> doc_score query x = 0%nat) ->
  scored query (before ++ d :: after) = [(d, doc_score query d)].
Proof.
  intros Hd Hothers.
  rewrite scored_app. rewrite scored_none.
  2:{ intros x Hx. apply Hothers. apply in_or_app. now left. }
  simpl. change (d :: after) with ([d] ++ after). rewrite scored_app.
  rewrite (scored_none query after).
  2:{ intros x Hx. apply Hothers. apply in_or_app. now right. }
  unfold scored. simpl.
  destruct (doc_score query d) eqn:E; [lia|]. reflexivity.
Qed.

Lemma keyword_fallback_unique (r : t) (query : pystr) (k : nat)
      (before after : list Document) (d : Document) :
  (0 < k)%nat ->
  documents r = before ++ d :: after ->
  (0 < doc_score query d)%nat ->
  (forall x, In x (before ++ after) -> doc_score query x = 0%nat) ->
  _keyword_fallback r query k = [to_passage (d, doc_score query d)].
Proof.
  intros Hk Hdocs Hd Hothers. unfold _keyword_fallback.
  rewrite Hdocs, (scored_unique query before after d Hd Hothers).
  destruct k as [|k]; [lia|].
  destruct before; simpl; now rewrite firstn_nil.
Qed.

Lemma keyword_fallback_none (r : t) (query : pystr) (k : nat) :
  (forall x, In x (documents r) -> doc_score query x = 0%nat) ->
  _keyword_fallback r query k = [].
Proof.
  intros H. unfold _keyword_fallback.
  rewrite (scored_none query (documents r) H).
  destruct (documents r); [reflexivity|]. simpl. now destruct k.
Qed.

End LangChain.

Section Reader.
Import ScriptureReader.

Lemma first_word_in_found (words : list pystr) (text : pystr) :
  (0 < score_of words text)%nat ->
  exists word, first_word_in words text = Some word /\ contains word text = true.
Proof.
  unfold score_of. induction words as [|w ws IH]; simpl; [lia|].
  destruct (contains w text) eqn:E; [eauto|]. exact IH.
Qed.

Lemma scan_settled (words : list pystr) (items : list (pystr * pystr))
      (best : option Match) (best_score : nat) :
  (forall source text, In (source, text) items ->
                       (score_of words text <= best_score)%nat) ->
  scan words items best best_score = best.
Proof.
  revert best best_score. induction items as [|[source text] items IH];
    intros best best_score H; [reflexivity|].
  cbn [scan].
  assert (Hle : (score_of words text <= best_score)%nat) by (apply (H source); now left).
  apply Nat.ltb_ge in Hle. rewrite Hle.
  apply IH. intros s t Hin. apply (H s). now right.
Qed.

Lemma scan_unique (words : list pystr) (before after : list (pystr * pystr))
      (source text : pystr) :
  (0 < score_of words text)%nat ->
  (forall s t, In (s, t) (before ++ after) -> score_of words t = 0%nat) ->
  exists word,
    first_word_in words text = Some word
    /\ scan words (before ++ (source, text) :: after) None 0
       = Some (mkMatch source (snippet_for word text) (score_of words text)).
Proof.
  intros Hpos Hothers.
  destruct (first_word_in_found words text Hpos) as (word & Hw & _).
  exists word. split; [exact Hw|].
  induction before as [|[s t] before IH].
  - cbn [app scan]. apply Nat.ltb_lt in Hpos. rewrite Hpos, Hw.
    apply scan_settled. intros s t Hin.
    rewrite (Hothers s t); [lia|]. exact Hin.
  - cbn [app scan].
    rewrite (Hothers s t) by (left; reflexivity). cbn.
    apply IH. intros s' t' Hin. apply (Hothers s'). now right.
Qed.

Lemma scan_none (words : list pystr) (items : list (pystr * pystr)) :
  (forall s t, In (s, t) items -> score_of words t = 0%nat) ->
  scan words items None 0 = None.
Proof.
  intros H. apply scan_settled. intros s t Hin. rewrite (H s t Hin). lia.
Qed.

End Reader.

Lemma no_term_found (terms : list pystr) (content : pystr) :
  (forall term, In term terms -> contains term content = false) ->
  length (List.filter (fun term => contains term content) terms) = 0%nat.
Proof.
  induction terms as [|t terms IH]; intros H; [reflexivity|].
  cbn [List.filter]. rewrite (H t (or_introl eq_refl)).
  apply IH. intros term Hin. apply H. now right.
Qed.

Lemma some_term_found (terms : list pystr) (content term : pystr) :
  In term terms -> contains term content = true ->
  (0 < length (List.filter (fun term => contains term content) terms))%nat.
Proof.
  induction terms as [|t terms IH]; intros Hin Hc; [destruct Hin|].
  cbn [List.filter]. destruct Hin as [->|Hin].
  - rewrite Hc. cbn. lia.
  - destruct (contains t content); [cbn; lia|]. now apply IH.
Qed.

(** C8. Term-overlap retrieval.  A passage matches a query when it
    contains one of the query's terms.  When exactly one passage of the
    corpus matches, that passage is what the retriever returns; when no
    passage does, the result is empty ([[]], [(None, None, None)],
    [None]).  The retrievers are total functions: no query makes them
    raise. *)
Theorem retrieval_unique_or_empty (k : nat) :
  (0 < k)%nat ->
  (forall (r : ScriptureLangChain.t) (query : pystr) before d after term,
      ScriptureLangChain.documents r = before ++ d :: after ->
      In term (split_ws (lower query)) ->
      contains term (lower (ScriptureLangChain.page_content d)) = true ->
      (forall x other,
          In x (before ++ after) -> In other (split_ws (lower query)) ->
          contains other (lower (ScriptureLangChain.page_content x)) = false) ->
      ScriptureLangChain.find_relevant_passages r query k
      = [ScriptureLangChain.mkPassage
           (ScriptureLangChain.page_content d)
           (ScriptureLangChain.metadata_source d)
           (ScriptureLangChain.doc_score query d)
           (default 0%Z (ScriptureLangChain.page d))]
      /\ (1 <= ScriptureLangChain.doc_score query d)%nat
      /\ ScriptureLangChain.find_relevant_passage r query
         = (PStr (ScriptureLangChain.page_content d),
            PStr (ScriptureLangChain.metadata_source d),
            PInt (default 0%Z (ScriptureLangChain.page d))))
  /\ (forall (r : ScriptureLangChain.t) (query : pystr),
      (forall x term,
          In x (ScriptureLangChain.documents r) -> In term (split_ws (lower query)) ->
          contains term (lower (ScriptureLangChain.page_content x)) = false) ->
      ScriptureLangChain.find_relevant_passages r query k = []
      /\ ScriptureLangChain.find_relevant_passage r query = (PNone, PNone, PNone))
  /\ (forall (r : ScriptureReader.t) (query : pystr) before source text after term,
      let words := split_ws (ScriptureReader._preprocess_text query) in
      ScriptureReader.scripture_cache r = before ++ (source, text) :: after ->
      In term words ->
      contains term text = true ->
      (forall s t other,
          In (s, t) (before ++ after) -> In other words -> contains other t = false) ->
      exists word,
        ScriptureReader.first_word_in words text = Some word
        /\ In word words
        /\ contains word text = true
        /\ (1 <= ScriptureReader.score_of words text)%nat
        /\ ScriptureReader.find_relevant_passage r query
           = Some (ScriptureReader.mkMatch source
                     (ScriptureReader.snippet_for word text)
                     (ScriptureReader.score_of words text)))
  /\ (forall (r : ScriptureReader.t) (query : pystr),
      (forall s t word,
          In (s, t) (ScriptureReader.scripture_cache r) ->
          In word (split_ws (ScriptureReader._preprocess_text query)) ->
          contains word t = false) ->
      ScriptureReader.find_relevant_passage r query = None).
Proof.
  intros Hk. split; [|split; [|split]].
  - intros r query before d after term Hdocs Hin Hterm Hothers.
    assert (Hd : (0 < ScriptureLangChain.doc_score query d)%nat)
      by (exact (some_term_found _ _ _ Hin Hterm)).
    assert (Ho : forall x, In x (before ++ after) ->
                           ScriptureLangChain.doc_score query x = 0%nat)
      by (intros x Hx; apply no_term_found; intros other; now apply Hothers).
    unfold ScriptureLangChain.find_relevant_passage,
      ScriptureLangChain.find_relevant_passages.
    rewrite (keyword_fallback_unique r query k before after d Hk Hdocs Hd Ho).
    rewrite (keyword_fallback_unique r query 1 before after d (le_n 1) Hdocs Hd Ho).
    unfold ScriptureLangChain.to_passage. cbn [fst snd].
    destruct (ScriptureLangChain.page d); (split; [reflexivity|]; split; [lia|reflexivity]).
  - intros r query Hnone.
    assert (Ho : forall x, In x (ScriptureLangChain.documents r) ->
                           ScriptureLangChain.doc_score query x = 0%nat)
      by (intros x Hx; apply no_term_found; intros term; now apply Hnone).
    unfold ScriptureLangChain.find_relevant_passage,
      ScriptureLangChain.find_relevant_passages.
    now rewrite !keyword_fallback_none.
  - intros r query before source text after term words Hcache Hin Hterm Hothers.
    assert (Hpos : (0 < ScriptureReader.score_of words text)%nat)
      by (exact (some_term_found _ _ _ Hin Hterm)).
    assert (Ho : forall s t, In (s, t) (before ++ after) ->
                             ScriptureReader.score_of words t = 0%nat)
      by (intros s t Hst; apply no_term_found; intros other; now apply (Hothers s)).
    destruct (first_word_in_found words text Hpos) as (word & Hw & Hfound).
    destruct (scan_unique words before after source text Hpos Ho)
      as (word' & Hw' & Hscan).
    rewrite Hw in Hw'. injection Hw' as <-.
    exists word. split; [exact Hw|]. split; [|split; [|split; [lia|]]].
    + clear - Hw. induction words as [|w ws IH]; [discriminate|].
      cbn in Hw. destruct (contains w text); [injection Hw as ->; now left|].
      right. now apply IH.
    + exact Hfound.
    + unfold ScriptureReader.find_relevant_passage. rewrite Hcache.
      destruct before; exact Hscan.
  - intros r query Hnone. unfold ScriptureReader.find_relevant_passage.
    destruct (ScriptureReader.scripture_cache r) as [|x l] eqn:E; [reflexivity|].
    apply scan_none. intros s t Hst. apply no_term_found.
    intros word. now apply (Hnone s).
Qed.

Lemma retrieval_unique_or_empty_witness :
  ScriptureLangChain.find_relevant_passage Corpus.chunks (u "Tell me my Duty")
  = (PStr (u "Perform your duty without attachment to the fruits of action."),
     PStr (u "bgita"), PInt 12%Z)
  /\ ScriptureLangChain.find_relevant_passage Corpus.chunks (u "quantum chromodynamics")
     = (PNone, PNone, PNone)
  /\ ScriptureReader.find_relevant_passage Corpus.cache (u "the fruits of Karma?")
     = Some (ScriptureReader.mkMatch
               (u "bgita.pdf")
               (u "Perform your duty without attachment to the fruits of action.")
               3)
  /\ ScriptureReader.find_relevant_passage Corpus.cache (u "quantum chromodynamics") = None.
Proof.
  destruct (retrieval_unique_or_empty 1 (le_n 1)) as (Huniq & Hnone & Huniq' & Hnone').
  split; [|split; [|split]].
  - assert (Ho : forall x other,
               In x ([] ++ [Corpus.upanishad]) ->
               In other (split_ws (lower (u "Tell me my Duty"))) ->
               contains other (lower (ScriptureLangChain.page_content x)) = false).
    { intros x other [<-|[]] Hin. vm_compute in Hin.
      repeat (destruct Hin as [<-|Hin]; [vm_compute; reflexivity|]). destruct Hin. }
    destruct (Huniq Corpus.chunks (u "Tell me my Duty") [] Corpus.gita
                    [Corpus.upanishad] (u "duty") eq_refl) as (_ & _ & H).
    + vm_compute. tauto.
    + vm_compute. reflexivity.
    + exact Ho.
    + rewrite H. reflexivity.
  - apply (Hnone Corpus.chunks (u "quantum chromodynamics")).
    intros x term [<-|[<-|[]]] Hin; vm_compute in Hin;
      repeat (destruct Hin as [<-|Hin]; [vm_compute; reflexivity|]); destruct Hin.
  - destruct (Huniq' Corpus.cache (u "the fruits of Karma?") []
                     (u "bgita.pdf")
                     (u "Perform your duty without attachment to the fruits of action.")
                     [(u "upanishads.pdf", u "The Self is not born, nor does it die.")]
                     (u "fruits") eq_refl) as (word & Hw & _ & _ & _ & H).
    + vm_compute. tauto.
    + vm_compute. reflexivity.
    + intros s t other [Hst|[]] Hin. injection Hst as <- <-. vm_compute in Hin.
      repeat (destruct Hin as [<-|Hin]; [vm_compute; reflexivity|]). destruct Hin.
    + rewrite H. vm_compute in Hw. injection Hw as <-. vm_compute. reflexivity.
  - apply Hnone'. intros s t word [H|[H|[]]] Hin; injection H as <- <-;
      vm_compute in Hin;
      repeat (destruct Hin as [<-|Hin]; [vm_compute; reflexivity|]); destruct Hin.
Defined.

End RetrieverProperties.


Module ExtractorProperties.
Import KrishnaAgent.

Lemma merge_entities_idempotent (reg : EntityRegistry) (e : Entities) :
  merge_entities (merge_entities reg e) e = merge_entities reg e.
Proof.
  unfold merge_entities. simpl.
  f_equal; rewrite <- (assoc_L (∪)); f_equal; apply (idemp_L (∪)).
Qed.

Lemma merge_entities_grows (reg : EntityRegistry) (e : Entities) :
  people reg ⊆ people (merge_entities reg e)
  /\ places reg ⊆ places (merge_entities reg e)
  /\ events reg ⊆ events (merge_entities reg e)
  /\ dates reg ⊆ dates (merge_entities reg e).
Proof.
  unfold merge_entities. simpl. repeat split; apply union_subseteq_l.
Qed.

Lemma merge_entities_records (reg : EntityRegistry) (e : Entities) (x : pystr) :
  (In x (e_people e) -> x ∈ people (merge_entities reg e))
  /\ (In x (e_places e) -> x ∈ places (merge_entities reg e))
  /\ (In x (e_events e) -> x ∈ events (merge_entities reg e))
  /\ (In x (e_dates e) -> x ∈ dates (merge_entities reg e)).
Proof.
  unfold merge_entities. simpl.
  repeat split; intros H; apply elem_of_union_r, elem_of_list_to_set,
    list_elem_of_In; exact H.
Qed.

(** C10. Entity extraction is idempotent: running [_track_entities] again
    on the same message finds the same entities and leaves the agent, and
    with it the entity registry of the session, as the first run left it;
    the registry only ever grows. *)
Theorem track_entities_idempotent (user_message : pystr) (a : KrishnaAgent.t) :
  let first := _track_entities user_message a in
  let second := _track_entities user_message (fst first) in
  session_entities (fst second) = session_entities (fst first)
  /\ fst second = fst first
  /\ snd second = snd first
  /\ people (session_entities a) ⊆ people (session_entities (fst first))
  /\ places (session_entities a) ⊆ places (session_entities (fst first))
  /\ events (session_entities a) ⊆ events (session_entities (fst first))
  /\ dates (session_entities a) ⊆ dates (session_entities (fst first)).
Proof.
  cbn zeta. unfold _track_entities, update, mbind, M_bind, mret, M_ret, with_entities.
  simpl. rewrite merge_entities_idempotent.
  split; [reflexivity|]. split; [reflexivity|]. split; [reflexivity|].
  exact (merge_entities_grows (session_entities a) (extract_entities user_message)).
Qed.

(** The scenario of the specification: "I lost my dog yesterday" records
    the date entity "yesterday". *)
Example lost_my_dog_yesterday :
  e_dates (extract_entities (u "I lost my dog yesterday")) = [u "yesterday"]
  /\ u "yesterday" ∈ dates (session_entities
         (fst (_track_entities (u "I lost my dog yesterday") Scenario.fresh_agent))).
Proof.
  split; [vm_compute; reflexivity|].
  apply (merge_entities_records _ (extract_entities (u "I lost my dog yesterday"))).
  vm_compute. now left.
Qed.

End ExtractorProperties.


Module RouterProperties.
Import Sql KrishnaAgent.

(** *** Reasoning about [try] blocks *)

Lemma bind_ok {A B : Type} (c : M A) (f : A -> M B) (a a1 : KrishnaAgent.t) (x : A) :
  c a = (a1, Ok x) -> (c ≫= f) a = f x a1.
Proof. intros H. unfold mbind, M_bind. now rewrite H. Qed.

Lemma bind_raise {A B : Type} (c : M A) (f : A -> M B) (a a1 : KrishnaAgent.t) (e : PyExc) :
  c a = (a1, Raise e) -> (c ≫= f) a = (a1, Raise e).
Proof. intros H. unfold mbind, M_bind. now rewrite H. Qed.

(** [returns P c]: whenever the block [c] completes, its value satisfies
    [P]. *)
Definition returns {A : Type} (P : A -> Prop) (c : M A) : Prop :=
  forall a a' x, c a = (a', Ok x) -> P x.

Lemma returns_ret {A : Type} (P : A -> Prop) (x : A) : P x -> returns P (mret x).
Proof. intros H a a' y E. inversion E; subst. exact H. Qed.

Lemma returns_bind {A B : Type} (Q : A -> Prop) (P : B -> Prop)
      (c : M A) (f : A -> M B) :
  returns Q c -> (forall x, Q x -> returns P (f x)) -> returns P (c ≫= f).
Proof.
  intros Hc Hf a a' y E. unfold mbind, M_bind in E.
  destruct (c a) as [a1 [x|e]] eqn:Ec; [|discriminate].
  eapply Hf; eauto.
Qed.

Lemma returns_any {A : Type} (c : M A) : returns (fun _ => True) c.
Proof. intros a a' x _. exact I. Qed.

Lemma returns_then {A B : Type} (P : B -> Prop) (c : M A) (f : A -> M B) :
  (forall x, returns P (f x)) -> returns P (c ≫= f).
Proof. intros H. apply (returns_bind (fun _ => True)); [apply returns_any|auto]. Qed.

(** [extends a a']: the session is the same and the conversation log of
    [a'] is the log of [a] with rows appended. *)
Definition extends (a a' : KrishnaAgent.t) : Prop :=
  session_id a' = session_id a
  /\ forall m, memory_manager a = Some m ->
       exists m' rest,
         memory_manager a' = Some m'
         /\ conversations (LangChainMemoryManager.db m')
            = conversations (LangChainMemoryManager.db m) ++ rest.

Lemma extends_refl (a : KrishnaAgent.t) : extends a a.
Proof.
  split; [reflexivity|]. intros m Hm. exists m, []. now rewrite app_nil_r.
Qed.

Lemma extends_trans (a b c : KrishnaAgent.t) : extends a b -> extends b c -> extends a c.
Proof.
  intros [Hs1 H1] [Hs2 H2]. split; [congruence|].
  intros m Hm. destruct (H1 m Hm) as (m1 & r1 & Hm1 & E1).
  destruct (H2 m1 Hm1) as (m2 & r2 & Hm2 & E2).
  exists m2, (r1 ++ r2). split; [exact Hm2|]. now rewrite E2, E1, app_assoc.
Qed.

(** [grows c]: whatever the outcome of [c], it only appends to the log. *)
Definition grows {A : Type} (c : M A) : Prop := forall a, extends a (fst (c a)).

Lemma grows_ret {A : Type} (x : A) : grows (mret x : M A).
Proof. intros a. apply extends_refl. Qed.

Lemma grows_bind {A B : Type} (c : M A) (f : A -> M B) :
  grows c -> (forall x, grows (f x)) -> grows (c ≫= f).
Proof.
  intros Hc Hf a. unfold mbind, M_bind. specialize (Hc a).
  destruct (c a) as [a1 [x|e]] eqn:Ec; simpl in *; [|exact Hc].
  eapply extends_trans; [exact Hc|apply Hf].
Qed.

Lemma grows_lift {A : Type} (r : Result A) : grows (lift r).
Proof. intros a. apply extends_refl. Qed.

Lemma grows_read {A : Type} (f : KrishnaAgent.t -> A) : grows (read f).
Proof. intros a. apply extends_refl. Qed.

Lemma grows_manager (method : string) : grows (manager method).
Proof. intros a. unfold manager. destruct (memory_manager a); apply extends_refl. Qed.

(** The agent after a successful [save_message]. *)
Definition saved (env : Env) (message : pystr) (sender : string)
           (m : LangChainMemoryManager.t) (a : KrishnaAgent.t) : KrishnaAgent.t :=
  KrishnaAgent.mk
    (Some (LangChainMemoryManager.save_message m (session_id a) message (u sender)
             (clock env (clock_reads a))))
    (scripture_processor a) (session_id a) (session_entities a)
    (S (clock_reads a)) (error_log a).

Lemma save_message_ok (env : Env) (message : pystr) (sender : string)
      (a : KrishnaAgent.t) (m : LangChainMemoryManager.t) :
  memory_manager a = Some m ->
  save_message env message sender a = (saved env message sender m a, Ok tt).
Proof.
  intros Hm. unfold save_message, manager, read, now, update, mbind, M_bind.
  rewrite Hm. reflexivity.
Qed.

Lemma save_message_none (env : Env) (message : pystr) (sender : string)
      (a : KrishnaAgent.t) :
  memory_manager a = None ->
  save_message env message sender a = (a, Raise (AttributeError "save_message"%string)).
Proof.
  intros Hm. unfold save_message, manager, mbind, M_bind. now rewrite Hm.
Qed.

Lemma grows_save_message (env : Env) (message : pystr) (sender : string) :
  grows (save_message env message sender).
Proof.
  intros a. destruct (memory_manager a) as [m|] eqn:Hm.
  - rewrite (save_message_ok env message sender a m Hm). simpl.
    split; [reflexivity|]. intros m0 Hm0. rewrite Hm in Hm0. inversion Hm0; subst m0.
    eexists _, _. split; reflexivity.
  - rewrite (save_message_none env message sender a Hm). apply extends_refl.
Qed.

Lemma grows_save_mood (env : Env) (mood : option pystr) : grows (save_mood env mood).
Proof.
  intros a. unfold save_mood, manager, read, now, update, mbind, M_bind.
  destruct (memory_manager a) as [m|] eqn:Hm; simpl.
  - split; [reflexivity|]. intros m0 Hm0. rewrite Hm in Hm0. inversion Hm0; subst m0.
    eexists _, []. split; [reflexivity|]. simpl. now rewrite app_nil_r.
  - apply extends_refl.
Qed.

Lemma grows_get_conversation_messages : grows get_conversation_messages.
Proof.
  intros a. unfold get_conversation_messages, manager, read, mbind, M_bind, mret, M_ret.
  destruct (memory_manager a); apply extends_refl.
Qed.

Lemma grows_track_entities (user_message : pystr) : grows (_track_entities user_message).
Proof.
  intros a. unfold _track_entities, update, mbind, M_bind, mret, M_ret. simpl.
  split; [reflexivity|]. intros m Hm. exists m, []. now rewrite app_nil_r.
Qed.

Create HintDb grows.

#[local] Hint Resolve grows_ret grows_lift grows_read grows_manager
  grows_save_message grows_save_mood grows_get_conversation_messages
  grows_track_entities : grows.

Ltac grows_tac :=
  repeat first
    [ apply grows_bind; [solve [auto with grows]|intros ?]
    | solve [auto with grows]
    | progress cbv zeta ].

Lemma grows_canonical (env : Env) (user_message special : pystr) :
  grows (canonical env user_message special).
Proof. unfold canonical. grows_tac. Qed.




Lemma canonical_ok (env : Env) (user_message special : pystr)
      (a : KrishnaAgent.t) (m : LangChainMemoryManager.t) :
  memory_manager a = Some m ->
  exists a', canonical env user_message special a = (a', Ok (RText special)).
Proof.
  intros Hm. unfold canonical.
  rewrite (bind_ok _ _ a _ tt (save_message_ok env user_message "user" a m Hm)).
  erewrite bind_ok by (apply save_message_ok; reflexivity).
  eexists. reflexivity.
Qed.

Lemma route_why_krishna (user_message : pystr) :
  contains (u "why are you krishna") (lower user_message) = true ->
  route (strip (lower user_message)) = WhyKrishna.
Proof.
  intros H. unfold route, has_any, any_in, us. cbn [map existsb].
  rewrite (contains_strip (u "why are you krishna") (lower user_message) 119 97)
    by reflexivity.
  now rewrite H.
Qed.

(** Every branch starts by recording the user's message, so without a
    manager every branch fails at once. *)
Lemma get_response_try_without_manager (env : Env) (user_message : pystr)
      (a : KrishnaAgent.t) :
  memory_manager a = None ->
  get_response_try env user_message a = (a, Raise (AttributeError "save_message"%string)).
Proof.
  intros Hm. unfold get_response_try.
  destruct (route (strip (lower user_message)));
    unfold canonical, temporal_branch, followup_branch, correction_branch,
      default_branch;
    apply bind_raise; now apply save_message_none.
Qed.

Lemma get_response_handler (env : Env) (user_message : pystr)
      (a a' : KrishnaAgent.t) (e : PyExc) :
  get_response_try env user_message a = (a', Raise e) ->
  get_response env user_message a
  = (log_error "get_response" e a', RTriple apology (PStr []) (PStr (u "0"))).
Proof. intros H. unfold get_response. now rewrite H. Qed.

Lemma get_response_completed (env : Env) (user_message : pystr)
      (a a' : KrishnaAgent.t) (r : Response) :
  get_response_try env user_message a = (a', Ok r) ->
  get_response env user_message a = (a', r).
Proof. intros H. unfold get_response. now rewrite H. Qed.

(** A gateway failure on a generating branch. *)
Lemma followup_gateway_failure (env : Env) (user_message : pystr)
      (a : KrishnaAgent.t) (m : LangChainMemoryManager.t) (e : PyExc) :
  memory_manager a = Some m ->
  (forall prompt, gateway env prompt = Raise e) ->
  followup_branch env user_message a
  = (saved env user_message "user" m a, Raise e).
Proof.
  intros Hm Hg. unfold followup_branch.
  rewrite (bind_ok _ _ a _ tt (save_message_ok env user_message "user" a m Hm)).
  unfold get_conversation_messages, manager, read, lift, mbind, M_bind, mret, M_ret.
  cbn [memory_manager saved]. now rewrite Hg.
Qed.


(** *** What each branch returns *)

Definition is_text (r : Response) : Prop := exists t, r = RText t.


Lemma no_timestamp_in_history (m : LangChainMemoryManager.t) (sid : pystr) (limit : nat) :
  Forall (fun msg => timestamp_of msg = None)
         (LangChainMemoryManager.get_conversation_messages m sid limit).
Proof.
  unfold LangChainMemoryManager.get_conversation_messages.
  destruct (LangChainMemoryManager.chat_memory m) as [|b l].
  - apply List.Forall_forall. intros msg Hin. apply in_map_iff in Hin as (r & <- & _).
    unfold LangChainMemoryManager.to_dict, LangChainMemoryManager.role_content.
    destruct (streq (c_sender r) (u "user")); cbn [timestamp_of];
      rewrite !lookup_insert_ne by discriminate; apply lookup_empty.
  - apply List.Forall_forall. intros msg Hin. apply in_map_iff in Hin as (x & <- & _).
    reflexivity.
Qed.

Lemma returns_get_conversation_messages :
  returns (Forall (fun msg => timestamp_of msg = None)) get_conversation_messages.
Proof.
  intros a a' msgs E.
  unfold get_conversation_messages, manager, read, mbind, M_bind, mret, M_ret in E.
  destruct (memory_manager a); [|discriminate]. inversion E; subst.
  apply no_timestamp_in_history.
Qed.

Lemma in_removelast {A : Type} (x : A) (l : list A) : In x (removelast l) -> In x l.
Proof.
  induction l as [|y l IH]; [easy|]. cbn [removelast].
  destruct l as [|z l]; [easy|]. intros [->|H]; [now left|right; now apply IH].
Qed.

(** Without a timestamp on any message the temporal reply never carries
    an elapsed time. *)
Lemma temporal_reply_undated (env : Env) (topic : option pystr)
      (conversation_messages : list ChatMessage) :
  Forall (fun msg => timestamp_of msg = None) conversation_messages ->
  let key_topics := _extract_key_topics env conversation_messages in
  (find_mention topic conversation_messages <> None
   /\ temporal_reply env topic conversation_messages = shared_earlier)
  \/ (find_mention topic conversation_messages = None
      /\ (temporal_reply env topic conversation_messages = talked_about key_topics
          \/ temporal_reply env topic conversation_messages = not_discussed)).
Proof.
  intros Hts key_topics. unfold temporal_reply.
  destruct (find_mention topic conversation_messages) as [msg|] eqn:Hfind.
  - left. split; [discriminate|].
    unfold find_mention in Hfind. apply find_some in Hfind as [Hin Hm].
    unfold prior in Hin. apply in_rev, in_removelast in Hin.
    rewrite List.Forall_forall in Hts. rewrite (Hts msg Hin).
    destruct (content_of msg) as [|c t] eqn:Hc; [|reflexivity].
    unfold mentions in Hm. rewrite Hc in Hm.
    destruct topic as [[|x p]|]; try discriminate.
  - right. split; [reflexivity|]. fold key_topics.
    destruct (negb (contains (u "No specific topics found") key_topics)); auto.
Qed.

Lemma returns_temporal (env : Env) (user_message user_message_lower : pystr) :
  returns
    (fun r => exists msgs,
         Forall (fun msg => timestamp_of msg = None) msgs
         /\ r = RText (temporal_reply env (topic_of user_message user_message_lower) msgs))
    (temporal_branch env user_message user_message_lower).
Proof.
  unfold temporal_branch. apply returns_then. intros _.
  eapply returns_bind; [apply returns_get_conversation_messages|].
  intros msgs Hmsgs. cbv zeta. apply returns_then. intros _.
  apply returns_ret. eauto.
Qed.



Lemma returns_lift {A : Type} (r : Result A) : returns (fun x => r = Ok x) (lift r).
Proof. intros a a' x E. unfold lift in E. now inversion E. Qed.

Lemma returns_default (env : Env) (user_message user_message_lower : pystr) :
  returns
    (fun r => exists prompt generated,
         gateway env prompt = Ok generated
         /\ text_of r = postprocess (strip generated)
         /\ (is_text r \/ draw_scripture env = true))
    (default_branch env user_message user_message_lower).
Proof.
  unfold default_branch.
  do 8 (apply returns_then; intros ?; cbv zeta).
  eapply returns_bind; [apply returns_lift|].
  intros generated Hg. cbv zeta. apply returns_then. intros _.
  apply returns_ret. eexists _, generated. split; [exact Hg|].
  destruct (draw_scripture env).
  - destruct (enhance_with_scripture _ _) as [[p s] i]. cbn. auto.
  - cbn. split; [reflexivity|]. left. eexists. reflexivity.
Qed.

(** *** What each branch records *)

Lemma grows_temporal (env : Env) (user_message user_message_lower : pystr) :
  grows (temporal_branch env user_message user_message_lower).
Proof. unfold temporal_branch. grows_tac. Qed.


End RouterProperties.


(** ** The backend router *)
Module BackendProperties.
Import Sql Backend.KrishnaAgent.

Lemma backend_bind_ok {A B : Type} (c : M A) (f : A -> M B) (a a' : t) (x : A) :
  c a = (a', Ok x) -> (c ≫= f) a = f x a'.
Proof. intros H. unfold mbind, M_bind. now rewrite H. Qed.

Lemma backend_bind_raise {A B : Type} (c : M A) (f : A -> M B) (a a' : t) (e : PyExc) :
  c a = (a', Raise e) -> (c ≫= f) a = (a', Raise e).
Proof. intros H. unfold mbind, M_bind. now rewrite H. Qed.

(** The state after [save_message], when the manager is there. *)
Definition recorded (env : Env) (message : pystr) (sender : string)
           (m : Backend.LangChainMemoryManager.t) (a : t) : t :=
  mk (Some (Backend.LangChainMemoryManager.save_message m (session_id a) message
              (u sender) (clock env (clock_reads a))))
     (scripture_processor a) (session_id a) (global_topics a)
     (S (clock_reads a)) (error_log a).

Lemma backend_save_message_ok (env : Env) (message : pystr) (sender : string)
      (a : t) (m : Backend.LangChainMemoryManager.t) :
  memory_manager a = Some m ->
  save_message env message sender a = (recorded env message sender m a, Ok tt).
Proof.
  intros Hm. unfold save_message.
  rewrite (backend_bind_ok _ _ a a m) by (unfold manager; now rewrite Hm).
  reflexivity.
Qed.

Lemma backend_special_ok (env : Env) (text : pystr) (a : t)
      (m : Backend.LangChainMemoryManager.t) :
  memory_manager a = Some m ->
  special env text a = (recorded env text "assistant" m a, Ok (RTriple text [] (u "0"))).
Proof.
  intros Hm. unfold special.
  rewrite (backend_bind_ok _ _ _ _ _ (backend_save_message_ok env text _ a m Hm)).
  reflexivity.
Qed.











Lemma backend_route_why_krishna (user_message : pystr) :
  contains (u "why are you krishna") (lower user_message) = true ->
  route (strip (lower user_message)) = WhyKrishna.
Proof.
  intros Hc. unfold route.
  assert (H : any_in (us ["why are you krishna"; "why are you called krishna";
                          "why krishna"]%string)
                     (strip (lower user_message)) = true).
  { unfold any_in, us. cbn [map existsb].
    rewrite (PyFacts.contains_strip (u "why are you krishna") (lower user_message) 119 97)
      by reflexivity.
    now rewrite Hc. }
  now rewrite H.
Qed.

Lemma backend_get_response_handler env user_message a a' e :
  get_response_try env user_message a = (a', Raise e) ->
  get_response env user_message a
  = (log_error "get_response" e a', RTriple apology [] (u "0")).
Proof. intros H. unfold get_response. now rewrite H. Qed.

Lemma backend_try_without_manager env user_message a :
  memory_manager a = None ->
  get_response_try env user_message a = (a, Raise (AttributeError "save_message")).
Proof.
  intros Hm. unfold get_response_try, save_message.
  apply backend_bind_raise, backend_bind_raise. unfold manager. now rewrite Hm.
Qed.

(** The canonical branch of the backend. *)
Lemma backend_canonical_reply env user_message a m :
  memory_manager a = Some m ->
  contains (u "why are you krishna") (lower user_message) = true ->
  exists a', get_response_try env user_message a
             = (a', Ok (RTriple because_you_reached [] (u "0"))).
Proof.
  intros Hm Hc. unfold get_response_try.
  rewrite (backend_bind_ok _ _ _ _ _ (backend_save_message_ok env user_message "user" a m Hm)).
  rewrite (backend_route_why_krishna user_message Hc).
  erewrite backend_special_ok by reflexivity. eauto.
Qed.

(** [_calculate_time_ago] names minutes, hours or days. *)
Lemma backend_time_ago_minutes env timestamp_str seconds :
  time_since env timestamp_str = Some (0, seconds)%Z -> (seconds < 3600)%Z ->
  _calculate_time_ago env timestamp_str
  = str_of_int (seconds / 60) ++ u " minutes ago".
Proof.
  intros H Hs. unfold _calculate_time_ago. rewrite H. cbn.
  now rewrite (proj2 (Z.ltb_lt _ _) Hs).
Qed.

Lemma backend_time_ago_hours env timestamp_str seconds :
  time_since env timestamp_str = Some (0, seconds)%Z -> (3600 <= seconds)%Z ->
  _calculate_time_ago env timestamp_str
  = str_of_int (seconds / 3600) ++ u " hours ago".
Proof.
  intros H Hs. unfold _calculate_time_ago. rewrite H. cbn.
  now rewrite (proj2 (Z.ltb_ge _ _) Hs).
Qed.

Lemma backend_time_ago_days env timestamp_str days seconds :
  time_since env timestamp_str = Some (days, seconds) -> (1 < days)%Z ->
  _calculate_time_ago env timestamp_str = str_of_int days ++ u " days ago".
Proof.
  intros H Hd. unfold _calculate_time_ago. rewrite H.
  destruct (Z.eqb_spec days 0); [lia|]. destruct (Z.eqb_spec days 1); [lia|].
  reflexivity.
Qed.

(** The backend's "when" branch dates the mention from the timestamp of
    the stored row. *)
Example backend_when_branch_dates_the_mention :
  let env := BackendScenario.env_saying (u "Be still.") in
  let a1 := fst (get_response env (u "I am worried about my exam")
                              BackendScenario.fresh_agent) in
  snd (get_response env (u "when did we talk about my exam?") a1)
  = RTriple (u "We discussed that 2 minutes ago. How can I help you with it today?")
            [] (u "0").
Proof. vm_compute. reflexivity. Qed.

(** A reply of the backend with five components. *)
Example backend_scripture_reply_has_five_components :
  snd (get_response (BackendScenario.env_saying (u "Be still."))
                    (u "What is my duty") BackendScenario.with_gita)
  = RQuint (u "Be still.") (u "Bhagavad Gita") (u "12") 1
           (Some (u "Perform your duty without attachment to the fruits of action.")).
Proof. vm_compute. reflexivity. Qed.

(** The backend's [delete_conversation] succeeds, and no tombstone is
    written. *)
Lemma backend_delete_conversation_no_tombstone sid a m :
  memory_manager a = Some m ->
  exists m', delete_conversation sid a = (with_manager m' a, true)
    /\ select_conversation sid (Backend.LangChainMemoryManager.db m') = []
    /\ deleted_sessions (Backend.LangChainMemoryManager.db m')
       = deleted_sessions (Backend.LangChainMemoryManager.db m).
Proof.
  intros Hm. unfold delete_conversation. rewrite Hm.
  eexists. split; [reflexivity|]. cbn.
  destruct (DeletionProperties.delete_session_rows_clears sid
              (Backend.LangChainMemoryManager.db m)) as (H1 & _ & _ & H4).
  split; [exact H1|exact H4].
Qed.

End BackendProperties.

Module RouterClaims.
Import Sql KrishnaAgent RouterProperties.

(** C5. Whatever the history and the casing, a message that contains "why
    are you krishna" is answered with the fixed text "Because you reached
    for me.", by the root agent and by the backend agent alike; the
    gateway, the clock and the random draws play no part. *)
Theorem why_krishna_fixed_reply
        (user_message : pystr)
        (env : Env) (a : KrishnaAgent.t) (m : LangChainMemoryManager.t)
        (backend_env : Backend.KrishnaAgent.Env) (b : Backend.KrishnaAgent.t)
        (bm : Backend.LangChainMemoryManager.t) :
  contains (u "why are you krishna") (lower user_message) = true ->
  memory_manager a = Some m ->
  Backend.KrishnaAgent.memory_manager b = Some bm ->
  snd (get_response env user_message a) = RText (u "Because you reached for me.")
  /\ snd (Backend.KrishnaAgent.get_response backend_env user_message b)
     = Backend.KrishnaAgent.RTriple (u "Because you reached for me.") [] (u "0").
Proof.
  intros Hc Hm Hbm. split.
  - unfold get_response, get_response_try.
    rewrite (route_why_krishna user_message Hc).
    destruct (canonical_ok env user_message because_you_reached a m Hm) as [a' E].
    rewrite E. reflexivity.
  - unfold Backend.KrishnaAgent.get_response.
    destruct (BackendProperties.backend_canonical_reply backend_env user_message b bm Hbm Hc)
      as [b' E].
    rewrite E. reflexivity.
Qed.

Lemma why_krishna_fixed_reply_witness :
  snd (get_response Scenario.env_failing (u "But WHY are you Krishna, really?")
                    Scenario.fresh_agent)
  = RText (u "Because you reached for me.")
  /\ snd (Backend.KrishnaAgent.get_response BackendScenario.env_failing
            (u "But WHY are you Krishna, really?") BackendScenario.fresh_agent)
     = Backend.KrishnaAgent.RTriple (u "Because you reached for me.") [] (u "0").
Proof.
  apply (why_krishna_fixed_reply _ Scenario.env_failing Scenario.fresh_agent
           (LangChainMemoryManager.init Sql.empty)
           BackendScenario.env_failing BackendScenario.fresh_agent
           (Backend.LangChainMemoryManager.init Sql.empty)).
  - vm_compute. reflexivity.
  - reflexivity.
  - reflexivity.
Defined.

(** C7. No exception leaves [get_response], in the root agent or in the
    backend agent: when anything raised inside the [try] block, the error
    is logged and the caller receives the fixed apology with the neutral
    scripture metadata [("", "0")]. *)
Theorem get_response_never_raises
        (user_message : pystr)
        (env : Env) (a a' : KrishnaAgent.t) (e : PyExc)
        (backend_env : Backend.KrishnaAgent.Env) (b b' : Backend.KrishnaAgent.t)
        (backend_e : PyExc) :
  (get_response_try env user_message a = (a', Raise e) ->
   snd (get_response env user_message a)
   = RTriple (u "I'm having a moment of stillness. Let's reconnect shortly.")
             (PStr []) (PStr (u "0"))
   /\ error_log (fst (get_response env user_message a))
      = error_log a' ++ [("get_response"%string, e)])
  /\ (Backend.KrishnaAgent.get_response_try backend_env user_message b
      = (b', Raise backend_e) ->
      snd (Backend.KrishnaAgent.get_response backend_env user_message b)
      = Backend.KrishnaAgent.RTriple
          (u "I'm having a moment of stillness. Let's reconnect shortly.") [] (u "0")
      /\ Backend.KrishnaAgent.error_log
           (fst (Backend.KrishnaAgent.get_response backend_env user_message b))
         = Backend.KrishnaAgent.error_log b' ++ [("get_response"%string, backend_e)]).
Proof.
  split; intros H.
  - rewrite (get_response_handler env user_message a a' e H).
    split; reflexivity.
  - rewrite (BackendProperties.backend_get_response_handler _ _ _ _ _ H).
    split; reflexivity.
Qed.

Lemma get_response_never_raises_witness :
  snd (get_response Scenario.env_failing (u "Tell me about dharma and duty")
                    Scenario.fresh_agent)
  = RTriple (u "I'm having a moment of stillness. Let's reconnect shortly.")
            (PStr []) (PStr (u "0"))
  /\ snd (Backend.KrishnaAgent.get_response BackendScenario.env_failing
            (u "Tell me about dharma and duty") BackendScenario.with_gita)
     = Backend.KrishnaAgent.RTriple
         (u "I'm having a moment of stillness. Let's reconnect shortly.") [] (u "0").
Proof.
  destruct (get_response_try Scenario.env_failing (u "Tell me about dharma and duty")
                             Scenario.fresh_agent) as [a' [r|e]] eqn:E;
    [exfalso; vm_compute in E; discriminate E|].
  destruct (Backend.KrishnaAgent.get_response_try BackendScenario.env_failing
              (u "Tell me about dharma and duty") BackendScenario.with_gita)
    as [b' [r|backend_e]] eqn:Eb;
    [exfalso; vm_compute in Eb; discriminate Eb|].
  destruct (get_response_never_raises (u "Tell me about dharma and duty")
              Scenario.env_failing Scenario.fresh_agent a' e
              BackendScenario.env_failing BackendScenario.with_gita b' backend_e)
    as [Hroot Hbackend].
  split; [exact (proj1 (Hroot E))|exact (proj1 (Hbackend Eb))].
Defined.

(** The apology also answers every message when the manager could not be
    built. *)
Lemma get_response_without_manager (env : Env) (user_message : pystr)
      (a : KrishnaAgent.t) :
  memory_manager a = None ->
  get_response env user_message a
  = (log_error "get_response" (AttributeError "save_message") a,
     RTriple apology (PStr []) (PStr (u "0"))).
Proof.
  intros Hm. apply get_response_handler.
  now apply get_response_try_without_manager.
Qed.






(** C4. The temporal-recall branch never computes an elapsed time: the
    histories [get_conversation_messages] returns carry no timestamp, so a
    found mention is answered with the fixed "You shared that with me
    earlier..." text, and a missing one with the topic list or the generic
    admission. *)
Theorem temporal_recall_never_dated
        (env : Env) (user_message : pystr) (a a' : KrishnaAgent.t) (r : Response) :
  route (strip (lower user_message)) = Temporal ->
  get_response_try env user_message a = (a', Ok r) ->
  exists conversation_messages,
    let topic := topic_of user_message (strip (lower user_message)) in
    let key_topics := _extract_key_topics env conversation_messages in
    (find_mention topic conversation_messages <> None /\ r = RText shared_earlier)
    \/ (find_mention topic conversation_messages = None
        /\ (r = RText (talked_about key_topics) \/ r = RText not_discussed)).
Proof.
  intros Hroute E. unfold get_response_try in E. rewrite Hroute in E.
  apply returns_temporal in E as (msgs & Hts & ->).
  exists msgs. cbv zeta.
  destruct (temporal_reply_undated env
              (topic_of user_message (strip (lower user_message))) msgs Hts)
    as [[Hf ->]|[Hf [-> | ->]]]; auto.
Qed.

Lemma temporal_recall_never_dated_witness :
  let env := Scenario.env_saying (u "Be still.") in
  let a1 := fst (get_response env (u "I am worried about my exam") Scenario.fresh_agent) in
  text_of (snd (get_response env (u "when did we talk about my exam?") a1))
  <> mentioned_ago (u "1 minute ago").
Proof.
  cbv zeta.
  set (env := Scenario.env_saying (u "Be still.")).
  set (a1 := fst (get_response env (u "I am worried about my exam") Scenario.fresh_agent)).
  unfold get_response at 1.
  destruct (get_response_try env (u "when did we talk about my exam?") a1)
    as [a' [r|e]] eqn:E.
  - assert (Hroute : route (strip (lower (u "when did we talk about my exam?"))) = Temporal)
      by (vm_compute; reflexivity).
    destruct (temporal_recall_never_dated env _ a1 a' r Hroute E)
      as (msgs & [[_ ->]|[_ [-> | ->]]]); cbn [snd text_of]; vm_compute; discriminate.
  - exfalso. vm_compute in E. discriminate E.
Defined.

(** The failing run: the exam was mentioned one turn earlier, and the
    question when it was mentioned gets no elapsed time. *)
Example temporal_recall_on_a_found_mention :
  let env := Scenario.env_saying (u "Be still.") in
  let a1 := fst (get_response env (u "I am worried about my exam") Scenario.fresh_agent) in
  snd (get_response env (u "when did we talk about my exam?") a1)
  = RText (u "You shared that with me earlier. Is there something specific about it you'd like to discuss?").
Proof. vm_compute. reflexivity. Qed.

End RouterClaims.


Module PostProcessing.
Import KrishnaAgent Normal.

(** Induction over a text two characters at a time. *)
Lemma pair_ind (P : pystr -> Prop) :
  P [] -> (forall c, P [c]) ->
  (forall c d s, P s -> P (d :: s) -> P (c :: d :: s)) ->
  forall s, P s.
Proof.
  intros H0 H1 H2 s.
  assert (H : P s /\ forall c, P (c :: s)); [|exact (proj1 H)].
  induction s as [|d s [IH1 IH2]]; split; auto.
Qed.

(** *** Lengths *)

Lemma length_delete_from (old : pystr) (k : nat) (s : pystr) :
  (length (delete_from old k s) <= length s)%nat.
Proof.
  revert k. induction s as [|c s IH]; intros k; [simpl; lia|].
  cbn [delete_from length]. destruct k as [|k].
  - destruct (startswith old (c :: s)); cbn [length].
    + specialize (IH (length old - 1)%nat). lia.
    + specialize (IH 0%nat). lia.
  - specialize (IH k). lia.
Qed.

Lemma length_delete_all (old s : pystr) :
  (length (delete_all old s) <= length s)%nat.
Proof.
  unfold delete_all. destruct old; [lia|apply length_delete_from].
Qed.

Lemma length_delete_others (emojis : list pystr) (first_emoji : option (nat * pystr))
      (s : pystr) :
  (length (delete_others emojis first_emoji s) <= length s)%nat.
Proof.
  revert s. induction emojis as [|e emojis IH]; intros s; simpl; [lia|].
  etransitivity; [apply IH|].
  destruct (is_first first_emoji e); [lia|apply length_delete_all].
Qed.

Lemma length_cap_emojis (s : pystr) : (length (cap_emojis s) <= length s)%nat.
Proof.
  unfold cap_emojis. destruct (Nat.ltb 1 (emoji_count s)); [|lia].
  apply length_delete_others.
Qed.

Lemma length_truncate (s : pystr) : (length (truncate s) <= 800)%nat.
Proof.
  unfold truncate. destruct (Nat.ltb_spec 800 (length s)) as [H|H]; [|exact H].
  rewrite length_app, firstn_length_le by lia. simpl. lia.
Qed.

Lemma strip_emoticons_pair (c d : N) (s : pystr) :
  strip_emoticons (c :: d :: s)
  = if is_emoticon c d then strip_emoticons s else c :: strip_emoticons (d :: s).
Proof. reflexivity. Qed.

Lemma length_strip_emoticons (s : pystr) :
  (length (strip_emoticons s) <= length s)%nat.
Proof.
  induction s as [| c | c d s IH1 IH2] using pair_ind; [simpl; lia..|].
  rewrite strip_emoticons_pair.
  destruct (is_emoticon c d); cbn [length] in *; lia.
Qed.

Lemma length_collapse_ws (s : pystr) :
  (length (ScriptureReader.collapse_ws s) <= length s)%nat.
Proof.
  induction s as [|c s IH]; [simpl; lia|].
  cbn [ScriptureReader.collapse_ws].
  destruct (is_space c); [|cbn [length]; lia].
  destruct s as [|d s]; [simpl; lia|].
  destruct (is_space d); cbn [length] in *; lia.
Qed.

Lemma length_lstrip (s : pystr) : (length (lstrip s) <= length s)%nat.
Proof.
  induction s as [|c s IH]; simpl; [lia|]. destruct (is_space c); simpl; lia.
Qed.

Lemma length_strip (s : pystr) : (length (strip s) <= length s)%nat.
Proof.
  unfold strip, rstrip. rewrite length_rev.
  etransitivity; [apply length_lstrip|]. rewrite length_rev. apply length_lstrip.
Qed.

Lemma length_postprocess (s : pystr) : (length (postprocess s) <= 800)%nat.
Proof.
  unfold postprocess, normalize_ws, strip_astral.
  etransitivity; [apply length_strip|].
  etransitivity; [apply length_collapse_ws|].
  etransitivity; [apply length_strip_emoticons|].
  etransitivity; [apply List.filter_length_le|].
  etransitivity; [apply length_cap_emojis|].
  apply length_truncate.
Qed.

(** *** Code points that survive *)

Lemma Forall_strip_emoticons (P : N -> Prop) (s : pystr) :
  Forall P s -> Forall P (strip_emoticons s).
Proof.
  induction s as [| c | c d s IH1 IH2] using pair_ind; intros H; [exact H..|].
  rewrite strip_emoticons_pair. inversion H as [|? ? Hc Hds]; subst.
  inversion Hds as [|? ? Hd Hs]; subst.
  destruct (is_emoticon c d); [now apply IH1|]. constructor; [exact Hc|now apply IH2].
Qed.

Lemma Forall_collapse_ws (P : N -> Prop) (s : pystr) :
  P 32 -> Forall P s -> Forall P (ScriptureReader.collapse_ws s).
Proof.
  intros H32. induction s as [|c s IH]; intros H; [exact H|].
  inversion H as [|? ? Hc Hs]; subst.
  cbn [ScriptureReader.collapse_ws]. destruct (is_space c).
  - destruct s as [|d s]; [repeat constructor; exact H32|].
    destruct (is_space d); [now apply IH|]. constructor; [exact H32|now apply IH].
  - constructor; [exact Hc|now apply IH].
Qed.

Lemma Forall_lstrip (P : N -> Prop) (s : pystr) : Forall P s -> Forall P (lstrip s).
Proof.
  induction s as [|c s IH]; intros H; [exact H|].
  simpl. destruct (is_space c); [|exact H]. inversion H; subst. now apply IH.
Qed.

Lemma Forall_strip (P : N -> Prop) (s : pystr) : Forall P s -> Forall P (strip s).
Proof.
  intros H. unfold strip, rstrip.
  apply Forall_rev, Forall_lstrip, Forall_rev, Forall_lstrip, H.
Qed.

Lemma postprocess_no_astral (s : pystr) :
  Forall (fun c => is_astral c = false) (postprocess s).
Proof.
  unfold postprocess, normalize_ws.
  apply Forall_strip, Forall_collapse_ws; [reflexivity|].
  apply Forall_strip_emoticons. unfold strip_astral.
  apply List.Forall_forall. intros c Hc. apply filter_In in Hc as [_ Hc].
  now apply negb_true_iff in Hc.
Qed.

(** *** Whitespace *)

Lemma lstrip_snoc (x : pystr) (c : N) :
  lstrip (x ++ [c])
  = match lstrip x with
    | [] => if is_space c then [] else [c]
    | y => y ++ [c]
    end.
Proof.
  induction x as [|d x IH]; [reflexivity|].
  cbn [app lstrip]. destruct (is_space d); [exact IH|reflexivity].
Qed.

(** [rstrip] from the left: a character is kept when something is kept
    after it, or when it is not whitespace. *)
Lemma rstrip_cons (c : N) (s : pystr) :
  rstrip (c :: s)
  = match rstrip s with
    | [] => if is_space c then [] else [c]
    | r => c :: r
    end.
Proof.
  unfold rstrip. cbn [rev]. rewrite lstrip_snoc.
  destruct (lstrip (rev s)) as [|y l] eqn:E.
  - simpl. now destruct (is_space c).
  - rewrite rev_app_distr. cbn [rev app].
    destruct (rev l ++ [y]) as [|z r] eqn:E2; [|reflexivity].
    now destruct (rev l).
Qed.

Lemma collapse_ws_head (c : N) (s : pystr) :
  is_space c = false ->
  ScriptureReader.collapse_ws (c :: s) = c :: ScriptureReader.collapse_ws s.
Proof. intros H. cbn [ScriptureReader.collapse_ws]. now rewrite H. Qed.

Lemma collapsed_space_before (d : N) (t : pystr) :
  is_space d = false -> collapsed (d :: t) = true -> collapsed (32 :: d :: t) = true.
Proof.
  intros Hd H.
  change (collapsed (32 :: d :: t))
    with (((32 =? 32) && negb (is_space d)) && collapsed (d :: t)).
  now rewrite H, Hd.
Qed.

Lemma collapsed_text_before (c : N) (t : pystr) :
  is_space c = false -> collapsed t = true -> collapsed (c :: t) = true.
Proof. intros Hc H. cbn [collapsed]. now rewrite Hc, H. Qed.

Lemma collapse_ws_collapsed (s : pystr) :
  collapsed (ScriptureReader.collapse_ws s) = true.
Proof.
  induction s as [|c s IH]; [reflexivity|].
  destruct (is_space c) eqn:Hc.
  - destruct s as [|d s]; [cbn [ScriptureReader.collapse_ws]; now rewrite Hc|].
    destruct (is_space d) eqn:Hd.
    + cbn [ScriptureReader.collapse_ws] in *. now rewrite Hc, Hd in *.
    + assert (E : ScriptureReader.collapse_ws (c :: d :: s)
                  = 32 :: ScriptureReader.collapse_ws (d :: s)).
      { cbn [ScriptureReader.collapse_ws]. now rewrite Hc, Hd. }
      rewrite E. rewrite (collapse_ws_head d s Hd) in *.
      now apply collapsed_space_before.
  - rewrite (collapse_ws_head c s Hc). now apply collapsed_text_before.
Qed.

Lemma collapsed_tail (c : N) (s : pystr) : collapsed (c :: s) = true -> collapsed s = true.
Proof. cbn [collapsed]. intros H. now apply andb_true_iff in H. Qed.

Lemma collapsed_lstrip (s : pystr) : collapsed s = true -> collapsed (lstrip s) = true.
Proof.
  induction s as [|c s IH]; intros H; [exact H|].
  cbn [lstrip]. destruct (is_space c); [|exact H].
  apply IH. now apply collapsed_tail in H.
Qed.

Lemma lstrip_starts_with_text (s : pystr) : starts_with_text (lstrip s) = true.
Proof.
  induction s as [|c s IH]; [reflexivity|].
  cbn [lstrip]. destruct (is_space c) eqn:Hc; [exact IH|]. cbn. now rewrite Hc.
Qed.

Lemma rstrip_head (c : N) (s : pystr) :
  rstrip (c :: s) = [] \/ exists r, rstrip (c :: s) = c :: r.
Proof.
  rewrite rstrip_cons. destruct (rstrip s); [|eauto].
  destruct (is_space c); eauto.
Qed.

Lemma rstrip_starts_with_text (s : pystr) :
  starts_with_text s = true -> starts_with_text (rstrip s) = true.
Proof.
  destruct s as [|c s]; [reflexivity|]. intros H.
  destruct (rstrip_head c s) as [->|[r ->]]; [reflexivity|exact H].
Qed.

Lemma spaced_cons (c : N) (s : pystr) :
  spaced (c :: s)
  = (if is_space c
     then (c =? 32) && match s with d :: _ => negb (is_space d) | [] => false end
     else true) && spaced s.
Proof. reflexivity. Qed.

Lemma rstrip_spaced (s : pystr) : collapsed s = true -> spaced (rstrip s) = true.
Proof.
  induction s as [|c s IH]; intros H; [reflexivity|].
  pose proof (collapsed_tail c s H) as Hs. specialize (IH Hs).
  rewrite rstrip_cons. destruct (rstrip s) as [|d r] eqn:E.
  - destruct (is_space c) eqn:Hc; [reflexivity|]. cbn. now rewrite Hc.
  - rewrite spaced_cons, IH, andb_true_r.
    destruct (is_space c) eqn:Hc; [|reflexivity].
    cbn [collapsed] in H. rewrite Hc in H.
    apply andb_true_iff in H as [H _]. apply andb_true_iff in H as [H32 Hnext].
    rewrite H32. cbn.
    destruct s as [|d' s']; [discriminate E|].
    destruct (rstrip_head d' s') as [E'|[r' E']]; rewrite E' in E; [discriminate|].
    inversion E; subst. exact Hnext.
Qed.

Lemma normalize_ws_normal (s : pystr) : ws_normal (normalize_ws s) = true.
Proof.
  unfold ws_normal, normalize_ws, strip. apply andb_true_iff. split.
  - apply rstrip_starts_with_text, lstrip_starts_with_text.
  - apply rstrip_spaced, collapsed_lstrip, collapse_ws_collapsed.
Qed.

(** *** The denylist *)

Lemma deflection_is_clean :
  normalize_ws (strip_emoticons (strip_astral (cap_emojis (truncate deflection))))
  = deflection.
Proof. vm_compute. reflexivity. Qed.

Lemma postprocess_deflects (s : pystr) :
  on_denylist s = true -> postprocess s = deflection.
Proof.
  intros H. unfold postprocess, deflect. rewrite H. exact deflection_is_clean.
Qed.

End PostProcessing.


Module Ellipsis.
Import KrishnaAgent Normal PostProcessing.

(** *** The ellipsis survives *)

Lemma startswith_dot (e x : pystr) :
  e <> [] -> no_dot e = true -> startswith e (46 :: x) = false.
Proof.
  destruct e as [|c e]; [congruence|]. intros _ H. cbn in H.
  apply andb_true_iff in H as [H _]. apply negb_true_iff in H.
  cbn [startswith]. now rewrite H.
Qed.

Lemma startswith_before_dots (e q : pystr) :
  e <> [] -> no_dot e = true -> startswith e (q ++ dots) = startswith e q.
Proof.
  revert q. induction e as [|c e IH]; intros q Hne Hnd; [congruence|].
  destruct q as [|y q].
  - cbn [app]. unfold dots. now rewrite startswith_dot.
  - cbn [app startswith]. destruct e as [|c2 e]; [reflexivity|].
    rewrite IH; [reflexivity|discriminate|].
    cbn in Hnd. now apply andb_true_iff in Hnd.
Qed.

Lemma startswith_length (e q : pystr) :
  startswith e q = true -> (length e <= length q)%nat.
Proof.
  intros H. apply startswith_spec in H as [b ->]. rewrite length_app. lia.
Qed.

Lemma delete_from_dots (e : pystr) :
  e <> [] -> no_dot e = true -> delete_from e 0 dots = dots.
Proof.
  intros Hne Hnd. unfold dots. cbn [delete_from].
  now rewrite !startswith_dot.
Qed.

Lemma delete_from_before_dots (e q : pystr) (k : nat) :
  e <> [] -> no_dot e = true -> (k <= length q)%nat ->
  delete_from e k (q ++ dots) = delete_from e k q ++ dots.
Proof.
  intros Hne Hnd. revert k. induction q as [|y q IH]; intros k Hk.
  - assert (k = 0%nat) as -> by (simpl in Hk; lia). now apply delete_from_dots.
  - cbn [app delete_from]. destruct k as [|k].
    + change (y :: q ++ dots) with ((y :: q) ++ dots).
      rewrite (startswith_before_dots e (y :: q) Hne Hnd).
      destruct (startswith e (y :: q)) eqn:E.
      * apply IH. apply startswith_length in E. cbn [length] in E. lia.
      * cbn [app]. f_equal. apply IH. lia.
    + apply IH. cbn [length] in Hk. lia.
Qed.

Lemma delete_all_before_dots (e q : pystr) :
  no_dot e = true -> delete_all e (q ++ dots) = delete_all e q ++ dots.
Proof.
  intros Hnd. unfold delete_all. destruct e as [|c e]; [reflexivity|].
  apply delete_from_before_dots; [discriminate|exact Hnd|lia].
Qed.

Lemma delete_others_before_dots (emojis : list pystr)
      (first_emoji : option (nat * pystr)) (q : pystr) :
  forallb no_dot emojis = true ->
  delete_others emojis first_emoji (q ++ dots)
  = delete_others emojis first_emoji q ++ dots.
Proof.
  revert q. induction emojis as [|e emojis IH]; intros q H; [reflexivity|].
  cbn in H. apply andb_true_iff in H as [He H].
  cbn [delete_others]. destruct (is_first first_emoji e); [now apply IH|].
  rewrite (delete_all_before_dots e q He). now apply IH.
Qed.

Lemma cap_emojis_before_dots (q : pystr) :
  exists q', cap_emojis (q ++ dots) = q' ++ dots.
Proof.
  unfold cap_emojis. destruct (Nat.ltb 1 (emoji_count (q ++ dots))); [|eauto].
  rewrite delete_others_before_dots by reflexivity. eauto.
Qed.

Lemma strip_astral_before_dots (q : pystr) :
  strip_astral (q ++ dots) = strip_astral q ++ dots.
Proof. unfold strip_astral. now rewrite List.filter_app. Qed.

Lemma not_emoticon_dot (c : N) : is_emoticon c 46 = false.
Proof.
  unfold is_emoticon. cbn.
  destruct (c =? 58), (c =? 59), (c =? 88); reflexivity.
Qed.

Lemma strip_emoticons_before_dots (q : pystr) :
  strip_emoticons (q ++ dots) = strip_emoticons q ++ dots.
Proof.
  induction q as [| c | c d q IH1 IH2] using pair_ind.
  - reflexivity.
  - cbn [app]. unfold dots at 1. rewrite strip_emoticons_pair, not_emoticon_dot.
    reflexivity.
  - cbn [app]. rewrite !strip_emoticons_pair.
    destruct (is_emoticon c d); [exact IH1|].
    cbn [app]. f_equal. exact IH2.
Qed.

Lemma collapse_ws_before_dots (q : pystr) :
  ScriptureReader.collapse_ws (q ++ dots) = ScriptureReader.collapse_ws q ++ dots.
Proof.
  induction q as [|c q IH]; [reflexivity|].
  cbn [app ScriptureReader.collapse_ws]. destruct (is_space c).
  - destruct q as [|d q]; [reflexivity|].
    cbn [app] in *. destruct (is_space d); [exact IH|].
    cbn [app]. f_equal. exact IH.
  - cbn [app]. f_equal. exact IH.
Qed.

Lemma lstrip_before_dots (q : pystr) : exists q', lstrip (q ++ dots) = q' ++ dots.
Proof.
  induction q as [|c q IH]; [now exists []|].
  cbn [app lstrip]. destruct (is_space c); [exact IH|]. now exists (c :: q).
Qed.

Lemma rstrip_before_dots (q : pystr) : rstrip (q ++ dots) = q ++ dots.
Proof.
  unfold rstrip. rewrite rev_app_distr. cbn [dots rev app lstrip].
  change (is_space 46) with false. cbn iota.
  change (46 :: 46 :: 46 :: rev q) with (rev dots ++ rev q).
  now rewrite <- rev_app_distr, rev_involutive.
Qed.

Lemma truncate_long (s : pystr) :
  Nat.ltb 800 (length s) = true -> truncate s = firstn 797 s ++ dots.
Proof. intros H. unfold truncate. now rewrite H. Qed.

Lemma postprocess_ellipsis (s : pystr) :
  Nat.ltb 800 (length (deflect s)) = true ->
  exists kept, postprocess s = kept ++ u "...".
Proof.
  intros H. unfold postprocess, normalize_ws, strip.
  rewrite (truncate_long _ H).
  destruct (cap_emojis_before_dots (firstn 797 (deflect s))) as [q1 ->].
  rewrite strip_astral_before_dots, strip_emoticons_before_dots,
    collapse_ws_before_dots.
  destruct (lstrip_before_dots
              (ScriptureReader.collapse_ws (strip_emoticons (strip_astral q1))))
    as [q2 ->].
  rewrite rstrip_before_dots. now exists q2.
Qed.

End Ellipsis.


Module PostProcessingClaims.
Import KrishnaAgent Normal PostProcessing Ellipsis RouterProperties.

(** C3, as stated, fails.  A follow-up reply is returned as generated: it
    stays on the denylist and keeps its emoticon.  On the default path two
    copies of an allowed emoji and a symbol outside the allow-list
    (U+2764) all survive. *)
Lemma followup_reply_is_returned_raw :
  (let env := Scenario.env_saying (u "  I know about your dog :)  ") in
   let a1 := fst (get_response env (u "I am worried about my exam")
                               Scenario.fresh_agent) in
   snd (get_response env (u "why?") a1) = RText (u "I know about your dog :)")
   /\ on_denylist (u "I know about your dog :)") = true)
  /\ postprocess ([10024; 32] ++ u "peace" ++ [32; 10024; 32; 10084])
     = [10024; 32] ++ u "peace" ++ [32; 10024; 32; 10084].
Proof. split; [split|]; vm_compute; reflexivity. Qed.

(** C3, amended. Every reply the default path returns is the generated
    text after post-processing: a reply on the denylist is replaced whole by
    the deflection; the text has at most 800 code points and, when the
    generated text was longer, ends with an ellipsis; no code point from
    U+10000 up is left; whitespace is single U+0020 between other
    characters. *)
Theorem default_reply_postprocessed
        (env : Env) (user_message : pystr) (a a' : KrishnaAgent.t) (r : Response) :
  route (strip (lower user_message)) = Default ->
  get_response_try env user_message a = (a', Ok r) ->
  exists prompt generated,
    gateway env prompt = Ok generated
    /\ text_of r = postprocess (strip generated)
    /\ (on_denylist (strip generated) = true -> text_of r = deflection)
    /\ (length (text_of r) <= 800)%nat
    /\ (on_denylist (strip generated) = false ->
        (800 < length (strip generated))%nat ->
        exists kept, text_of r = kept ++ u "...")
    /\ Forall (fun c => is_astral c = false) (text_of r)
    /\ ws_normal (text_of r) = true.
Proof.
  intros Hroute E. unfold get_response_try in E. rewrite Hroute in E.
  apply returns_default in E as (prompt & generated & Hg & Ht & _).
  exists prompt, generated. rewrite Ht.
  split; [exact Hg|]. split; [reflexivity|].
  split; [apply postprocess_deflects|].
  split; [apply length_postprocess|].
  split.
  - intros Hoff Hlong. apply postprocess_ellipsis.
    unfold deflect. rewrite Hoff. now apply Nat.ltb_lt.
  - split; [apply postprocess_no_astral|].
    unfold postprocess. apply normalize_ws_normal.
Qed.

Lemma default_reply_postprocessed_witness :
  text_of (snd (get_response (Scenario.env_saying (u "  I know about your dog :)  "))
                             (u "I am worried about my exam") Scenario.fresh_agent))
  = deflection.
Proof.
  set (env := Scenario.env_saying (u "  I know about your dog :)  ")).
  unfold get_response.
  destruct (get_response_try env (u "I am worried about my exam") Scenario.fresh_agent)
    as [a' [r|e]] eqn:E.
  - assert (Hroute : route (strip (lower (u "I am worried about my exam"))) = Default)
      by (vm_compute; reflexivity).
    destruct (default_reply_postprocessed env _ _ a' r Hroute E)
      as (prompt & generated & Hg & _ & Hdeny & _).
    cbn in Hg. inversion Hg; subst generated.
    apply Hdeny. vm_compute. reflexivity.
  - exfalso. vm_compute in E. discriminate E.
Defined.

End PostProcessingClaims.

(** * Further properties of the code *)

(** ** The durable log and the sessions (krishna_agent.py) *)
Module StoreExtras.
Import Sql KrishnaAgent.

Lemma streq_neq (a b : pystr) : a <> b -> streq a b = false.
Proof.
  intros H. destruct (streq a b) eqn:E; [|reflexivity].
  apply streq_eq in E. contradiction.
Qed.


Lemma filter_session_after_delete {A : Type} (owner : A -> pystr) (sid other : pystr)
      (rows : list A) :
  sid <> other ->
  List.filter (fun x => streq (owner x) other)
    (List.filter (fun x => negb (streq (owner x) sid)) rows)
  = List.filter (fun x => streq (owner x) other) rows.
Proof.
  intros H. induction rows as [|x rows IH]; [reflexivity|]. cbn.
  destruct (streq (owner x) sid) eqn:Es; cbn.
  - apply streq_eq in Es. rewrite Es, (streq_neq _ _ H). exact IH.
  - destruct (streq (owner x) other); [now rewrite IH|exact IH].
Qed.



(** X2. Deleting one session leaves the history and the mood context of
    every other session as they were, whether or not the deletion reports
    success. *)
Theorem delete_conversation_keeps_other_sessions
        (env : Env) (sid other : pystr) (a : KrishnaAgent.t) :
  sid <> other ->
  get_conversation_history (fst (delete_conversation env sid a)) other
  = get_conversation_history a other
  /\ forall m m',
       memory_manager a = Some m ->
       memory_manager (fst (delete_conversation env sid a)) = Some m' ->
       LangChainMemoryManager.get_memory_context m' other
       = LangChainMemoryManager.get_memory_context m other.
Proof.
  intros Hne. unfold delete_conversation, delete_conversation_with.
  rewrite DeletionProperties.mark_session_deleted_missing.
  destruct (memory_manager a) as [m0|] eqn:Hm.
  - unfold delete_conversation_try, manager, update, lift, mbind, M_bind.
    rewrite Hm. cbn. unfold get_conversation_history. cbn. rewrite Hm.
    split.
    + unfold select_conversation, delete_session_rows. cbn.
      now rewrite (filter_session_after_delete c_user_id).
    + intros m m' [= <-] [= <-].
      unfold LangChainMemoryManager.get_memory_context, delete_session_rows. cbn.
      now rewrite (filter_session_after_delete m_user_id).
  - cbn. split; [reflexivity|]. intros m m' H. discriminate H.
Qed.

Lemma delete_conversation_keeps_other_sessions_witness :
  get_conversation_history
    (fst (delete_conversation (Scenario.env_saying []) (u "bob")
            (with_manager Scenario.one_message Scenario.fresh_agent))) (u "alice")
  = get_conversation_history (with_manager Scenario.one_message Scenario.fresh_agent)
                             (u "alice").
Proof.
  refine (proj1 (delete_conversation_keeps_other_sessions (Scenario.env_saying [])
                   (u "bob") (u "alice")
                   (with_manager Scenario.one_message Scenario.fresh_agent) _)).
  intros H. vm_compute in H. discriminate H.
Defined.

(** X3. After [set_session_id(B)] the history the router reads for [B]
    consists of the texts of the thirty oldest rows stored under [B], in
    log order: nothing of another session, and nothing newer than the
    thirtieth row. *)
Theorem set_session_id_loads_own_history
        (a : KrishnaAgent.t) (m : LangChainMemoryManager.t) (B : pystr) :
  memory_manager a = Some m ->
  exists m',
    memory_manager (set_session_id B a) = Some m'
    /\ session_id (set_session_id B a) = B
    /\ LangChainMemoryManager.db m' = LangChainMemoryManager.db m
    /\ map content_of (LangChainMemoryManager.get_conversation_messages m' B 30)
       = map c_message (firstn 30 (select_conversation B (LangChainMemoryManager.db m)))
    /\ forall text,
         In text (map content_of (LangChainMemoryManager.get_conversation_messages m' B 30)) ->
         exists r, In r (conversations (LangChainMemoryManager.db m))
                   /\ c_user_id r = B /\ c_message r = text.
Proof.
  intros Hm. unfold set_session_id. rewrite Hm.
  eexists. split; [reflexivity|]. split; [reflexivity|]. split; [reflexivity|].
  assert (E : map content_of
                (LangChainMemoryManager.get_conversation_messages
                   (LangChainMemoryManager.load_conversation_history m B 30) B 30)
              = map c_message
                  (firstn 30 (select_conversation B (LangChainMemoryManager.db m)))).
  { unfold LangChainMemoryManager.get_conversation_messages,
      LangChainMemoryManager.load_conversation_history.
    cbn [LangChainMemoryManager.chat_memory LangChainMemoryManager.db].
    destruct (firstn 30 (select_conversation B (LangChainMemoryManager.db m)))
      as [|r rows] eqn:Hrows.
    - reflexivity.
    - cbn [map]. rewrite !map_map. f_equal.
      + unfold LangChainMemoryManager.to_chat. now destruct (streq _ _).
      + apply map_ext. intros x. unfold LangChainMemoryManager.to_chat.
        now destruct (streq _ _). }
  split; [exact E|].
  intros text Hin. rewrite E in Hin. apply in_map_iff in Hin as (r & <- & Hr).
  assert (Hr' : In r (select_conversation B (LangChainMemoryManager.db m))).
  { rewrite <- (List.firstn_skipn 30). apply in_or_app. now left. }
  apply select_conversation_owner in Hr' as [Ho Hi].
  exists r. auto.
Qed.

Lemma set_session_id_loads_own_history_witness :
  exists m',
    memory_manager (set_session_id (u "bob")
                      (with_manager Scenario.one_message Scenario.fresh_agent)) = Some m'
    /\ map content_of (LangChainMemoryManager.get_conversation_messages m' (u "bob") 30)
       = [].
Proof.
  destruct (set_session_id_loads_own_history
              (with_manager Scenario.one_message Scenario.fresh_agent)
              Scenario.one_message (u "bob") eq_refl)
    as (m' & Hm' & _ & _ & E & _).
  exists m'. split; [exact Hm'|]. rewrite E. reflexivity.
Defined.

End StoreExtras.

(** ** Clearing the whole store (krishna_agent.py) *)
Module HousekeepingProperties.
Import Sql KrishnaAgent Housekeeping.

Lemma distinct_nil (seen ids : list pystr) :
  distinct seen ids = [] -> forall x, In x ids -> mem x seen = true.
Proof.
  revert seen. induction ids as [|y ids IH]; intros seen H x Hin; [destruct Hin|].
  cbn in H. destruct (mem y seen) eqn:E; [|discriminate H].
  destruct Hin as [<-|Hin]; [exact E|]. now apply (IH seen).
Qed.

Lemma session_ids_nil (d : Database) : session_ids d = [] <-> conversations d = [].
Proof.
  unfold session_ids. split.
  - intros H. destruct (conversations d) as [|r rows]; [reflexivity|].
    cbn in H. discriminate H.
  - intros ->. reflexivity.
Qed.

(** X4. [delete_all_conversations] empties the three tables in every
    case, but it reports success, clears the chat buffer and starts a new
    session only when the conversation log was empty to begin with: with
    any session on record the call of [mark_session_deleted] fails on the
    [LangChainMemoryManager]. *)
Theorem delete_all_conversations_reports_failure
        (env : Env) (new_session_id : pystr) (a : KrishnaAgent.t)
        (m : LangChainMemoryManager.t) :
  memory_manager a = Some m ->
  let result := delete_all_conversations env new_session_id a in
  (exists m',
      memory_manager (fst result) = Some m'
      /\ conversations (LangChainMemoryManager.db m') = []
      /\ mood_checkins (LangChainMemoryManager.db m') = []
      /\ conversation_summaries (LangChainMemoryManager.db m') = []
      /\ deleted_sessions (LangChainMemoryManager.db m')
         = deleted_sessions (LangChainMemoryManager.db m)
      /\ LangChainMemoryManager.chat_memory m'
         = if snd result then [] else LangChainMemoryManager.chat_memory m)
  /\ (snd result = true <-> conversations (LangChainMemoryManager.db m) = [])
  /\ session_id (fst result) = (if snd result then new_session_id else session_id a).
Proof.
  intros Hm result. unfold result, delete_all_conversations. rewrite Hm.
  rewrite DeletionProperties.mark_session_deleted_missing.
  unfold delete_all_conversations_try, manager, update, lift, mbind, M_bind, mret, M_ret.
  rewrite Hm.
  destruct (session_ids (LangChainMemoryManager.db m)) as [|sid ids] eqn:Hids.
  - cbn. apply session_ids_nil in Hids.
    split; [eexists; repeat split; reflexivity|]. split; [|reflexivity].
    split; [intros _; exact Hids|reflexivity].
  - cbn.
    split; [eexists; repeat split; reflexivity|]. split; [|reflexivity].
    split; [discriminate|].
    intros H. apply session_ids_nil in H. rewrite H in Hids. discriminate Hids.
Qed.

Lemma delete_all_conversations_reports_failure_witness :
  snd (delete_all_conversations (Scenario.env_saying []) (u "fresh")
         (with_manager Scenario.one_message Scenario.fresh_agent)) = true
  <-> conversations (LangChainMemoryManager.db Scenario.one_message) = [].
Proof.
  exact (proj1 (proj2 (delete_all_conversations_reports_failure
                         (Scenario.env_saying []) (u "fresh")
                         (with_manager Scenario.one_message Scenario.fresh_agent)
                         Scenario.one_message eq_refl))).
Defined.

End HousekeepingProperties.

(** ** The router of the root agent (krishna_agent.py) *)
Module RouterExtras.
Import Sql KrishnaAgent RouterProperties.







End RouterExtras.

(** ** Keyword tables: moods and topics *)
Module KeywordExtras.

Lemma contains_inside (p q r s : pystr) :
  contains (q ++ p ++ r) s = true -> contains p s = true.
Proof.
  intros H. apply contains_spec in H as (a & b & ->).
  apply contains_spec. exists (a ++ q), (r ++ b).
  now rewrite <- !app_assoc.
Qed.

(** X7. Mood detection tests the moods in table order by substring, so a
    message that says "unhappy", in any casing, is filed under "happy":
    the word contains "happy", and "happy" is tested before "sad".  Both
    agents share the table. *)
Theorem unhappy_is_detected_as_happy (message : pystr) :
  contains (u "unhappy") (lower message) = true ->
  KrishnaAgent._detect_mood message = Some (u "happy")
  /\ Backend.KrishnaAgent._detect_mood message = Some (u "happy").
Proof.
  intros H.
  assert (Hh : contains (u "happy") (lower message) = true)
    by exact (contains_inside (u "happy") (u "un") [] (lower message) H).
  split.
  - unfold KrishnaAgent._detect_mood, KrishnaAgent.mood_keywords.
    cbn [KrishnaAgent.first_category]. unfold any_in, KrishnaAgent.us.
    cbn [map existsb]. now rewrite Hh.
  - unfold Backend.KrishnaAgent._detect_mood, Backend.KrishnaAgent.mood_keywords.
    cbn [Backend.KrishnaAgent.first_mood]. unfold any_in, Backend.KrishnaAgent.us.
    cbn [map existsb]. now rewrite Hh.
Qed.

Lemma unhappy_is_detected_as_happy_witness :
  KrishnaAgent._detect_mood (u "I have been so Unhappy and alone") = Some (u "happy").
Proof.
  refine (proj1 (unhappy_is_detected_as_happy (u "I have been so Unhappy and alone") _)).
  vm_compute. reflexivity.
Defined.

Import PastConversations.

Lemma extract_from (found : gset pystr) (messages : list pystr) :
  fold_left (fun found_topics message => found_topics ∪ list_to_set (topics_in message))
            messages found
  = found ∪ _extract_topics_from_messages messages.
Proof.
  unfold _extract_topics_from_messages.
  revert found. induction messages as [|message messages IH]; intros found;
    cbn [fold_left].
  - now rewrite (right_id_L ∅ (∪)).
  - rewrite IH, (IH (∅ ∪ _)). rewrite (left_id_L ∅ (∪)). now rewrite (assoc_L (∪)).
Qed.

(** X8. The topics of a list of messages are the union of the topics of
    its parts: the topics found never depend on how the messages are
    grouped, nothing is found in no messages, and a topic is found exactly
    when one of the messages contains one of its words in any casing. *)
Theorem extract_topics_is_a_union (earlier later : list pystr) :
  _extract_topics_from_messages (earlier ++ later)
  = _extract_topics_from_messages earlier ∪ _extract_topics_from_messages later
  /\ _extract_topics_from_messages [] = ∅
  /\ forall topic,
       topic ∈ _extract_topics_from_messages earlier <->
       exists message entry,
         In message earlier /\ In entry keywords /\ topic = u (fst entry)
         /\ any_in (map u (snd entry)) (lower message) = true.
Proof.
  split; [|split; [reflexivity|]].
  - unfold _extract_topics_from_messages at 1. rewrite fold_left_app.
    fold (_extract_topics_from_messages earlier). apply extract_from.
  - induction earlier as [|message earlier IH] using rev_ind; intros topic.
    + split; [intros H; now apply not_elem_of_empty in H|intros (? & ? & [] & _)].
    + unfold _extract_topics_from_messages. rewrite fold_left_app. cbn [fold_left].
      fold (_extract_topics_from_messages earlier).
      rewrite elem_of_union, IH, elem_of_list_to_set. unfold topics_in.
      rewrite list_elem_of_In, in_map_iff. split.
      * intros [(msg & entry & H1 & H2)|(entry & <- & H)].
        -- exists msg, entry. split; [apply in_or_app; now left|exact H2].
        -- apply List.filter_In in H as [H1 H2].
           exists message, entry. split; [apply in_or_app; right; now left|auto].
      * intros (msg & entry & H1 & H2 & -> & H3).
        apply in_app_or in H1 as [H1|[<-|[]]].
        -- left. exists msg, entry. auto.
        -- right. exists entry. split; [reflexivity|]. apply List.filter_In. auto.
Qed.

End KeywordExtras.

(** ** The retrievers (scripture_langchain.py, scripture_reader.py) *)
Module RetrieverExtras.
Import ScriptureLangChain.

(** Highest score first. *)
Definition by_score (x y : Document * nat) : Prop := (snd y <= snd x)%nat.

Lemma insert_desc_perm (x : Document * nat) (l : list (Document * nat)) :
  Permutation (x :: l) (insert_desc x l).
Proof.
  induction l as [|y l IH]; cbn; [reflexivity|].
  destruct (Nat.leb (snd y) (snd x)); [reflexivity|].
  rewrite perm_swap. now apply perm_skip.
Qed.

Lemma sort_desc_perm (l : list (Document * nat)) : Permutation l (sort_desc l).
Proof.
  induction l as [|x l IH]; cbn; [reflexivity|].
  rewrite <- insert_desc_perm. now apply perm_skip.
Qed.

Lemma insert_desc_sorted (x : Document * nat) (l : list (Document * nat)) :
  StronglySorted by_score l -> StronglySorted by_score (insert_desc x l).
Proof.
  induction 1 as [|y l Hs IH Hy]; cbn.
  - constructor; constructor.
  - destruct (Nat.leb (snd y) (snd x)) eqn:E.
    + apply Nat.leb_le in E. constructor; [now constructor|].
      constructor; [exact E|].
      eapply List.Forall_impl; [|exact Hy]. unfold by_score. intros z Hz. lia.
    + apply Nat.leb_gt in E. constructor; [exact IH|].
      apply (Permutation_Forall (insert_desc_perm x l)).
      constructor; [unfold by_score; lia|exact Hy].
Qed.

Lemma sort_desc_sorted (l : list (Document * nat)) : StronglySorted by_score (sort_desc l).
Proof.
  induction l as [|x l IH]; cbn; [constructor|]. now apply insert_desc_sorted.
Qed.

Lemma scored_spec (query : pystr) (docs : list Document) (x : Document * nat) :
  In x (scored query docs)
  <-> In (fst x) docs /\ snd x = doc_score query (fst x) /\ (0 < snd x)%nat.
Proof.
  unfold scored. rewrite List.filter_In, in_map_iff. split.
  - intros [(d & <- & Hd) H]. apply Nat.ltb_lt in H. cbn [fst snd] in *. auto.
  - intros (Hd & He & Hp). split; [|now apply Nat.ltb_lt].
    exists (fst x). split; [|exact Hd]. destruct x as [d n]. cbn in *. now subst n.
Qed.

(** The passages before the cut at [k]. *)
Lemma ranked_spec (r : t) (query : pystr) :
  let ranked := sort_desc (scored query (documents r)) in
  StronglySorted by_score ranked
  /\ forall x, In x ranked <->
       In (fst x) (documents r) /\ snd x = doc_score query (fst x) /\ (0 < snd x)%nat.
Proof.
  cbv zeta. split; [apply sort_desc_sorted|]. intros x.
  rewrite <- scored_spec. split; apply Permutation_in;
    [symmetry|]; apply sort_desc_perm.
Qed.

Lemma keyword_fallback_ranked (r : t) (query : pystr) (k : nat) :
  _keyword_fallback r query k
  = map to_passage (firstn k (sort_desc (scored query (documents r)))).
Proof.
  unfold _keyword_fallback. destruct (documents r); [|reflexivity].
  cbn. now rewrite firstn_nil.
Qed.

(** X9. [find_relevant_passages(query, k)] returns at most [k] passages,
    each the text of a loaded chunk that contains at least one term of the
    query, with its number of matching terms as score, and the scores never
    increase along the list. *)
Theorem find_relevant_passages_bounds (r : t) (query : pystr) (k : nat) :
  let passages := find_relevant_passages r query k in
  (length passages <= k)%nat
  /\ StronglySorted (fun p q => (p_score q <= p_score p)%nat) passages
  /\ forall p, In p passages ->
       (1 <= p_score p)%nat
       /\ exists doc, In doc (documents r)
                      /\ p = to_passage (doc, doc_score query doc).
Proof.
  cbv zeta. unfold find_relevant_passages. rewrite keyword_fallback_ranked.
  destruct (ranked_spec r query) as [Hs Hin]. cbv zeta in Hs, Hin.
  split; [|split].
  - rewrite length_map. apply firstn_le_length.
  - apply StronglySorted_map. apply StronglySorted_firstn. exact Hs.
  - intros p Hp. apply in_map_iff in Hp as (x & <- & Hx).
    assert (Hx' : In x (sort_desc (scored query (documents r)))).
    { rewrite <- (List.firstn_skipn k). apply in_or_app. now left. }
    apply Hin in Hx' as (Hd & He & Hpos). split; [exact Hpos|].
    exists (fst x). split; [exact Hd|]. destruct x as [d n]. cbn in *. now subst n.
Qed.

(** X10. When some chunk contains a term of the query,
    [find_relevant_passage(query)] answers with the text, source and page
    of a chunk whose term overlap is the highest of the corpus. *)
Theorem find_relevant_passage_is_best (r : t) (query : pystr) (some : Document) :
  In some (documents r) -> (0 < doc_score query some)%nat ->
  exists best,
    In best (documents r)
    /\ find_relevant_passage r query
       = (PStr (page_content best), PStr (metadata_source best),
          PInt (match page best with Some p => p | None => 0%Z end))
    /\ forall doc, In doc (documents r) ->
                   (doc_score query doc <= doc_score query best)%nat.
Proof.
  intros Hsome Hpos. unfold find_relevant_passage, find_relevant_passages.
  rewrite keyword_fallback_ranked.
  destruct (ranked_spec r query) as [Hs Hin]. cbv zeta in Hs, Hin.
  destruct (sort_desc (scored query (documents r))) as [|[best n] rest] eqn:E.
  - exfalso. apply (Hin (some, doc_score query some)). cbn. auto.
  - destruct (proj1 (Hin (best, n)) (or_introl eq_refl)) as (Hb & Hn & _).
    cbn in Hb, Hn. subst n.
    exists best. split; [exact Hb|]. split; [reflexivity|].
    intros doc Hdoc.
    destruct (Nat.eq_dec (doc_score query doc) 0%nat) as [->|Hnz]; [lia|].
    assert (Hd : In (doc, doc_score query doc) ((best, doc_score query best) :: rest))
      by (apply Hin; cbn; split; [exact Hdoc|split; [reflexivity|lia]]).
    destruct Hd as [[= -> _]|Hd]; [lia|].
    apply StronglySorted_inv in Hs as [_ Hall].
    rewrite List.Forall_forall in Hall. exact (Hall _ Hd).
Qed.

Lemma find_relevant_passage_is_best_witness :
  exists best,
    In best (documents Corpus.chunks)
    /\ find_relevant_passage Corpus.chunks (u "my duty is not born")
       = (PStr (page_content best), PStr (metadata_source best),
          PInt (match page best with Some p => p | None => 0%Z end)).
Proof.
  destruct (find_relevant_passage_is_best Corpus.chunks (u "my duty is not born")
              Corpus.gita) as (best & H1 & H2 & _).
  - now left.
  - vm_compute. lia.
  - exists best. split; [exact H1|exact H2].
Defined.

End RetrieverExtras.

(** ** The scripture reader (scripture_reader.py) *)
Module ReaderExtras.
Import ScriptureReader.

Lemma length_join_split (cur s : pystr) :
  (length (str_join [32%N] (split_ws_from cur s)) <= length cur + length s)%nat.
Proof.
  revert cur. induction s as [|c s IH]; intros cur; cbn [split_ws_from].
  - destruct cur; cbn; [lia|]. rewrite length_app, length_rev. cbn. lia.
  - destruct (is_space c).
    + destruct cur as [|x cur].
      * specialize (IH []). cbn in *. lia.
      * specialize (IH []). cbn [length] in *.
        destruct (split_ws_from [] s) as [|w ws] eqn:E.
        -- cbn. rewrite length_app, length_rev. cbn. lia.
        -- change (str_join [32] (rev (x :: cur) :: w :: ws))
             with (rev (x :: cur) ++ [32] ++ str_join [32] (w :: ws)).
           rewrite !length_app, length_rev. cbn [length] in *. lia.
    + specialize (IH (c :: cur)). cbn [length] in *. lia.
Qed.

Lemma length_snippet_for (word text : pystr) :
  (length (snippet_for word text) <= 300)%nat.
Proof.
  unfold snippet_for. destruct (str_find word text) as [i|]; [|cbn; lia].
  unfold split_ws.
  etransitivity; [apply length_join_split|]. cbn [length].
  rewrite length_firstn. lia.
Qed.

(** What [scan] has found so far. *)
Definition found_in (words : list pystr) (cache : list (pystr * pystr))
           (best : option Match) (best_score : nat) : Prop :=
  match best with
  | None => best_score = 0%nat
  | Some mt =>
      m_score mt = best_score /\ (1 <= best_score)%nat
      /\ (length (m_content mt) <= 300)%nat
      /\ exists text, In (m_source mt, text) cache
                      /\ m_score mt = score_of words text
  end.

Lemma scan_best (words : list pystr) (cache items : list (pystr * pystr))
      (best : option Match) (best_score : nat) (mt : Match) :
  incl items cache ->
  found_in words cache best best_score ->
  scan words items best best_score = Some mt ->
  found_in words cache (Some mt) (m_score mt)
  /\ (best_score <= m_score mt)%nat
  /\ forall source text, In (source, text) items ->
                         (score_of words text <= m_score mt)%nat.
Proof.
  revert best best_score.
  induction items as [|[source text] items IH]; intros best best_score Hincl Hfound H.
  - cbn in H. subst best. split; [|split].
    + destruct Hfound as (H1 & H2 & H3 & H4). cbn.
      split; [reflexivity|]. split; [lia|]. split; [exact H3|exact H4].
    + destruct Hfound as (H1 & _). lia.
    + intros ? ? [].
  - cbn [scan] in H.
    assert (Hincl' : incl items cache) by (intros x Hx; apply Hincl; now right).
    destruct (Nat.ltb best_score (score_of words text)) eqn:E.
    + apply Nat.ltb_lt in E.
      destruct (first_word_in words text) as [word|] eqn:Hw.
      * apply IH in H as (H1 & H2 & H3); [|exact Hincl'|].
        -- split; [exact H1|]. split; [lia|].
           intros s t [[= <- <-]|Hin]; [exact H2|exact (H3 s t Hin)].
        -- cbn. split; [reflexivity|]. split; [lia|].
           split; [apply length_snippet_for|].
           exists text. split; [apply Hincl; now left|reflexivity].
      * exfalso.
        destruct (RetrieverProperties.first_word_in_found words text) as (w & Hw' & _);
          [lia|]. rewrite Hw in Hw'. discriminate Hw'.
    + apply Nat.ltb_ge in E.
      apply IH in H as (H1 & H2 & H3); [|exact Hincl'|exact Hfound].
      split; [exact H1|]. split; [exact H2|].
      intros s t [[= <- <-]|Hin]; [lia|exact (H3 s t Hin)].
Qed.

(** X11. A passage [find_relevant_passage] returns comes from a cached
    scripture that contains at least one word of the preprocessed query; its
    score is the number of query words that scripture contains, no cached
    scripture contains more of them, and its snippet has at most 300
    characters. *)
Theorem reader_passage_is_best (r : t) (query : pystr) (mt : Match) :
  find_relevant_passage r query = Some mt ->
  let query_words := split_ws (_preprocess_text query) in
  (1 <= m_score mt)%nat
  /\ (length (m_content mt) <= 300)%nat
  /\ (exists text, In (m_source mt, text) (scripture_cache r)
                   /\ m_score mt = score_of query_words text)
  /\ forall source text, In (source, text) (scripture_cache r) ->
                         (score_of query_words text <= m_score mt)%nat.
Proof.
  intros H. cbv zeta. unfold find_relevant_passage in H.
  destruct (scripture_cache r) as [|item items] eqn:Hc; [discriminate H|].
  apply (scan_best _ (item :: items)) in H as ((_ & H1 & H2 & H3) & _ & H4);
    [|apply incl_refl|reflexivity].
  auto.
Qed.

Lemma reader_passage_is_best_witness :
  exists mt, find_relevant_passage Corpus.cache (u "the fruits of duty") = Some mt
             /\ (length (m_content mt) <= 300)%nat.
Proof.
  destruct (find_relevant_passage Corpus.cache (u "the fruits of duty")) as [mt|] eqn:E;
    [|exfalso; vm_compute in E; discriminate E].
  exists mt. split; [reflexivity|].
  exact (proj1 (proj2 (reader_passage_is_best Corpus.cache (u "the fruits of duty") mt E))).
Defined.

Import Normal Shape.

Lemma punctuated_cons (c d : N) (s : pystr) :
  punctuated (c :: d :: s) = negb (is_punct c && is_letter d) && punctuated (d :: s).
Proof. reflexivity. Qed.

Lemma space_after_punct_cons (c d : N) (s : pystr) :
  space_after_punct (c :: d :: s)
  = if is_punct c && is_letter d
    then c :: 32 :: space_after_punct (d :: s)
    else c :: space_after_punct (d :: s).
Proof. reflexivity. Qed.

Lemma space_after_punct_head (d : N) (s : pystr) :
  exists t, space_after_punct (d :: s) = d :: t.
Proof.
  destruct s as [|e s]; [now exists []|]. rewrite space_after_punct_cons.
  destruct (is_punct d && is_letter e); eauto.
Qed.

Lemma space_after_punct_punctuated (s : pystr) :
  punctuated (space_after_punct s) = true.
Proof.
  induction s as [|c s IH]; [reflexivity|].
  destruct s as [|d s]; [reflexivity|]. rewrite space_after_punct_cons.
  destruct (space_after_punct_head d s) as [t Ht]. rewrite Ht in *.
  destruct (is_punct c && is_letter d) eqn:E.
  - rewrite punctuated_cons, punctuated_cons, IH.
    replace (is_letter 32) with false by reflexivity.
    replace (is_punct 32) with false by reflexivity.
    now rewrite andb_false_r.
  - now rewrite punctuated_cons, E, IH.
Qed.

Lemma space_after_punct_fixed (s : pystr) :
  punctuated s = true -> space_after_punct s = s.
Proof.
  induction s as [|c s IH]; [reflexivity|].
  destruct s as [|d s]; [reflexivity|].
  rewrite punctuated_cons, space_after_punct_cons.
  intros H. apply andb_prop in H as [H1 H2]. apply negb_true_iff in H1.
  now rewrite H1, (IH H2).
Qed.

Lemma collapse_ws_hd (d : N) (s : pystr) :
  exists t, ScriptureReader.collapse_ws (d :: s)
            = (if is_space d then 32 else d) :: t.
Proof.
  revert d. induction s as [|e s IH]; intros d.
  - cbn. destruct (is_space d); eexists; reflexivity.
  - change (ScriptureReader.collapse_ws (d :: e :: s))
      with (if is_space d
            then if is_space e then ScriptureReader.collapse_ws (e :: s)
                 else 32 :: ScriptureReader.collapse_ws (e :: s)
            else d :: ScriptureReader.collapse_ws (e :: s)).
    destruct (is_space d) eqn:Ed; [|eexists; reflexivity].
    destruct (is_space e) eqn:Ee; [|eexists; reflexivity].
    destruct (IH e) as [t Ht]. rewrite Ee in Ht. exists t. exact Ht.
Qed.

Lemma punctuated_tail (c : N) (s : pystr) : punctuated (c :: s) = true -> punctuated s = true.
Proof. cbn. intros H. now apply andb_prop in H as [_ H]. Qed.

Lemma collapse_ws_punctuated (s : pystr) :
  punctuated s = true -> punctuated (ScriptureReader.collapse_ws s) = true.
Proof.
  induction s as [|c s IH]; [reflexivity|]. intros H.
  pose proof (IH (punctuated_tail _ _ H)) as IH'.
  destruct s as [|d s].
  - cbn. now destruct (is_space c).
  - rewrite punctuated_cons in H. apply andb_prop in H as [H1 H2].
    destruct (collapse_ws_hd d s) as [t Ht].
    change (ScriptureReader.collapse_ws (c :: d :: s))
      with (if is_space c
            then if is_space d then ScriptureReader.collapse_ws (d :: s)
                 else 32 :: ScriptureReader.collapse_ws (d :: s)
            else c :: ScriptureReader.collapse_ws (d :: s)).
    destruct (is_space c) eqn:Ec.
    + destruct (is_space d) eqn:Ed; [exact IH'|].
      rewrite Ht in *. rewrite punctuated_cons, IH'.
      replace (is_punct 32) with false by reflexivity. reflexivity.
    + rewrite Ht in *. rewrite punctuated_cons, IH'.
      destruct (is_space d) eqn:Ed.
      * replace (is_letter 32) with false by reflexivity. now rewrite andb_false_r.
      * now rewrite H1.
Qed.

Lemma lstrip_punctuated (s : pystr) : punctuated s = true -> punctuated (lstrip s) = true.
Proof.
  induction s as [|c s IH]; [reflexivity|]. intros H. cbn [lstrip].
  destruct (is_space c); [|exact H]. exact (IH (punctuated_tail _ _ H)).
Qed.

Lemma rstrip_punctuated (s : pystr) : punctuated s = true -> punctuated (rstrip s) = true.
Proof.
  induction s as [|c s IH]; [reflexivity|]. intros H.
  pose proof (IH (punctuated_tail _ _ H)) as IH'.
  rewrite PostProcessing.rstrip_cons.
  destruct (rstrip s) as [|x r] eqn:Er.
  - now destruct (is_space c).
  - destruct s as [|d s]; [discriminate Er|].
    destruct (PostProcessing.rstrip_head d s) as [E|[r' E]]; rewrite E in Er;
      [discriminate Er|]. injection Er as <- <-.
    rewrite punctuated_cons in H. apply andb_prop in H as [H1 _].
    now rewrite punctuated_cons, H1, IH'.
Qed.

Lemma preprocess_punctuated (text : pystr) : punctuated (_preprocess_text text) = true.
Proof.
  unfold _preprocess_text, strip.
  apply rstrip_punctuated, lstrip_punctuated, collapse_ws_punctuated,
    space_after_punct_punctuated.
Qed.

Lemma collapse_ws_fixed (s : pystr) : spaced s = true -> ScriptureReader.collapse_ws s = s.
Proof.
  induction s as [|c s IH]; [reflexivity|].
  rewrite PostProcessing.spaced_cons. intros H. apply andb_prop in H as [H1 H2].
  cbn [ScriptureReader.collapse_ws]. rewrite (IH H2).
  destruct (is_space c); [|reflexivity].
  apply andb_prop in H1 as [Hc Hd]. apply N.eqb_eq in Hc. subst c.
  destruct s as [|d s]; [discriminate Hd|].
  apply negb_true_iff in Hd. now rewrite Hd.
Qed.

Lemma rstrip_fixed (s : pystr) : spaced s = true -> rstrip s = s.
Proof.
  induction s as [|c s IH]; [reflexivity|].
  rewrite PostProcessing.spaced_cons. intros H. apply andb_prop in H as [H1 H2].
  rewrite PostProcessing.rstrip_cons, (IH H2).
  destruct s as [|d s]; [|reflexivity].
  destruct (is_space c); [|reflexivity].
  apply andb_prop in H1 as [_ H1]. discriminate H1.
Qed.

Lemma strip_fixed (s : pystr) : ws_normal s = true -> strip s = s.
Proof.
  unfold ws_normal, strip. intros H. apply andb_prop in H as [H1 H2].
  assert (E : lstrip s = s).
  { destruct s as [|c s]; [reflexivity|]. cbn in *.
    apply negb_true_iff in H1. now rewrite H1. }
  rewrite E. now apply rstrip_fixed.
Qed.

(** X12. [_preprocess_text] is idempotent: a text that went through it
    once is left as it is by a second pass.  Its result has no
    punctuation mark directly followed by a letter, and its only
    whitespace is single spaces between other characters. *)
Theorem preprocess_text_idempotent (text : pystr) :
  _preprocess_text (_preprocess_text text) = _preprocess_text text
  /\ punctuated (_preprocess_text text) = true
  /\ ws_normal (_preprocess_text text) = true.
Proof.
  assert (Hn : ws_normal (_preprocess_text text) = true)
    by apply (PostProcessing.normalize_ws_normal (space_after_punct text)).
  pose proof (preprocess_punctuated text) as Hp.
  split; [|split; [exact Hp|exact Hn]].
  unfold _preprocess_text at 1.
  rewrite (space_after_punct_fixed _ Hp).
  rewrite collapse_ws_fixed; [now apply strip_fixed|].
  unfold ws_normal in Hn. now apply andb_prop in Hn as [_ Hn].
Qed.

End ReaderExtras.

(** ** MemoryManager (memory_manager.py) *)
Module MemoryManagerExtras.
Import Sql.

Lemma streq_sym (a b : pystr) : streq a b = streq b a.
Proof.
  destruct (streq a b) eqn:E1, (streq b a) eqn:E2; try reflexivity.
  - apply streq_eq in E1. subst b. now rewrite streq_refl in E2.
  - apply streq_eq in E2. subst b. now rewrite streq_refl in E1.
Qed.

Lemma existsb_filter_other {A : Type} (owner : A -> pystr) (sid other : pystr)
      (rows : list A) :
  streq other sid = false ->
  existsb (fun r => streq (owner r) other)
          (List.filter (fun r => negb (streq (owner r) sid)) rows)
  = existsb (fun r => streq (owner r) other) rows.
Proof.
  intros H. induction rows as [|r rows IH]; [reflexivity|]. cbn.
  destruct (streq (owner r) sid) eqn:Es; cbn.
  - apply streq_eq in Es. rewrite Es, (streq_sym sid other), H. exact IH.
  - now rewrite IH.
Qed.

Lemma not_in_filtered (sid : pystr) (rows : list TombstoneRow) :
  ~ In sid (map t_session_id
              (List.filter (fun r => negb (streq (t_session_id r) sid)) rows)).
Proof.
  intros H. apply in_map_iff in H as (r & <- & Hr).
  apply List.filter_In in Hr as [_ Hr]. now rewrite streq_refl in Hr.
Qed.

Lemma NoDup_map_filter {A B : Type} (f : A -> B) (p : A -> bool) (l : list A) :
  NoDup (map f l) -> NoDup (map f (List.filter p l)).
Proof.
  induction l as [|x l IH]; cbn; [auto|]. intros H.
  apply NoDup_cons in H as [H1 H2].
  destruct (p x); cbn; [|auto]. apply NoDup_cons. split; [|auto].
  intros Hin. apply H1. apply list_elem_of_In. apply list_elem_of_In in Hin.
  apply in_map_iff in Hin as (y & Hy & Hin). apply List.filter_In in Hin as [Hin _].
  apply in_map_iff. eauto.
Qed.

(** X13. [mark_session_deleted] marks its session and no other: a session
    is reported deleted afterwards exactly when it is the one marked or
    was deleted before, so a mark is never lost by marking another
    session.  The list of deleted sessions stays free of duplicates, also
    when a session is marked again. *)
Theorem mark_session_deleted_marks_one
        (m : MemoryManager.t) (session_id now : pystr) :
  let m' := fst (MemoryManager.mark_session_deleted m session_id now) in
  (forall other,
      MemoryManager.is_session_deleted m' other
      = streq other session_id || MemoryManager.is_session_deleted m other)
  /\ In session_id (MemoryManager.get_all_deleted_sessions m')
  /\ (NoDup (MemoryManager.get_all_deleted_sessions m) ->
      NoDup (MemoryManager.get_all_deleted_sessions m'))
  /\ conversations (MemoryManager.db m') = conversations (MemoryManager.db m).
Proof.
  cbv zeta.
  unfold MemoryManager.mark_session_deleted, MemoryManager.is_session_deleted,
    MemoryManager.get_all_deleted_sessions, insert_or_replace_tombstone.
  cbn [fst MemoryManager.db deleted_sessions conversations].
  split; [|split; [|split; [|reflexivity]]].
  - intros other. rewrite existsb_app. cbn [existsb t_session_id].
    rewrite orb_false_r, (streq_sym session_id other).
    destruct (streq other session_id) eqn:E.
    + now rewrite orb_true_r.
    + rewrite orb_false_r. cbn. now apply existsb_filter_other.
  - eapply Permutation_in;
      [apply Permutation_map, (order_by_asc_perm t_session_id)|].
    rewrite map_app. apply in_or_app. right. now left.
  - assert (P : forall rows,
               Permutation (map t_session_id (order_by_asc t_session_id rows))
                           (map t_session_id rows))
      by (intros rows; symmetry;
          apply Permutation_map, (order_by_asc_perm t_session_id)).
    rewrite !P. intros H.
    rewrite map_app. cbn [map t_session_id].
    apply NoDup_app. split; [now apply NoDup_map_filter|]. split.
    + intros x Hx [->|[]]%list_elem_of_In. apply list_elem_of_In in Hx.
      exact (not_in_filtered _ _ Hx).
    + apply NoDup_singleton.
Qed.

Import UserInfo.

Lemma find_updated (rows : list Row) (k v ty now : pystr) :
  existsb (fun r => streq (key r) k) rows = true ->
  exists r,
    List.find (fun r => streq (key r) k)
      (map (fun r => if streq (key r) k
                     then mkRow (key r) v ty (created_at r) now else r) rows)
    = Some (mkRow (key r) v ty (created_at r) now)
    /\ key r = k.
Proof.
  induction rows as [|r rows IH]; [discriminate|]. cbn.
  destruct (streq (key r) k) eqn:E; cbn.
  - intros _. rewrite E. exists r. split; [reflexivity|]. now apply streq_eq.
  - rewrite E. exact IH.
Qed.

Lemma find_other_updated (rows : list Row) (k other v ty now : pystr) :
  streq k other = false ->
  List.find (fun r => streq (key r) other)
    (map (fun r => if streq (key r) k
                   then mkRow (key r) v ty (created_at r) now else r) rows)
  = List.find (fun r => streq (key r) other) rows.
Proof.
  intros H. induction rows as [|r rows IH]; [reflexivity|]. cbn.
  destruct (streq (key r) k) eqn:E; cbn.
  - apply streq_eq in E. rewrite E, H. exact IH.
  - destruct (streq (key r) other); [reflexivity|exact IH].
Qed.

Lemma find_absent (rows : list Row) (k : pystr) :
  existsb (fun r => streq (key r) k) rows = false ->
  List.find (fun r => streq (key r) k) rows = None.
Proof.
  induction rows as [|r rows IH]; [reflexivity|]. cbn.
  destruct (streq (key r) k); [discriminate|exact IH].
Qed.

Lemma find_after (rows : list Row) (r : Row) (p : Row -> bool) :
  List.find p (rows ++ [r])
  = match List.find p rows with
    | Some x => Some x
    | None => if p r then Some r else None
    end.
Proof.
  induction rows as [|x rows IH]; [reflexivity|]. cbn.
  destruct (p x); [reflexivity|exact IH].
Qed.

(** X14. [save_user_info] followed by [get_user_info] for the same,
    non-empty key gives back the value and the type just saved, whether
    the key was new or already there; the entry of every other key is what
    it was; and the call reports [True]. *)
Theorem save_then_get_user_info
        (rows : list Row) (k v ty now other : pystr) (any_type : option pystr) :
  k <> [] -> other <> [] -> other <> k ->
  let rows' := fst (save_user_info rows k v ty now) in
  get_user_info rows' (Some k) any_type = OneInfo k v ty
  /\ get_user_info rows' (Some other) any_type = get_user_info rows (Some other) any_type
  /\ snd (save_user_info rows k v ty now) = true.
Proof.
  intros Hk Ho Hother. cbv zeta. unfold save_user_info, get_user_info.
  assert (Hne : streq k other = false).
  { destruct (streq k other) eqn:E; [|reflexivity].
    apply streq_eq in E. now subst other. }
  destruct k as [|c k]; [contradiction|].
  destruct other as [|d other]; [contradiction|].
  destruct (existsb (fun r => streq (key r) (c :: k)) rows) eqn:E; cbn [fst snd].
  - destruct (find_updated rows (c :: k) v ty now E) as (r & -> & Hr).
    cbn [key value info_type]. rewrite Hr.
    split; [reflexivity|]. split; [|reflexivity].
    now rewrite find_other_updated.
  - rewrite !find_after, (find_absent _ _ E). cbn [key].
    rewrite streq_refl, Hne.
    split; [reflexivity|]. split; [|reflexivity].
    now destruct (List.find (fun r => streq (key r) (d :: other)) rows).
Qed.

Lemma save_then_get_user_info_witness :
  get_user_info
    (fst (save_user_info [mkRow (u "name") (u "Arjuna") (u "general") (u "t0") (u "t0")]
            (u "name") (u "Radha") (u "profile") (u "t1")))
    (Some (u "name")) None
  = OneInfo (u "name") (u "Radha") (u "profile").
Proof.
  refine (proj1 (save_then_get_user_info
                   [mkRow (u "name") (u "Arjuna") (u "general") (u "t0") (u "t0")]
                   (u "name") (u "Radha") (u "profile") (u "t1") (u "city") None _ _ _));
    intros H; vm_compute in H; discriminate H.
Defined.

End MemoryManagerExtras.

(** ** The backend agent (krishna_backend/core/krishna_agent.py) *)
Module BackendExtras.
Import Sql Backend.KrishnaAgent BackendProperties.

Lemma mem_In (w : pystr) (ws : list pystr) : mem w ws = true <-> In w ws.
Proof.
  unfold mem. rewrite existsb_exists. split.
  - intros (x & Hx & E). apply streq_eq in E. now subst x.
  - intros H. exists w. split; [exact H|apply streq_refl].
Qed.

Lemma add_new_extends (words keywords : list pystr) :
  exists new, add_new words keywords = keywords ++ new
              /\ Forall (fun w => In w words /\ ~ In w keywords) new
              /\ NoDup new.
Proof.
  revert keywords. induction words as [|w words IH]; intros keywords; cbn [add_new].
  - exists []. split; [now rewrite app_nil_r|]. split; constructor.
  - destruct (mem w keywords) eqn:E.
    + destruct (IH keywords) as (new & -> & Hall & Hnd). exists new.
      split; [reflexivity|]. split; [|exact Hnd].
      eapply List.Forall_impl; [|exact Hall]. cbn. intros x [H1 H2]. auto.
    + destruct (IH (keywords ++ [w])) as (new & -> & Hall & Hnd).
      assert (Hw : ~ In w keywords).
      { intros H. apply mem_In in H. rewrite H in E. discriminate E. }
      exists (w :: new). split; [now rewrite <- app_assoc|]. split.
      * constructor; [split; [now left|exact Hw]|].
        eapply List.Forall_impl; [|exact Hall]. cbn. intros x [H1 H2].
        split; [now right|]. intros H. apply H2. apply in_or_app. now left.
      * apply NoDup_cons. split; [|exact Hnd].
        intros Hin%list_elem_of_In. rewrite List.Forall_forall in Hall.
        destruct (Hall _ Hin) as [_ H]. apply H. apply in_or_app. right. now left.
Qed.

Lemma add_new_has (words keywords : list pystr) (w : pystr) :
  In w words \/ In w keywords -> In w (add_new words keywords).
Proof.
  revert keywords. induction words as [|x words IH]; intros keywords; cbn [add_new].
  - intros [[]|H]. exact H.
  - intros [[<-|H]|H]; apply IH.
    + right. destruct (mem x keywords) eqn:E; [now apply mem_In|].
      apply in_or_app. right. now left.
    + now left.
    + right. destruct (mem x keywords); [exact H|]. apply in_or_app. now left.
Qed.

Lemma add_new_fixed (words keywords : list pystr) :
  (forall w, In w words -> In w keywords) -> add_new words keywords = keywords.
Proof.
  revert keywords. induction words as [|x words IH]; intros keywords H; cbn [add_new].
  - reflexivity.
  - assert (E : mem x keywords = true) by (apply mem_In, H; now left).
    rewrite E. apply IH. intros w Hw. apply H. now right.
Qed.

(** X15. [_update_global_topics] only ever adds topics: the topics known
    before stay where they are, the new ones are words of the message with
    more than three characters that are no stop words, each added once.
    Running it again on the same message changes nothing. *)
Theorem update_global_topics_idempotent (message_lower : pystr) (a : t) :
  let a1 := fst (_update_global_topics message_lower a) in
  (exists new,
      global_topics a1 = global_topics a ++ new
      /\ NoDup new
      /\ Forall (fun w => In w (split_ws message_lower)
                          /\ (3 < length w)%nat
                          /\ mem w (us topic_stopwords) = false
                          /\ ~ In w (global_topics a)) new)
  /\ fst (_update_global_topics message_lower a1) = a1
  /\ memory_manager a1 = memory_manager a.
Proof.
  cbv zeta. unfold _update_global_topics, update, with_topics.
  cbn [fst global_topics memory_manager].
  set (words := List.filter (is_keyword topic_stopwords) (split_ws message_lower)).
  split; [|split; [|reflexivity]].
  - destruct (add_new_extends words (global_topics a)) as (new & E & Hall & Hnd).
    exists new. split; [exact E|]. split; [exact Hnd|].
    eapply List.Forall_impl; [|exact Hall]. cbn. intros w [H1 H2].
    apply List.filter_In in H1 as [H1 Hk]. unfold is_keyword in Hk.
    apply andb_prop in Hk as [Hl Hs]. apply Nat.ltb_lt in Hl.
    apply negb_true_iff in Hs. auto.
  - f_equal. apply add_new_fixed. intros w Hw. apply add_new_has. now left.
Qed.

Lemma search_no_excerpt (find : pystr -> option (pystr * pystr * Z))
      (queries : list pystr) (found : Scripture) :
  scripture_excerpt found = None ->
  scripture_excerpt (search find queries found) = None.
Proof.
  revert found. induction queries as [|query rest IH]; intros found H; cbn [search].
  - exact H.
  - destruct (find query) as [[[context source] page]|]; [|now apply IH].
    destruct (nonempty context && Nat.ltb 50 (length (strip context)));
      [reflexivity|now apply IH].
Qed.

Lemma excerpt_of_some (context excerpt : pystr) :
  excerpt_of context = Some excerpt ->
  excerpt = strip (firstn 150 context)
            ++ (if Nat.ltb 150 (length context) then u "..." else []).
Proof.
  unfold excerpt_of. destruct context; [discriminate|]. now intros [= <-].
Qed.

(** X16. An excerpt accompanies a reply only when the user did not ask
    for scripture by keyword; it is cut from the passage the processor
    found for the message itself, and has at most 153 characters: the
    first 150 of the passage, stripped, and an ellipsis when the passage is
    longer. *)
Theorem scripture_excerpt_is_bounded
        (processor : option (pystr -> option (pystr * pystr * Z)))
        (user_message user_message_lower excerpt : pystr) :
  scripture_excerpt (lookup_scripture processor user_message user_message_lower)
  = Some excerpt ->
  any_in (us scripture_keywords) user_message_lower = false
  /\ (length excerpt <= 153)%nat
  /\ exists find context source page,
       processor = Some find
       /\ find user_message = Some (context, source, page)
       /\ excerpt = strip (firstn 150 context)
                    ++ (if Nat.ltb 150 (length context) then u "..." else []).
Proof.
  unfold lookup_scripture. destruct processor as [find|]; [|discriminate].
  destruct (any_in (us scripture_keywords) user_message_lower).
  - now rewrite search_no_excerpt.
  - destruct (find user_message) as [[[context source] page]|] eqn:E; [|discriminate].
    cbn [scripture_excerpt]. intros H. apply excerpt_of_some in H. subst excerpt.
    split; [reflexivity|]. split.
    + rewrite length_app.
      pose proof (PostProcessing.length_strip (firstn 150 context)) as H1.
      rewrite length_firstn in H1.
      destruct (Nat.ltb 150 (length context));
        [replace (length (u "...")) with 3%nat by reflexivity
        |replace (length (@nil N)) with 0%nat by reflexivity]; lia.
    + exists find, context, source, page. auto.
Qed.

Lemma scripture_excerpt_is_bounded_witness :
  exists excerpt,
    scripture_excerpt
      (lookup_scripture (Some BackendScenario.find_gita) (u "What is my duty")
                        (u "what is my duty")) = Some excerpt
    /\ (length excerpt <= 153)%nat.
Proof.
  destruct (scripture_excerpt
              (lookup_scripture (Some BackendScenario.find_gita) (u "What is my duty")
                                (u "what is my duty"))) as [excerpt|] eqn:E;
    [|exfalso; vm_compute in E; discriminate E].
  exists excerpt. split; [reflexivity|].
  exact (proj1 (proj2 (scripture_excerpt_is_bounded _ _ _ _ E))).
Defined.



End BackendExtras.

(** ** Sessions of the backend agent *)
Module BackendSessionExtras.
Import Sql Backend.KrishnaAgent BackendProperties BackendSessions.

(** X18. The backend's [delete_conversation] reports success, empties the
    history of the session and leaves the history of every other session
    as it was; the chat buffer is not touched, so the messages of a deleted
    current session are still what [get_conversation_messages] returns. *)
Theorem backend_delete_conversation_frame
        (sid other : pystr) (a : t) (m : Backend.LangChainMemoryManager.t) (limit : nat) :
  memory_manager a = Some m -> sid <> other ->
  snd (delete_conversation sid a) = true
  /\ get_conversation_history (fst (delete_conversation sid a)) sid = []
  /\ get_conversation_history (fst (delete_conversation sid a)) other
     = get_conversation_history a other
  /\ exists m',
       memory_manager (fst (delete_conversation sid a)) = Some m'
       /\ Backend.LangChainMemoryManager.get_conversation_messages m' sid limit
          = Backend.LangChainMemoryManager.get_conversation_messages m sid limit.
Proof.
  intros Hm Hne. unfold delete_conversation. rewrite Hm. cbn [fst snd].
  split; [reflexivity|].
  unfold get_conversation_history. cbn [memory_manager with_manager]. rewrite Hm.
  cbn [Backend.LangChainMemoryManager.db].
  destruct (DeletionProperties.delete_session_rows_clears sid
              (Backend.LangChainMemoryManager.db m)) as (H1 & _).
  split; [now rewrite H1|]. split.
  - unfold select_conversation, delete_session_rows. cbn [conversations].
    now rewrite (StoreExtras.filter_session_after_delete c_user_id).
  - eexists. split; reflexivity.
Qed.

Lemma backend_delete_conversation_frame_witness :
  snd (delete_conversation (u "s1")
         (fst (get_response (BackendScenario.env_saying (u "Be still."))
                 (u "I feel lost today") BackendScenario.fresh_agent))) = true.
Proof.
  set (a := fst (get_response (BackendScenario.env_saying (u "Be still."))
                   (u "I feel lost today") BackendScenario.fresh_agent)).
  destruct (memory_manager a) as [m|] eqn:Hm; [|exfalso; vm_compute in Hm; discriminate Hm].
  refine (proj1 (backend_delete_conversation_frame (u "s1") (u "s2") a m 10 Hm _)).
  intros H. vm_compute in H. discriminate H.
Defined.

(** [m'] is [m] after messages and moods were saved for the session. *)
Inductive saved_for (sid : pystr) (m : Backend.LangChainMemoryManager.t)
  : Backend.LangChainMemoryManager.t -> Prop :=
| saved_nothing : saved_for sid m m
| saved_a_message m1 message sender ts :
    saved_for sid m m1 ->
    saved_for sid m (Backend.LangChainMemoryManager.save_message m1 sid message sender ts)
| saved_a_mood m1 mood ts :
    saved_for sid m m1 ->
    saved_for sid m (Backend.LangChainMemoryManager.save_mood m1 sid mood ts).

(** Every entry of the chat buffer is the text of a row stored under the
    session. *)
Definition owned (sid : pystr) (m : Backend.LangChainMemoryManager.t) : Prop :=
  Forall (fun d => exists r,
              In r (conversations (Backend.LangChainMemoryManager.db m))
              /\ c_user_id r = sid /\ d !! "content" = Some (c_message r))
         (Backend.LangChainMemoryManager.chat_memory m).

Lemma owned_saved_for (sid : pystr) (m m' : Backend.LangChainMemoryManager.t) :
  owned sid m -> saved_for sid m m' -> owned sid m'.
Proof.
  intros Hm. induction 1 as [|m1 message sender ts _ IH|m1 mood ts _ IH].
  - exact Hm.
  - unfold owned in *. cbn. apply Forall_app. split.
    + eapply List.Forall_impl; [|exact IH]. cbn. intros d (r & H1 & H2 & H3).
      exists r. split; [apply in_or_app; now left|auto].
    + constructor; [|constructor].
      eexists. split; [apply in_or_app; right; now left|]. split; [reflexivity|].
      cbn. rewrite lookup_insert_ne by discriminate. apply lookup_insert_eq.
  - exact IH.
Qed.

Lemma owned_loaded (sid : pystr) (m : Backend.LangChainMemoryManager.t) (limit : nat) :
  owned sid (Backend.LangChainMemoryManager.load_conversation_history m sid limit).
Proof.
  unfold owned, Backend.LangChainMemoryManager.load_conversation_history. cbn.
  rewrite List.Forall_forall. intros d Hd.
  apply in_map_iff in Hd as (r & <- & Hr). apply List.filter_In in Hr as [Hr _].
  assert (Hr' : In r (select_conversation sid (Backend.LangChainMemoryManager.db m))).
  { rewrite <- (List.firstn_skipn limit). apply in_or_app. now left. }
  apply select_conversation_owner in Hr' as [Ho Hi].
  exists r. split; [exact Hi|]. split; [exact Ho|].
  rewrite lookup_insert_ne by discriminate. apply lookup_insert_eq.
Qed.

Lemma try_saves_for_session (env : Env) (user_message : pystr) (a : t)
      (m : Backend.LangChainMemoryManager.t) :
  memory_manager a = Some m ->
  exists m',
    memory_manager (fst (get_response_try env user_message a)) = Some m'
    /\ saved_for (session_id a) m m'.
Proof.
  intros Hm. destruct a as [mm processor sid topics reads log]. cbn in Hm. subst mm.
  unfold get_response_try.
  destruct (route (strip (lower user_message)));
    unfold special, when_branch, default_branch, save_message, save_mood,
      _update_global_topics, manager, read, update, now, lift, mbind, M_bind,
      mret, M_ret;
    cbn [memory_manager scripture_processor session_id global_topics clock_reads
         error_log with_manager with_topics fst snd].
  1-4: eexists; split; [reflexivity|]; repeat constructor.
  match goal with
  | |- context [gateway ?en ?p] => destruct (gateway en p) as [generated|e0]
  end; cbn [fst memory_manager with_manager with_topics];
    (eexists; split; [reflexivity|]; repeat constructor).
Qed.

(** X19. After the backend's [process_message] for a session, every entry
    of the chat buffer is the text of a row that the log holds under that
    session: the buffer is reloaded from the session's own rows before the
    reply is made, and only turns of that session are added to it. *)
Theorem backend_process_message_keeps_sessions_apart
        (env : Env) (user_id message : pystr) (a : t)
        (m : Backend.LangChainMemoryManager.t) :
  memory_manager a = Some m ->
  exists m',
    memory_manager (fst (process_message env user_id message a)) = Some m'
    /\ Forall (fun d => exists r,
                   In r (conversations (Backend.LangChainMemoryManager.db m'))
                   /\ c_user_id r = user_id /\ d !! "content" = Some (c_message r))
              (Backend.LangChainMemoryManager.chat_memory m').
Proof.
  intros Hm. unfold process_message, get_response.
  set (a0 := set_session_id user_id a).
  assert (H0 : memory_manager a0
               = Some (Backend.LangChainMemoryManager.load_conversation_history
                         m user_id 20) /\ session_id a0 = user_id).
  { unfold a0, set_session_id. cbn [memory_manager]. rewrite Hm. split; reflexivity. }
  destruct H0 as [Hm0 Hs0].
  destruct (try_saves_for_session env message a0 _ Hm0) as (m' & Hm' & Hsaved).
  rewrite Hs0 in Hsaved.
  exists m'. split.
  - destruct (get_response_try env message a0) as [a1 [r|e]]; exact Hm'.
  - exact (owned_saved_for _ _ _ (owned_loaded user_id m 20) Hsaved).
Qed.

Lemma backend_process_message_keeps_sessions_apart_witness :
  exists m',
    memory_manager (fst (process_message (BackendScenario.env_saying (u "Be still."))
                           (u "bob") (u "I feel lost today")
                           BackendScenario.fresh_agent)) = Some m'.
Proof.
  destruct (backend_process_message_keeps_sessions_apart
              (BackendScenario.env_saying (u "Be still.")) (u "bob")
              (u "I feel lost today") BackendScenario.fresh_agent
              (Backend.LangChainMemoryManager.init Sql.empty) eq_refl)
    as (m' & Hm' & _).
  exists m'. exact Hm'.
Defined.

End BackendSessionExtras.

(** ** Replies of the backend agent *)
Module BackendReplyExtras.
Import Sql Backend.KrishnaAgent BackendProperties BackendSessions.

(** X20. The backend's [get_response] never reads the chat buffer: the
    reply, the rows written to the store and the topics remembered are the
    same whatever the buffer holds, so no earlier turn reaches the
    gateway through it. *)
Theorem backend_reply_ignores_the_buffer
        (env : Env) (user_message : pystr) (a : t)
        (buffer : list (gmap string pystr)) :
  let here := get_response env user_message a in
  let there := get_response env user_message (with_buffer buffer a) in
  snd there = snd here
  /\ global_topics (fst there) = global_topics (fst here)
  /\ error_log (fst there) = error_log (fst here)
  /\ forall m m', memory_manager (fst here) = Some m ->
                  memory_manager (fst there) = Some m' ->
                  Backend.LangChainMemoryManager.db m'
                  = Backend.LangChainMemoryManager.db m.
Proof.
  cbv zeta. destruct a as [[[db buf]|] processor sid topics reads log];
    unfold with_buffer; cbn [memory_manager with_manager scripture_processor
                             session_id global_topics clock_reads error_log
                             Backend.LangChainMemoryManager.db].
  - unfold get_response, get_response_try.
    destruct (route (strip (lower user_message)));
      unfold special, when_branch, default_branch, save_message, save_mood,
        _update_global_topics, manager, read, update, now, lift, mbind, M_bind,
        mret, M_ret;
      cbn [memory_manager scripture_processor session_id global_topics clock_reads
           error_log with_manager with_topics fst snd
           Backend.LangChainMemoryManager.db Backend.LangChainMemoryManager.save_message
           Backend.LangChainMemoryManager.save_mood
           Backend.LangChainMemoryManager.get_memory_context].
    1-4: (split; [reflexivity|]; split; [reflexivity|]; split; [reflexivity|];
          intros m m' [= <-] [= <-]; reflexivity).
    unfold memory_context_of, Backend.LangChainMemoryManager.get_memory_context.
    match goal with
    | |- context [gateway ?en ?p] => destruct (gateway en p) as [generated|e0]
    end;
      cbn [fst snd log_error memory_manager global_topics error_log with_manager
           with_topics];
      (split; [reflexivity|]; split; [reflexivity|]; split; [reflexivity|];
       intros m m' [= <-] [= <-]; reflexivity).
  - repeat split. intros m m' H. discriminate H.
Qed.

(** X21. For a timestamp of the same day, [_calculate_time_ago] counts
    whole minutes below the hour and whole hours from there on: the
    phrase names between 0 and 59 minutes or between 1 and 23 hours. *)
Theorem calculate_time_ago_same_day
        (env : Env) (timestamp_str : pystr) (seconds : Z) :
  time_since env timestamp_str = Some (0, seconds)%Z ->
  (0 <= seconds < 86400)%Z ->
  exists n,
    ((0 <= n < 60)%Z
     /\ _calculate_time_ago env timestamp_str = str_of_int n ++ u " minutes ago")
    \/ ((1 <= n < 24)%Z
        /\ _calculate_time_ago env timestamp_str = str_of_int n ++ u " hours ago").
Proof.
  intros H Hs. destruct (Z_lt_le_dec seconds 3600) as [Hlt|Hge].
  - exists (seconds / 60)%Z. left.
    split; [|exact (backend_time_ago_minutes env timestamp_str seconds H Hlt)].
    split; [apply Z.div_pos; lia|apply Z.div_lt_upper_bound; lia].
  - exists (seconds / 3600)%Z. right.
    split; [|exact (backend_time_ago_hours env timestamp_str seconds H Hge)].
    split; [apply Z.div_le_lower_bound; lia|apply Z.div_lt_upper_bound; lia].
Qed.

Lemma calculate_time_ago_same_day_witness :
  exists n,
    ((0 <= n < 60)%Z
     /\ _calculate_time_ago (BackendScenario.env_saying []) (u "2024-05-01T10:00:00")
        = str_of_int n ++ u " minutes ago")
    \/ ((1 <= n < 24)%Z
        /\ _calculate_time_ago (BackendScenario.env_saying []) (u "2024-05-01T10:00:00")
           = str_of_int n ++ u " hours ago").
Proof.
  apply (calculate_time_ago_same_day (BackendScenario.env_saying [])
           (u "2024-05-01T10:00:00") 125).
  - reflexivity.
  - lia.
Defined.

End BackendReplyExtras.

(** ** Input validation (krishna_backend/core/validators.py) *)
Module ValidatorProperties.
Import Validators.

(** Neither a control character of the removed class nor one of the
    characters [<], [>], the double and the single quote. *)
Definition harmless (c : N) : bool :=
  negb (is_control c) && negb (c =? 60) && negb (c =? 62)
  && negb (c =? 34) && negb (c =? 39).

Lemma escape_cp_harmless (c : N) :
  is_control c = false -> forallb harmless (escape_cp c) = true.
Proof.
  intros H. unfold escape_cp.
  destruct (c =? 38) eqn:E1; [reflexivity|].
  destruct (c =? 60) eqn:E2; [reflexivity|].
  destruct (c =? 62) eqn:E3; [reflexivity|].
  destruct (c =? 34) eqn:E4; [reflexivity|].
  destruct (c =? 39) eqn:E5; [reflexivity|].
  cbn. unfold harmless. now rewrite H, E2, E3, E4, E5.
Qed.

Lemma html_escape_harmless (text : pystr) :
  Forall (fun c => is_control c = false) text ->
  Forall (fun c => harmless c = true) (html_escape text).
Proof.
  unfold html_escape. induction 1 as [|c text Hc _ IH]; cbn; [constructor|].
  apply Forall_app. split; [|exact IH].
  apply List.Forall_forall. apply forallb_forall. now apply escape_cp_harmless.
Qed.

Lemma Forall_squeeze (P : N -> Prop) (c : N) (text : pystr) :
  Forall P text -> Forall P (squeeze c text).
Proof.
  induction 1 as [|x text Hx _ IH]; cbn [squeeze]; [constructor|].
  destruct ((x =? c) && startswith [c; c] text); [exact IH|now constructor].
Qed.

Lemma length_squeeze (c : N) (text : pystr) :
  (length (squeeze c text) <= length text)%nat.
Proof.
  induction text as [|x text IH]; cbn [squeeze]; [lia|].
  destruct ((x =? c) && startswith [c; c] text); cbn [length]; lia.
Qed.

Lemma length_escape_cp (c : N) : (1 <= length (escape_cp c) <= 6)%nat.
Proof.
  unfold escape_cp.
  repeat match goal with |- context [if ?b then _ else _] => destruct b end;
    cbn; lia.
Qed.

Lemma length_html_escape (text : pystr) :
  (length text <= length (html_escape text) <= 6 * length text)%nat.
Proof.
  unfold html_escape. induction text as [|c text IH]; cbn [flat_map length]; [lia|].
  rewrite length_app. pose proof (length_escape_cp c). lia.
Qed.

Lemma length_filter_le {A : Type} (p : A -> bool) (l : list A) :
  (length (List.filter p l) <= length l)%nat.
Proof.
  induction l as [|x l IH]; cbn; [lia|]. destruct (p x); cbn; lia.
Qed.

(** X22. Whatever text comes in, [sanitize_user_input] gives back a text
    without any control character of the removed class and without an
    angle bracket, a double quote or a single quote: markup can only come
    out escaped. *)
Theorem sanitized_text_is_harmless (text : pystr) :
  Forall (fun c => is_control c = false
                   /\ c <> 60 /\ c <> 62 /\ c <> 34 /\ c <> 39)
         (sanitize_user_input text).
Proof.
  assert (H : Forall (fun c => harmless c = true) (sanitize_user_input text)).
  { unfold sanitize_user_input. destruct text as [|c text]; [constructor|].
    apply PostProcessing.Forall_strip, Forall_squeeze, Forall_squeeze,
      html_escape_harmless.
    apply List.Forall_forall. intros x Hx. apply List.filter_In in Hx as [_ Hx].
    now apply negb_true_iff in Hx. }
  eapply List.Forall_impl; [|exact H]. cbn. intros c Hc. unfold harmless in Hc.
  repeat (apply andb_prop in Hc as [Hc ?]).
  repeat match goal with
         | H : negb _ = true |- _ => apply negb_true_iff in H
         | H : (_ =? _) = false |- _ => apply N.eqb_neq in H
         end.
  auto.
Qed.

Lemma squeeze_absent (c : N) (text : pystr) :
  Forall (fun x => x <> c) text -> squeeze c text = text.
Proof.
  induction 1 as [|x text Hx _ IH]; cbn [squeeze]; [reflexivity|].
  apply N.eqb_neq in Hx. now rewrite Hx, IH.
Qed.

Lemma strip_no_space (text : pystr) :
  Forall (fun x => is_space x = false) text -> strip text = text.
Proof.
  intros H. unfold strip.
  assert (E : lstrip text = text) by (destruct H as [|x text Hx _]; cbn; [|rewrite Hx]; reflexivity).
  rewrite E. clear E. induction H as [|x text Hx _ IH]; [reflexivity|].
  rewrite PostProcessing.rstrip_cons, IH, Hx. now destruct text.
Qed.

Lemma Forall_flat_map_repeat {A B : Type} (P : B -> Prop) (f : A -> list B)
      (x : A) (n : nat) :
  Forall P (f x) -> Forall P (flat_map f (repeat x n)).
Proof.
  intros H. induction n as [|n IH]; cbn; [constructor|]. now apply Forall_app.
Qed.

Lemma sanitize_quotes (n : nat) :
  (n <= 5000)%nat ->
  sanitize_user_input (repeat 39 n) = flat_map escape_cp (repeat 39 n).
Proof.
  intros Hn. unfold sanitize_user_input.
  destruct n as [|n]; [reflexivity|].
  change (match repeat 39 (S n) with [] => [] | _ :: _ => ?x end) with x.
  assert (Ht : firstn 5000 (repeat 39 (S n)) = repeat 39 (S n))
    by (apply firstn_all2; rewrite repeat_length; exact Hn).
  rewrite Ht.
  assert (Hf : List.filter (fun c => negb (is_control c)) (repeat 39 (S n))
               = repeat 39 (S n)).
  { clear. induction (S n) as [|k IH]; [reflexivity|]. cbn [repeat List.filter].
    replace (negb (is_control 39)) with true by reflexivity. now rewrite IH. }
  rewrite Hf. unfold html_escape.
  assert (Hall : Forall (fun x => x <> 10 /\ x <> 32 /\ is_space x = false)
                        (flat_map escape_cp (repeat 39 (S n)))).
  { apply Forall_flat_map_repeat. repeat constructor; discriminate. }
  rewrite (squeeze_absent 10), (squeeze_absent 32), strip_no_space; [reflexivity|..];
    (eapply List.Forall_impl; [|exact Hall]); cbn; intros x Hx; tauto.
Qed.

Lemma length_sanitize (text : pystr) :
  (length (sanitize_user_input text) <= 6 * length (firstn 5000 text))%nat.
Proof.
  unfold sanitize_user_input. destruct text as [|c text]; [cbn; lia|].
  etransitivity; [apply PostProcessing.length_strip|].
  etransitivity; [apply length_squeeze|].
  etransitivity; [apply length_squeeze|].
  etransitivity; [apply length_html_escape|].
  apply Nat.mul_le_mono_l, length_filter_le.
Qed.

(** X23. The sanitized text is never longer than six times the text that
    came in, nor than six times 5000 characters; the factor is the
    escaping of a quote, and a text of single quotes alone reaches it. *)
Theorem sanitized_text_length (text : pystr) :
  (length (sanitize_user_input text) <= 6 * length text)%nat
  /\ (length (sanitize_user_input text) <= 6 * 5000)%nat
  /\ forall n, (n <= 5000)%nat ->
               length (sanitize_user_input (repeat 39 n)) = (6 * n)%nat.
Proof.
  pose proof (length_sanitize text) as H.
  rewrite length_firstn in H. split; [lia|]. split; [lia|].
  intros n Hn. rewrite (sanitize_quotes n Hn).
  clear. induction n as [|n IH]; [reflexivity|].
  cbn [repeat flat_map]. rewrite length_app, IH.
  replace (length (escape_cp 39)) with 6%nat by reflexivity. lia.
Qed.

Lemma squeeze_head (c : N) (text : pystr) : head (squeeze c text) = head text.
Proof.
  induction text as [|x text IH]; [reflexivity|]. cbn [squeeze].
  destruct (x =? c) eqn:Ex; [|reflexivity].
  destruct (startswith [c; c] text) eqn:Es; [|reflexivity].
  cbn [andb]. rewrite IH. apply N.eqb_eq in Ex. subst x.
  destruct text as [|y text]; [discriminate Es|]. cbn in Es.
  apply andb_prop in Es as [Ey _]. apply N.eqb_eq in Ey. now subst y.
Qed.

Lemma head_cons (x : N) (text : pystr) :
  head text = Some x -> exists rest, text = x :: rest.
Proof. destruct text as [|y rest]; [discriminate|]. intros [= ->]. eauto. Qed.

(** Two [c] at the start of the squeezed text were there before. *)
Lemma squeeze_pair (c d : N) (text : pystr) :
  startswith [d; d] (squeeze c text) = true -> startswith [d; d] text = true.
Proof.
  intros H.
  destruct (squeeze c text) as [|x [|y rest]] eqn:E; cbn in H;
    rewrite ?andb_false_r in H; try discriminate H.
  apply andb_prop in H as [Hx H]. apply andb_prop in H as [Hy _].
  apply N.eqb_eq in Hx, Hy. subst x y.
  pose proof (squeeze_head c text) as Hh. rewrite E in Hh. cbn in Hh.
  symmetry in Hh. apply head_cons in Hh as [t1 ->].
  cbn [squeeze] in E.
  destruct ((d =? c) && startswith [c; c] t1) eqn:Ec.
  - apply andb_prop in Ec as [Ed Es]. apply N.eqb_eq in Ed. subst c.
    destruct t1 as [|z t1]; [discriminate Es|]. cbn in Es.
    apply andb_prop in Es as [Ez _]. apply N.eqb_eq in Ez. subst z.
    cbn. now rewrite N.eqb_refl.
  - injection E as E. pose proof (squeeze_head c t1) as Hh. rewrite E in Hh.
    cbn in Hh. symmetry in Hh. apply head_cons in Hh as [t2 ->].
    cbn. now rewrite N.eqb_refl.
Qed.

Lemma startswith_triple (d x : N) (text : pystr) :
  startswith [d; d; d] (x :: text) = (d =? x) && startswith [d; d] text.
Proof. reflexivity. Qed.

(** Squeezing creates no run of three. *)
Lemma squeeze_keeps_no_run (c d : N) (text : pystr) :
  contains [d; d; d] (squeeze c text) = true -> contains [d; d; d] text = true.
Proof.
  induction text as [|x text IH]; [discriminate|]. cbn [squeeze].
  destruct ((x =? c) && startswith [c; c] text).
  - intros H. cbn [contains]. rewrite (IH H). apply orb_true_r.
  - cbn [contains]. rewrite !startswith_triple. intros H.
    apply orb_prop in H as [H|H].
    + apply andb_prop in H as [H1 H2]. rewrite H1, (squeeze_pair _ _ _ H2).
      reflexivity.
    + rewrite (IH H). apply orb_true_r.
Qed.

(** No run of three [c] is left by squeezing [c]. *)
Lemma squeeze_no_run (c : N) (text : pystr) :
  contains [c; c; c] (squeeze c text) = false.
Proof.
  induction text as [|x text IH]; [reflexivity|]. cbn [squeeze].
  destruct ((x =? c) && startswith [c; c] text) eqn:E; [exact IH|].
  cbn [contains]. rewrite startswith_triple, IH, orb_false_r.
  destruct (c =? x) eqn:Ex; [|reflexivity]. cbn [andb].
  destruct (startswith [c; c] (squeeze c text)) eqn:Es; [|reflexivity].
  apply squeeze_pair in Es. rewrite Es, andb_true_r in E.
  apply N.eqb_eq in Ex. subst x. now rewrite N.eqb_refl in E.
Qed.

Lemma contains_lstrip_inv (p text : pystr) :
  contains p (lstrip text) = true -> contains p text = true.
Proof.
  induction text as [|x text IH]; [auto|]. cbn [lstrip].
  destruct (is_space x); [|auto]. intros H. cbn [contains].
  rewrite (IH H). apply orb_true_r.
Qed.

Lemma contains_strip_inv (p text : pystr) :
  contains p (strip text) = true -> contains p text = true.
Proof.
  unfold strip, rstrip. intros H. apply contains_lstrip_inv.
  rewrite <- contains_rev. apply contains_lstrip_inv.
  rewrite <- (rev_involutive (lstrip (rev (lstrip text)))).
  now rewrite contains_rev.
Qed.

Lemma strip_ends (text : pystr) :
  Normal.starts_with_text (strip text) = true
  /\ Normal.starts_with_text (rev (strip text)) = true.
Proof.
  split.
  - unfold strip. apply PostProcessing.rstrip_starts_with_text,
      PostProcessing.lstrip_starts_with_text.
  - unfold strip, rstrip. rewrite rev_involutive.
    apply PostProcessing.lstrip_starts_with_text.
Qed.

(** X24. The sanitized text neither starts nor ends with whitespace, and
    it holds no run of three line feeds and no run of three spaces. *)
Theorem sanitized_text_is_trimmed (text : pystr) :
  Normal.starts_with_text (sanitize_user_input text) = true
  /\ Normal.starts_with_text (rev (sanitize_user_input text)) = true
  /\ contains [10; 10; 10] (sanitize_user_input text) = false
  /\ contains [32; 32; 32] (sanitize_user_input text) = false.
Proof.
  unfold sanitize_user_input. destruct text as [|c text]; [repeat split|].
  set (escaped := html_escape (List.filter (fun c => negb (is_control c))
                                           (firstn 5000 (c :: text)))).
  destruct (strip_ends (squeeze 32 (squeeze 10 escaped))) as [H1 H2].
  split; [exact H1|]. split; [exact H2|]. split.
  - destruct (contains [10; 10; 10] (strip (squeeze 32 (squeeze 10 escaped)))) eqn:E;
      [|reflexivity].
    apply contains_strip_inv, squeeze_keeps_no_run in E.
    now rewrite squeeze_no_run in E.
  - destruct (contains [32; 32; 32] (strip (squeeze 32 (squeeze 10 escaped)))) eqn:E;
      [|reflexivity].
    apply contains_strip_inv in E. now rewrite squeeze_no_run in E.
Qed.

(** X25. A message [validate_message] accepts is not empty and not longer
    than [max_length]; the text given back for it is its sanitized form,
    which is not empty either and can be up to six times as long. *)
Theorem accepted_message_is_sanitized
        (message value : pystr) (max_length : nat) :
  validate_message message max_length = (true, value) ->
  (1 <= length message <= max_length)%nat
  /\ value = sanitize_user_input message
  /\ value <> []
  /\ (length value <= 6 * length message)%nat.
Proof.
  unfold validate_message. destruct message as [|c message]; [discriminate|].
  destruct (Nat.ltb max_length (length (c :: message))) eqn:E; [discriminate|].
  apply Nat.ltb_ge in E.
  destruct (sanitize_user_input (c :: message)) as [|x value'] eqn:Es; [discriminate|].
  intros [= <-]. split; [cbn [length] in *; lia|]. split; [reflexivity|].
  split; [discriminate|]. rewrite <- Es.
  pose proof (length_sanitize (c :: message)) as H.
  rewrite length_firstn in H. lia.
Qed.

Lemma accepted_message_is_sanitized_witness :
  (1 <= length (u "Is <this> fine?") <= 1000)%nat.
Proof.
  destruct (validate_message (u "Is <this> fine?") 1000) as [[] value] eqn:E;
    [|exfalso; vm_compute in E; discriminate E].
  exact (proj1 (accepted_message_is_sanitized _ value 1000 E)).
Defined.

Lemma hex_digits_spec (n : nat) (s rest : pystr) :
  hex_digits n s = Some rest ->
  exists h, s = h ++ rest /\ length h = n /\ Forall (fun c => is_hex c = true) h.
Proof.
  revert s. induction n as [|n IH]; intros s; cbn [hex_digits].
  - intros [= ->]. now exists [].
  - destruct s as [|c s]; [discriminate|]. destruct (is_hex c) eqn:E; [|discriminate].
    intros H. apply IH in H as (h & -> & Hl & Hh).
    exists (c :: h). split; [reflexivity|]. split; [cbn; lia|now constructor].
Qed.

Lemma hyphen_spec (s : pystr) : s = hyphen s \/ s = 45 :: hyphen s.
Proof.
  destruct s as [|c s]; [now left|].
  destruct (N.eq_dec c 45) as [->|H]; [now right|].
  left. unfold hyphen. destruct c as [|p]; [reflexivity|].
  repeat (destruct p as [p|p|]; try reflexivity).
  exfalso. now apply H.
Qed.

Lemma at_end_spec (s : pystr) : at_end s = true -> s = [] \/ s = [10].
Proof.
  destruct s as [|c [|d s]]; [now left| |].
  - intros H. right. f_equal. unfold at_end in H.
    destruct c as [|p]; [discriminate H|].
    repeat (destruct p as [p|p|]; try discriminate H). reflexivity.
  - unfold at_end. destruct c as [|p]; [discriminate|].
    repeat (destruct p as [p|p|]; try discriminate).
Qed.

(** A block of hexadecimal digits, with or without a hyphen before it. *)
Definition block (n : nat) (b : pystr) : Prop :=
  exists h, (b = h \/ b = 45 :: h) /\ length h = n
            /\ Forall (fun c => is_hex c = true) h.

Lemma block_after_hyphen (n : nat) (s rest : pystr) :
  hex_digits n (hyphen s) = Some rest -> exists b, s = b ++ rest /\ block n b.
Proof.
  intros H. apply hex_digits_spec in H as (h & E & Hl & Hh).
  destruct (hyphen_spec s) as [Hs|Hs]; rewrite E in Hs.
  - exists h. split; [exact Hs|]. exists h. auto.
  - exists (45 :: h). split; [exact Hs|]. exists h. auto.
Qed.

Lemma block_shape (n : nat) (b : pystr) :
  block n b ->
  Forall (fun c => is_hex c = true \/ c = 45) b
  /\ length (List.filter is_hex b) = n
  /\ (n <= length b <= S n)%nat.
Proof.
  intros (h & Hb & Hl & Hh).
  assert (Hf : List.filter is_hex h = h).
  { clear Hl Hb. induction Hh as [|c h Hc _ IH]; [reflexivity|]. cbn.
    now rewrite Hc, IH. }
  assert (Ha : Forall (fun c => is_hex c = true \/ c = 45) h)
    by (eapply List.Forall_impl; [|exact Hh]; cbn; auto).
  destruct Hb as [->| ->].
  - rewrite Hf. split; [exact Ha|]. split; [exact Hl|lia].
  - split; [constructor; [now right|exact Ha]|].
    cbn [List.filter]. replace (is_hex 45) with false by reflexivity.
    rewrite Hf. split; [exact Hl|cbn [length]; lia].
Qed.

(** X26. A session id that [validate_session_id] accepts is given back
    unchanged and consists of exactly 32 hexadecimal digits and at most
    four hyphens, possibly followed by one line feed: it has between 32 and
    37 characters, and no quote, space or other character can get through. *)
Theorem accepted_session_id_shape (session_id value : pystr) :
  validate_session_id session_id = (true, value) ->
  value = session_id
  /\ exists core,
       (session_id = core \/ session_id = core ++ [10])
       /\ Forall (fun c => is_hex c = true \/ c = 45) core
       /\ length (List.filter is_hex core) = 32%nat
       /\ (32 <= length core <= 36)%nat.
Proof.
  unfold validate_session_id. destruct session_id as [|c0 s0]; [discriminate|].
  set (s := c0 :: s0).
  destruct (uuid_pattern_match s) eqn:E; [|discriminate].
  intros [= <-]. split; [reflexivity|].
  unfold uuid_pattern_match in E.
  destruct (hex_digits 8 s) as [s1|] eqn:E1; [|discriminate].
  destruct (hex_digits 4 (hyphen s1)) as [s2|] eqn:E2; [|discriminate].
  destruct (hex_digits 4 (hyphen s2)) as [s3|] eqn:E3; [|discriminate].
  destruct (hex_digits 4 (hyphen s3)) as [s4|] eqn:E4; [|discriminate].
  destruct (hex_digits 12 (hyphen s4)) as [s5|] eqn:E5; [|discriminate].
  apply hex_digits_spec in E1 as (b1 & -> & L1 & H1).
  apply block_after_hyphen in E2 as (b2 & -> & B2).
  apply block_after_hyphen in E3 as (b3 & -> & B3).
  apply block_after_hyphen in E4 as (b4 & -> & B4).
  apply block_after_hyphen in E5 as (b5 & -> & B5).
  assert (B1 : block 8 b1) by (exists b1; auto).
  apply block_shape in B1 as (A1 & F1 & N1), B2 as (A2 & F2 & N2),
    B3 as (A3 & F3 & N3), B4 as (A4 & F4 & N4), B5 as (A5 & F5 & N5).
  assert (N1' : length b1 = 8%nat) by exact L1.
  exists (b1 ++ b2 ++ b3 ++ b4 ++ b5).
  split; [|split; [|split]].
  - apply at_end_spec in E as [-> | ->].
    + left. now rewrite !app_nil_r.
    + right. now rewrite <- !app_assoc.
  - repeat (apply Forall_app; split); assumption.
  - rewrite !List.filter_app, !length_app. lia.
  - rewrite !length_app. lia.
Qed.

Lemma accepted_session_id_shape_witness :
  exists core,
    (u "123e4567-e89b-12d3-a456-426614174000" = core
     \/ u "123e4567-e89b-12d3-a456-426614174000" = core ++ [10])
    /\ (32 <= length core <= 36)%nat.
Proof.
  destruct (validate_session_id (u "123e4567-e89b-12d3-a456-426614174000"))
    as [[] value] eqn:E; [|exfalso; vm_compute in E; discriminate E].
  destruct (accepted_session_id_shape _ value E) as (_ & core & H1 & _ & _ & H2).
  exists core. split; [exact H1|exact H2].
Defined.

Lemma hex_digits_app (n : nat) (s rest t : pystr) :
  hex_digits n s = Some rest -> hex_digits n (s ++ t) = Some (rest ++ t).
Proof.
  revert s. induction n as [|n IH]; intros s; cbn [hex_digits].
  - now intros [= ->].
  - destruct s as [|c s]; [discriminate|]. cbn [app].
    destruct (is_hex c); [apply IH|discriminate].
Qed.

Lemma hyphen_app (s t : pystr) : s <> [] -> hyphen (s ++ t) = hyphen s ++ t.
Proof.
  destruct s as [|c s]; [contradiction|]. intros _. cbn [app].
  destruct (N.eq_dec c 45) as [->|H]; [reflexivity|].
  unfold hyphen. destruct c as [|p]; [reflexivity|].
  repeat (destruct p as [p|p|]; try reflexivity).
Qed.

Lemma hex_digits_nonempty (n : nat) (s rest : pystr) :
  hex_digits (S n) (hyphen s) = Some rest -> s <> [].
Proof. intros H ->. discriminate H. Qed.

(** X27. The pattern ends in a dollar sign, which also matches before a
    final line feed: an accepted session id that does not end in a line
    feed is accepted again, line feed included, when one is added. *)
Theorem session_id_with_line_feed_is_accepted (session_id : pystr) :
  validate_session_id session_id = (true, session_id) ->
  last session_id <> Some 10 ->
  validate_session_id (session_id ++ [10]) = (true, session_id ++ [10]).
Proof.
  unfold validate_session_id. destruct session_id as [|c0 s0]; [discriminate|].
  cbn [app]. change (c0 :: s0 ++ [10]) with ((c0 :: s0) ++ [10]).
  set (s := c0 :: s0).
  destruct (uuid_pattern_match s) eqn:E; [|discriminate]. intros _ Hlast.
  unfold uuid_pattern_match in *.
  destruct (hex_digits 8 s) as [s1|] eqn:E1; [|discriminate].
  destruct (hex_digits 4 (hyphen s1)) as [s2|] eqn:E2; [|discriminate].
  destruct (hex_digits 4 (hyphen s2)) as [s3|] eqn:E3; [|discriminate].
  destruct (hex_digits 4 (hyphen s3)) as [s4|] eqn:E4; [|discriminate].
  destruct (hex_digits 12 (hyphen s4)) as [s5|] eqn:E5; [|discriminate].
  rewrite (hex_digits_app _ _ _ [10] E1).
  rewrite (hyphen_app s1 [10] (hex_digits_nonempty _ _ _ E2)),
    (hex_digits_app _ _ _ [10] E2).
  rewrite (hyphen_app s2 [10] (hex_digits_nonempty _ _ _ E3)),
    (hex_digits_app _ _ _ [10] E3).
  rewrite (hyphen_app s3 [10] (hex_digits_nonempty _ _ _ E4)),
    (hex_digits_app _ _ _ [10] E4).
  rewrite (hyphen_app s4 [10] (hex_digits_nonempty _ _ _ E5)),
    (hex_digits_app _ _ _ [10] E5).
  apply at_end_spec in E as [-> | ->]; [reflexivity|].
  exfalso. apply Hlast.
  apply hex_digits_spec in E1 as (b1 & Hs & _).
  apply block_after_hyphen in E2 as (b2 & -> & _).
  apply block_after_hyphen in E3 as (b3 & -> & _).
  apply block_after_hyphen in E4 as (b4 & -> & _).
  apply block_after_hyphen in E5 as (b5 & -> & _).
  rewrite Hs, !app_assoc. apply last_snoc.
Qed.

Lemma session_id_with_line_feed_is_accepted_witness :
  fst (validate_session_id (u "123e4567-e89b-12d3-a456-426614174000" ++ [10])) = true.
Proof.
  rewrite (session_id_with_line_feed_is_accepted
             (u "123e4567-e89b-12d3-a456-426614174000")).
  - reflexivity.
  - vm_compute. reflexivity.
  - vm_compute. discriminate.
Defined.

End ValidatorProperties.

(** ** The rate limiter (krishna_backend/api/app.py) *)
Module RateLimitProperties.
Import QArith Lqa RateLimit.
#[local] Open Scope Q_scope.

(** The store after a sequence of events. *)
Fixpoint run (events : list Event) (rate_limits : Store) : Store :=
  match events with
  | [] => rate_limits
  | e :: rest => run rest (fst (handle e rate_limits))
  end.

Lemma serve_app (l1 l2 : list Event) (store : Store) :
  serve (l1 ++ l2) store = (serve l1 store ++ serve l2 (run l1 store))%list.
Proof.
  revert store. induction l1 as [|e l1 IH]; intros store; [reflexivity|].
  cbn [app serve run]. destruct (handle e store) as [store' ok].
  cbn [fst]. now rewrite IH.
Qed.

Lemma run_app (l1 l2 : list Event) (store : Store) :
  run (l1 ++ l2) store = run l2 (run l1 store).
Proof.
  revert store. induction l1 as [|e l1 IH]; intros store; [reflexivity|].
  cbn [app run]. apply IH.
Qed.

Lemma length_serve (l : list Event) (store : Store) :
  length (serve l store) = length l.
Proof.
  revert store. induction l as [|e l IH]; intros store; [reflexivity|].
  cbn [serve]. destruct (handle e store). cbn. now rewrite IH.
Qed.

Lemma let_through_app (ip : pystr) (r1 r2 : list Event) (a1 a2 : list bool)
      (so_far : list Q) :
  length r1 = length a1 ->
  let_through ip (r1 ++ r2) (a1 ++ a2) so_far
  = let_through ip r2 a2 (let_through ip r1 a1 so_far).
Proof.
  revert a1 so_far.
  induction r1 as [|e r1 IH]; intros [|ok a1] so_far H; try discriminate H.
  - reflexivity.
  - destruct e; cbn [app let_through]; apply IH; cbn in H; lia.
Qed.

Lemma readings_app (l1 l2 : list Event) :
  readings (l1 ++ l2) = (readings l1 ++ readings l2)%list.
Proof. apply flat_map_app. Qed.

Lemma recent_earlier (now t x : Q) :
  t <= now -> recent now x = true -> recent t x = true.
Proof.
  unfold recent. intros Ht H. apply negb_true_iff in H. apply negb_true_iff.
  destruct (Qle_bool (inject_Z 60) (t - x)) eqn:E; [|reflexivity].
  apply Qle_bool_iff in E.
  assert (E' : inject_Z 60 <= now - x) by lra.
  apply Qle_bool_iff in E'. rewrite E' in H. discriminate H.
Qed.

Lemma filter_recent_twice (now t : Q) (h : list Q) :
  t <= now ->
  List.filter (recent now) (List.filter (recent t) h) = List.filter (recent now) h.
Proof.
  intros Ht. induction h as [|x h IH]; [reflexivity|]. cbn.
  destruct (recent t x) eqn:E; cbn.
  - now rewrite IH.
  - destruct (recent now x) eqn:E'; [|exact IH].
    rewrite (recent_earlier _ _ _ Ht E') in E. discriminate E.
Qed.

(** What the store remembers of a client: seen from any later time, the
    recent entries of its history are the recent requests let through
    since the store was last emptied. *)
Definition remembers (ip : pystr) (processed : list Event) (store : Store)
           (passed : list Q) : Prop :=
  match store !! ip with
  | None => passed = []
  | Some h =>
      forall now, Forall (fun t => t <= now) (readings processed) ->
                  List.filter (recent now) h = List.filter (recent now) passed
  end.

Lemma run_remembers (ip : pystr) (processed : list Event) :
  remembers ip processed (run processed ∅)
            (let_through ip processed (serve processed ∅) []).
Proof.
  induction processed as [|e pre IH] using rev_ind.
  - unfold remembers. cbn [run serve let_through]. now rewrite lookup_empty.
  - rewrite run_app, serve_app, let_through_app by (now rewrite length_serve).
    set (store := run pre ∅) in *.
    set (acc := let_through ip pre (serve pre ∅) []) in *.
    unfold remembers in *. rewrite readings_app.
    destruct e as [limit ip' t'|].
    2:{ cbn [run serve handle fst let_through]. now rewrite lookup_empty. }
    cbn [run serve handle readings flat_map].
    destruct (rate_limit limit ip' t' store) as [store' ok] eqn:E.
    cbn [fst let_through].
    unfold rate_limit in E.
    destruct (streq ip' ip) eqn:Eip.
    + apply streq_eq in Eip. subst ip'.
      destruct (store !! ip) as [h|] eqn:Eh.
      * destruct (Nat.leb limit (length (List.filter (recent t') h))).
        -- injection E as <- <-. rewrite Eh. cbn [andb].
           intros now Hnow. apply IH. apply Forall_app in Hnow. tauto.
        -- injection E as <- <-. rewrite lookup_insert_eq. cbn [andb].
           intros now Hnow. apply Forall_app in Hnow as [Hpre Ht].
           apply Forall_inv in Ht.
           rewrite !List.filter_app, filter_recent_twice by exact Ht.
           now rewrite (IH now Hpre).
      * injection E as <- <-. rewrite lookup_insert_eq. cbn [andb]. rewrite IH.
        reflexivity.
    + assert (Hne : ip' <> ip) by (intros ->; now rewrite streq_refl in Eip).
      assert (Hsame : store' !! ip = store !! ip).
      { destruct (store !! ip') as [h'|].
        - destruct (Nat.leb limit (length (List.filter (recent t') h')));
            injection E as <- _; [reflexivity|now apply lookup_insert_ne].
        - injection E as <- _. now apply lookup_insert_ne. }
      rewrite Hsame. cbn [andb].
      destruct (store !! ip) as [h|]; [|exact IH].
      intros now Hnow. apply IH. apply Forall_app in Hnow. tauto.
Qed.

(** X28. The endpoints share one store of request times, each with a
    limit of its own, and [/delete_all_conversations] empties it.  With
    requests that arrive in the order of their clock readings (readings
    from 60 on, where the comparison of [recent] is the one the code
    makes), a request for an endpoint with a limit of at least one is let
    through exactly when fewer than that limit of the client's requests,
    for whichever wrapped endpoint, were let through in the sixty seconds
    before it and since the store was last emptied.  Other clients never
    count; a request that follows the emptying of the store finds no
    history. *)
Theorem rate_limit_bounds_the_window
        (limit_per_minute : nat) (before after : list Event)
        (client_ip : pystr) (current_time : Q) :
  (0 < limit_per_minute)%nat ->
  in_time_order (before ++ Limited limit_per_minute client_ip current_time :: after) ->
  Forall (fun t => inject_Z 60 <= t)
         (readings (before ++ Limited limit_per_minute client_ip current_time :: after)) ->
  nth_error
    (serve (before ++ Limited limit_per_minute client_ip current_time :: after) ∅)
    (length before)
  = Some (Nat.ltb
            (length (List.filter (recent current_time)
                       (let_through client_ip before (serve before ∅) [])))
            limit_per_minute).
Proof.
  intros Hlimit Horder _.
  rewrite serve_app.
  rewrite nth_error_app2 by (rewrite length_serve; lia).
  rewrite length_serve, Nat.sub_diag. cbn [serve handle].
  pose proof (run_remembers client_ip before) as Hrem.
  set (store := run before ∅) in *.
  unfold remembers in Hrem. unfold rate_limit.
  assert (Hup : Forall (fun t => t <= current_time) (readings before)).
  { clear -Horder. unfold in_time_order in Horder. rewrite readings_app in Horder.
    induction (readings before) as [|x l IH]; [constructor|].
    cbn in Horder. apply StronglySorted_inv in Horder as [Hs Hall].
    constructor; [|exact (IH Hs)].
    rewrite List.Forall_forall in Hall. apply (Hall current_time).
    apply in_or_app. right. now left. }
  destruct (store !! client_ip) as [h|].
  - rewrite <- (Hrem current_time Hup).
    destruct (Nat.leb limit_per_minute (length (List.filter (recent current_time) h)))
      eqn:E; cbn [nth_error]; f_equal; symmetry.
    + apply Nat.ltb_ge. now apply Nat.leb_le.
    + apply Nat.ltb_lt. now apply Nat.leb_gt.
  - rewrite Hrem. cbn [nth_error List.filter length]. f_equal. symmetry.
    now apply Nat.ltb_lt.
Qed.

Lemma rate_limit_bounds_the_window_witness :
  nth_error
    (serve [Limited 20 (u "10.0.0.1") (inject_Z 1000);
            Limited 10 (u "10.0.0.1") (inject_Z 1010);
            Limited 20 (u "10.0.0.2") (inject_Z 1015);
            Limited 2 (u "10.0.0.1") (inject_Z 1020)] ∅) 3 = Some false
  /\ nth_error
       (serve [Limited 20 (u "10.0.0.1") (inject_Z 1000);
               Limited 10 (u "10.0.0.1") (inject_Z 1010);
               DeleteAll;
               Limited 2 (u "10.0.0.1") (inject_Z 1020)] ∅) 3 = Some true.
Proof.
  split.
  - refine (eq_trans
              (rate_limit_bounds_the_window 2
                 [Limited 20 (u "10.0.0.1") (inject_Z 1000);
                  Limited 10 (u "10.0.0.1") (inject_Z 1010);
                  Limited 20 (u "10.0.0.2") (inject_Z 1015)]
                 [] (u "10.0.0.1") (inject_Z 1020) _ _ _) _).
    + lia.
    + unfold in_time_order. cbn. repeat constructor; discriminate.
    + cbn. repeat constructor; discriminate.
    + vm_compute. reflexivity.
  - refine (eq_trans
              (rate_limit_bounds_the_window 2
                 [Limited 20 (u "10.0.0.1") (inject_Z 1000);
                  Limited 10 (u "10.0.0.1") (inject_Z 1010);
                  DeleteAll]
                 [] (u "10.0.0.1") (inject_Z 1020) _ _ _) _).
    + lia.
    + unfold in_time_order. cbn. repeat constructor; discriminate.
    + cbn. repeat constructor; discriminate.
    + vm_compute. reflexivity.
Defined.

End RateLimitProperties.
